(** * Buffer and recommendation engine of the warehouse assistant

    A shallow embedding of the calculation pipeline of the backend
    (sales_daily builder, buffer recalculation, recommendations, KPI and the
    lead-time part of the explain payload), followed by the properties that
    the specification states about it.  The rebalancing tool of the
    assistant and the whole explain payload are embedded as well; the last
    part proves further properties of all of these.

    Modelling conventions

    - A JavaScript [number] and a Postgres [DECIMAL] are both exact
      rationals ([Q]); equalities between computed quantities are stated
      with [==].  Binary floating point rounding is not modelled.
    - A [Date] / [TIMESTAMP(3)] is the number of milliseconds since the
      epoch ([Z]); the server runs in UTC, so [startOfDay] truncates to a
      multiple of one day.  A date string 'YYYY-MM-DD' is its day number.
    - The clock ([new Date()], [now()]) is an explicit argument [now].
    - Tables with an upsert in the code are finite maps keyed by their
      primary key; tables that are only read are lists of rows.
    - [ORDER BY] on a text column compares byte by byte: the database is
      taken to use the C collation.  Only the order of the rows of a
      listing depends on this. *)

From Stdlib Require Import ZArith QArith Qround Qabs Lia Lqa.
From stdpp Require Import gmap strings list fin_maps sorting pretty.

(** ** Numbers *)

Module Num.

(** [Math.round]: the nearest integer, halves towards plus infinity. *)
Definition round (x : Q) : Z := Qfloor (x + (1 # 2))%Q.

(** [Math.ceil]. *)
Definition ceil (x : Q) : Z := Qceiling x.

(** [Math.pow(10, precision)]. *)
Definition pow10 (precision : nat) : Z := (10 ^ Z.of_nat precision)%Z.

(** [roundNumber] of recommendations/service.ts and [round] of
    assistant/payload.ts (the same body); the default precision is 1. *)
Definition roundNumber (value : Q) (precision : nat) : Q :=
  let factor := inject_Z (pow10 precision) in
  (inject_Z (round (value * factor)) / factor)%Q.

(** SQL [SUM] over a group, Prisma [_sum]. *)
Definition sum (l : list Q) : Q := foldr Qplus 0%Q l.

(** SQL [AVG] over a group, Prisma [_avg]: NULL on no rows. *)
Definition avg (l : list Q) : option Q :=
  match l with
  | [] => None
  | _ :: _ => Some (sum l / inject_Z (Z.of_nat (length l)))%Q
  end.

(** [x ?? 0] after [Number(...)]. *)
Definition orZero (x : option Q) : Q := default 0%Q x.

End Num.

(** ** date-fns, with the server clock in UTC *)

Module DateFns.

Definition MS_PER_DAY : Z := 86400000.

Definition startOfDay (t : Z) : Z := (t - t mod MS_PER_DAY)%Z.
Definition addDays (t n : Z) : Z := (t + n * MS_PER_DAY)%Z.
Definition subDays (t n : Z) : Z := (t - n * MS_PER_DAY)%Z.

(** [formatISO(t, { representation: 'date' })], as a day number. *)
Definition isoDate (t : Z) : Z := (t / MS_PER_DAY)%Z.

(** [new Date('YYYY-MM-DD')] and [parseISO('YYYY-MM-DD')]. *)
Definition dateStart (d : Z) : Z := (d * MS_PER_DAY)%Z.

(** [new Date(`${d}T23:59:59.999Z`)]. *)
Definition dateEnd (d : Z) : Z := (d * MS_PER_DAY + 86399999)%Z.

Definition differenceInCalendarDays (a b : Z) : Z :=
  (isoDate a - isoDate b)%Z.

(** The date of the first row under [orderBy: { date: 'desc' }]. *)
Definition latestDate (dates : list Z) : option Z :=
  foldr (λ d acc, match acc with None => Some d | Some m => Some (Z.max d m) end) None dates.

End DateFns.

(** ** The relational schema (prisma migration) *)

Module Schema.

Record sales_events_row := {
  se_org_id : string;
  se_order_id : string;
  se_line_id : string;
  se_order_datetime : Z;
  se_sku : string;
  se_qty : Q;
  se_net_amount : option Q;
  se_warehouse_id : option string;
  se_channel : option string
}.

(** sales_daily, primary key (org_id, date, sku, warehouse_id, channel). *)
Definition sales_daily_key : Type := string * Z * string * string * string.

Record sales_daily_val := {
  sd_units : Q;
  sd_revenue : Q;
  sd_orders : Z;
  sd_updated_at : Z
}.

Definition sd_org_id (r : sales_daily_key * sales_daily_val) : string := r.1.1.1.1.1.
Definition sd_date (r : sales_daily_key * sales_daily_val) : Z := r.1.1.1.1.2.
Definition sd_sku (r : sales_daily_key * sales_daily_val) : string := r.1.1.1.2.
Definition sd_warehouse_id (r : sales_daily_key * sales_daily_val) : string := r.1.1.2.
Definition sd_channel (r : sales_daily_key * sales_daily_val) : string := r.1.2.

(** buffers, primary key (org_id, sku, warehouse_id). *)
Definition buffers_key : Type := string * string * string.

Record buffers_val := {
  lead_time_days : Q;
  avg_daily_demand : Q;
  buffer_qty : Q;
  red_th : Q;
  yellow_th : Q;
  updated_at : Z
}.

Record stock_snapshots_row := {
  ss_org_id : string;
  ss_date : Z;
  ss_sku : string;
  ss_warehouse_id : string;
  ss_qty_on_hand : Q;
  ss_batch_id : string;
  ss_expiry_date : option Z
}.

Record lead_time_stats_row := {
  lt_org_id : string;
  lt_supplier_id : string;
  lt_sku : string;
  lt_lead_time_days_median : Q
}.

Record catalog_row := {
  cat_org_id : string;
  cat_sku : string;
  cat_name : string;
  cat_category : option string
}.

Record DB := {
  sales_events : list sales_events_row;
  sales_daily : gmap sales_daily_key sales_daily_val;
  stock_snapshots : list stock_snapshots_row;
  buffers : gmap buffers_key buffers_val;
  lead_time_stats : list lead_time_stats_row;
  catalog : list catalog_row
}.

Definition set_buffers (db : DB) (b : gmap buffers_key buffers_val) : DB :=
  {| sales_events := sales_events db;
     sales_daily := sales_daily db;
     stock_snapshots := stock_snapshots db;
     buffers := b;
     lead_time_stats := lead_time_stats db;
     catalog := catalog db |}.

Definition set_sales_daily (db : DB) (s : gmap sales_daily_key sales_daily_val) : DB :=
  {| sales_events := sales_events db;
     sales_daily := s;
     stock_snapshots := stock_snapshots db;
     buffers := buffers db;
     lead_time_stats := lead_time_stats db;
     catalog := catalog db |}.

End Schema.

(** ** modules/calculations/buffers.ts *)

Module Buffers.
Import Schema.

Definition DEFAULT_LEAD_TIME_DAYS : Q := 7.
Definition BUFFER_FACTOR : Q := 12 # 10.

(** One group of [prisma.sales_daily.groupBy({ by: ['sku'], _avg: { units } })]. *)
Record demand_row := {
  dr_sku : string;
  dr_avg_units : option Q
}.

(** The [where] clause: org, warehouse and [date >= sinceDate]. *)
Definition demandWhere (orgId warehouseId : string) (sinceDate : Z)
    (r : sales_daily_key * sales_daily_val) : Prop :=
  sd_org_id r = orgId ∧ sd_warehouse_id r = warehouseId ∧ (sinceDate ≤ sd_date r)%Z.

Global Instance demandWhere_dec o w s r : Decision (demandWhere o w s r).
Proof. unfold demandWhere. apply _. Defined.

Definition unitsOfSku (rows : list (sales_daily_key * sales_daily_val)) (sku : string) : list Q :=
  (λ r, sd_units r.2) <$> filter (λ r, sd_sku r = sku) rows.

Definition groupBySku (rows : list (sales_daily_key * sales_daily_val)) : list demand_row :=
  (λ sku, {| dr_sku := sku; dr_avg_units := Num.avg (unitsOfSku rows sku) |})
    <$> remove_dups (sd_sku <$> rows).

Definition demandRowsOf (db : DB) (orgId warehouseId : string) (sinceDate : Z) : list demand_row :=
  groupBySku (filter (demandWhere orgId warehouseId sinceDate) (map_to_list (sales_daily db))).

(** The body of the [demandRows.map] callback: one [prisma.buffers.upsert]. *)
Definition upsertBuffer (orgId warehouseId : string) (now : Z)
    (tbl : gmap buffers_key buffers_val) (row : demand_row) : gmap buffers_key buffers_val :=
  let avgDailyDemand := Num.orZero (dr_avg_units row) in
  let leadTimeDays := DEFAULT_LEAD_TIME_DAYS in
  let bufferQty := (avgDailyDemand * leadTimeDays * BUFFER_FACTOR)%Q in
  let key : buffers_key := (orgId, dr_sku row, warehouseId) in
  match tbl !! key with
  | Some _ =>
      (* update *)
      <[key := {| lead_time_days := leadTimeDays;
                  avg_daily_demand := avgDailyDemand;
                  buffer_qty := bufferQty;
                  red_th := (bufferQty / 3)%Q;
                  yellow_th := ((bufferQty * 2) / 3)%Q;
                  updated_at := now |}]> tbl
  | None =>
      (* create; updated_at takes the column default CURRENT_TIMESTAMP *)
      <[key := {| lead_time_days := leadTimeDays;
                  avg_daily_demand := avgDailyDemand;
                  buffer_qty := bufferQty;
                  red_th := (bufferQty / 3)%Q;
                  yellow_th := ((bufferQty * 2) / 3)%Q;
                  updated_at := now |}]> tbl
  end.

Record RecalcResult := { updated : nat }.

Definition recalcBuffers (db : DB) (now : Z) (orgId warehouseId : string)
    (lookbackDays : option Z) : DB * RecalcResult :=
  let lookback := default 60%Z lookbackDays in
  let sinceDate := DateFns.subDays now lookback in
  let demandRows := demandRowsOf db orgId warehouseId sinceDate in
  match demandRows with
  | [] => (db, {| updated := 0 |})
  | _ :: _ =>
      (set_buffers db (foldl (upsertBuffer orgId warehouseId now) (buffers db) demandRows),
       {| updated := length demandRows |})
  end.

(** [mapBuffer]: the row as the services see it. *)
Record BufferView := {
  sku : string;
  warehouseId : string;
  avgDailyDemand : Q;
  leadTimeDays : Q;
  bufferQty : Q;
  redThreshold : Q;
  yellowThreshold : Q;
  updatedAt : Z
}.

Definition mapBuffer (row : buffers_key * buffers_val) : BufferView :=
  {| sku := row.1.1.2;
     warehouseId := row.1.2;
     avgDailyDemand := avg_daily_demand row.2;
     leadTimeDays := lead_time_days row.2;
     bufferQty := buffer_qty row.2;
     redThreshold := red_th row.2;
     yellowThreshold := yellow_th row.2;
     updatedAt := updated_at row.2 |}.

Definition buffersWhere (orgId warehouseId : string) (row : buffers_key * buffers_val) : Prop :=
  row.1.1.1 = orgId ∧ row.1.2 = warehouseId.

Global Instance buffersWhere_dec o w r : Decision (buffersWhere o w r).
Proof. unfold buffersWhere. apply _. Defined.

(** [orderBy: { sku: 'asc' }], under the C collation. *)
Definition skuAsc (a b : buffers_key * buffers_val) : Prop :=
  String.leb a.1.1.2 b.1.1.2 = true.

Global Instance skuAsc_dec a b : Decision (skuAsc a b).
Proof. unfold skuAsc. apply _. Defined.

Definition buffersOrdered (tbl : gmap buffers_key buffers_val) (orgId warehouseId : string)
    : list (buffers_key * buffers_val) :=
  merge_sort skuAsc (filter (buffersWhere orgId warehouseId) (map_to_list tbl)).

Definition listBuffers (tbl : gmap buffers_key buffers_val) (orgId warehouseId : string)
    : list BufferView :=
  mapBuffer <$> buffersOrdered tbl orgId warehouseId.

(** Prisma's [skip] and [take] over an ordered result.  A negative [take]
    reads from the end of the ordering: the order is reversed, [skip] and
    [|take|] are applied, and the rows are put back in order.  [skip] is
    never negative here: the only caller passes [Math.max(0, ...)]. *)
Definition paginate {A : Type} (skip take : Z) (rows : list A) : list A :=
  if (take <? 0)%Z
  then reverse (firstn (Z.to_nat (- take)) (skipn (Z.to_nat skip) (reverse rows)))
  else firstn (Z.to_nat take) (skipn (Z.to_nat skip) rows).

Definition listBuffersPage (tbl : gmap buffers_key buffers_val) (orgId warehouseId : string)
    (skip take : Z) : list BufferView * nat :=
  let rows := buffersOrdered tbl orgId warehouseId in
  (mapBuffer <$> paginate skip take rows, length rows).

(** *** Views used to state the properties *)

(** The rollup rows of the lookback window, as the [where] clause selects them. *)
Definition windowRows (orgId warehouseId : string) (now : Z) (db : DB)
    (lookbackDays : option Z)
    : list (sales_daily_key * sales_daily_val) :=
  filter (demandWhere orgId warehouseId (DateFns.subDays now (default 60%Z lookbackDays)))
         (map_to_list (sales_daily db)).

(** The row that both branches of the upsert store for a demand row. *)
Definition writtenBuffer (now : Z) (row : demand_row) : buffers_val :=
  let avg := Num.orZero (dr_avg_units row) in
  let qty := (avg * DEFAULT_LEAD_TIME_DAYS * BUFFER_FACTOR)%Q in
  {| lead_time_days := DEFAULT_LEAD_TIME_DAYS;
     avg_daily_demand := avg;
     buffer_qty := qty;
     red_th := (qty / 3)%Q;
     yellow_th := ((qty * 2) / 3)%Q;
     updated_at := now |}.

End Buffers.

(** ** modules/recommendations/service.ts *)

Module Recommendations.
Import Schema.

(** [date] is the instant [new Date(date)]. *)
Record RecommendationInput := {
  orgId : string;
  warehouseId : string;
  date : Z;
  autoRecalc : option bool;
  page : option Z;
  pageSize : option Z
}.

Inductive Segment := SegA | SegB | SegC.
Inductive Zone := red | yellow | green.

Record Overstock := {
  ratio : Q;
  message : string
}.

Record RecommendationRow := {
  sku : string;
  category : option string;
  name : string;
  segment : Segment;
  zone : Zone;
  target : Q;
  onHand : Q;
  inbound : Q;
  suggestedQty : Z;
  reason : string;
  overstock : option Overstock;
  avgDailyDemand : Q;
  leadTimeDays : Q;
  daysOfSupply : option Q;
  bufferPenetration : option Q;
  monthlyDemand : Q
}.

Record RecommendationPage := {
  data : list RecommendationRow;
  total : nat;
  effectiveDate : option Z
}.

Definition resolveZone (onHand red_ yellow_ : Q) : Zone :=
  if Qlt_le_dec red_ onHand then
    if Qlt_le_dec yellow_ onHand then green else yellow
  else red.

(** [avgDailyDemand] may be undefined or null in the signature. *)
Definition detectOverstock (onHand : Q) (avgDailyDemand : option Q) : option Overstock :=
  match avgDailyDemand with
  | None => None
  | Some avg =>
      if Qeq_bool avg 0 then None
      else if Qlt_le_dec 0 avg then
        let demand30 := (avg * 30)%Q in
        if Qlt_le_dec 0 demand30 then
          let ratio_ := (onHand / demand30)%Q in
          if Qlt_le_dec (11 # 10) ratio_ then
            Some {| ratio := Num.roundNumber ratio_ 2;
                    message := "Запас ≈" +:+ pretty (Num.round (ratio_ * 100)%Q)
                                 +:+ "% від місячного попиту" |}
          else None
        else None
      else None
  end.

Definition classifySegment (avgDailyDemand : Q) : Segment :=
  if Qlt_le_dec avgDailyDemand 20 then
    if Qlt_le_dec avgDailyDemand 10 then SegC else SegB
  else SegA.

(** One group of [stock_snapshots.groupBy({ by: ['sku'], _sum: { qty_on_hand } })]. *)
Record stock_group := {
  sg_sku : string;
  sg_sum_qty_on_hand : option Q
}.

Definition stockWhere (orgId warehouseId : string) (rangeStart rangeEnd : Z)
    (skuList : list string) (s : stock_snapshots_row) : Prop :=
  ss_org_id s = orgId ∧ ss_warehouse_id s = warehouseId
  ∧ (rangeStart ≤ ss_date s)%Z ∧ (ss_date s < rangeEnd)%Z ∧ ss_sku s ∈ skuList.

Global Instance stockWhere_dec o w a b l s : Decision (stockWhere o w a b l s).
Proof. unfold stockWhere. apply _. Defined.

Definition qtyOfSku (rows : list stock_snapshots_row) (sku : string) : list Q :=
  ss_qty_on_hand <$> filter (λ s, ss_sku s = sku) rows.

(** The closure [fetchStockRows] of [getRecommendations]. *)
Definition fetchStockRows (snaps : list stock_snapshots_row) (orgId warehouseId : string)
    (skuList : list string) (rangeStart rangeEnd : Z) : list stock_group :=
  match skuList with
  | [] => []
  | _ :: _ =>
      let rows := filter (stockWhere orgId warehouseId rangeStart rangeEnd skuList) snaps in
      (λ sku, {| sg_sku := sku; sg_sum_qty_on_hand := Some (Num.sum (qtyOfSku rows sku)) |})
        <$> remove_dups (ss_sku <$> rows)
  end.

(** [findFirst({ where: { org, warehouse, date: { lte: dayEnd } },
    orderBy: { date: 'desc' }, select: { date } })]. *)
Definition fallbackWhere (orgId warehouseId : string) (dayEnd : Z)
    (s : stock_snapshots_row) : Prop :=
  ss_org_id s = orgId ∧ ss_warehouse_id s = warehouseId ∧ (ss_date s ≤ dayEnd)%Z.

Global Instance fallbackWhere_dec o w e s : Decision (fallbackWhere o w e s).
Proof. unfold fallbackWhere. apply _. Defined.

Definition findFallbackDate (snaps : list stock_snapshots_row) (orgId warehouseId : string)
    (dayEnd : Z) : option Z :=
  DateFns.latestDate (ss_date <$> filter (fallbackWhere orgId warehouseId dayEnd) snaps).

(** The stock rows finally used and the effective date. *)
Definition resolveStock (snaps : list stock_snapshots_row) (orgId warehouseId : string)
    (skuList : list string) (dayStart dayEnd : Z) : list stock_group * option Z :=
  let stockRows := fetchStockRows snaps orgId warehouseId skuList dayStart dayEnd in
  match stockRows with
  | _ :: _ => (stockRows, Some dayStart)
  | [] =>
      match findFallbackDate snaps orgId warehouseId dayEnd with
      | Some fallbackDate =>
          let fallbackStart := DateFns.startOfDay fallbackDate in
          let fallbackEnd := DateFns.addDays fallbackStart 1 in
          let stockRows' := fetchStockRows snaps orgId warehouseId skuList fallbackStart fallbackEnd in
          match stockRows' with
          | _ :: _ => (stockRows', Some fallbackStart)
          | [] => (stockRows', None)
          end
      | None => (stockRows, None)
      end
  end.

(** [new Map(entries)]: a later entry replaces an earlier one. *)
Definition newMap {V : Type} (entries : list (string * V)) : gmap string V :=
  foldl (λ m kv, <[kv.1 := kv.2]> m) ∅ entries.

Definition stockMapOf (stockRows : list stock_group) : gmap string Q :=
  newMap ((λ row, (sg_sku row, Num.orZero (sg_sum_qty_on_hand row))) <$> stockRows).

Definition catalogWhere (orgId : string) (skuList : list string) (c : catalog_row) : Prop :=
  cat_org_id c = orgId ∧ cat_sku c ∈ skuList.

Global Instance catalogWhere_dec o l c : Decision (catalogWhere o l c).
Proof. unfold catalogWhere. apply _. Defined.

Definition catalogMapOf (cat : list catalog_row) (orgId : string) (skuList : list string)
    : gmap string (option string * string) :=
  match skuList with
  | [] => ∅
  | _ :: _ =>
      newMap ((λ row, (cat_sku row, (cat_category row, cat_name row)))
                <$> filter (catalogWhere orgId skuList) cat)
  end.

Definition reasonOf (z : Zone) : string :=
  match z with
  | red => "рівень у червоній зоні, необхідне термінове поповнення"
  | yellow => "жовта зона — заплануйте замовлення"
  | green => "зелена зона — запас у нормі"
  end.

(** The body of the [buffers.map] callback. *)
Definition recommend (stockMap : gmap string Q)
    (catalogMap : gmap string (option string * string))
    (buffer : Buffers.BufferView) : RecommendationRow :=
  let onHand_ := default 0%Q (stockMap !! Buffers.sku buffer) in
  let inbound_ := 0%Q in
  let target_ := Buffers.bufferQty buffer in
  let orderRaw := (target_ - (onHand_ + inbound_))%Q in
  let suggestedQty_ := Z.max 0 (Num.ceil orderRaw) in
  let zone_ := resolveZone onHand_ (Buffers.redThreshold buffer) (Buffers.yellowThreshold buffer) in
  let reason_ := reasonOf zone_ in
  let avgDailyDemand_ := Buffers.avgDailyDemand buffer in
  let leadTimeDays_ := Buffers.leadTimeDays buffer in
  let daysOfSupply_ :=
    if Qlt_le_dec 0 avgDailyDemand_
    then Some (Num.roundNumber (onHand_ / avgDailyDemand_) 1) else None in
  let bufferPenetration_ :=
    if Qlt_le_dec 0 target_
    then Some (Num.roundNumber ((onHand_ + inbound_) / target_) 2) else None in
  let overstock_ := detectOverstock onHand_ (Some avgDailyDemand_) in
  {| sku := Buffers.sku buffer;
     category := catalogMap !! Buffers.sku buffer ≫= fst;
     name := default (Buffers.sku buffer) (snd <$> catalogMap !! Buffers.sku buffer);
     segment := classifySegment avgDailyDemand_;
     zone := zone_;
     target := Num.roundNumber target_ 1;
     onHand := Num.roundNumber onHand_ 1;
     inbound := inbound_;
     suggestedQty := suggestedQty_;
     reason := reason_;
     overstock := overstock_;
     avgDailyDemand := Num.roundNumber avgDailyDemand_ 1;
     leadTimeDays := Num.roundNumber leadTimeDays_ 1;
     daysOfSupply := daysOfSupply_;
     bufferPenetration := bufferPenetration_;
     monthlyDemand := Num.roundNumber (avgDailyDemand_ * 30) 1 |}.

Definition getRecommendations (db : DB) (now : Z) (input : RecommendationInput)
    : DB * RecommendationPage :=
  let autoRecalc_ := default true (autoRecalc input) in
  let page_ := default 1%Z (page input) in
  let pageSize_ := default 100%Z (pageSize input) in
  let db1 :=
    if autoRecalc_
    then (Buffers.recalcBuffers db now (orgId input) (warehouseId input) None).1
    else db in
  let dayStart := DateFns.startOfDay (date input) in
  let dayEnd := DateFns.addDays dayStart 1 in
  let skip := Z.max 0 ((page_ - 1) * pageSize_) in
  let '(buffers_, total_) :=
    Buffers.listBuffersPage (buffers db1) (orgId input) (warehouseId input) skip pageSize_ in
  match buffers_ with
  | [] => (db1, {| data := []; total := total_; effectiveDate := None |})
  | _ :: _ =>
      let skuList := Buffers.sku <$> buffers_ in
      let '(stockRows, effectiveDate_) :=
        resolveStock (stock_snapshots db1) (orgId input) (warehouseId input)
                     skuList dayStart dayEnd in
      let catalogMap := catalogMapOf (catalog db1) (orgId input) skuList in
      let stockMap := stockMapOf stockRows in
      (db1, {| data := recommend stockMap catalogMap <$> buffers_;
               total := total_;
               effectiveDate := effectiveDate_ |})
  end.

(** *** Views used to state the properties *)

(** The page of buffers that a request reads from a database. *)
Definition pageOf (db1 : DB) (input : RecommendationInput) : list Buffers.BufferView :=
  (Buffers.listBuffersPage (buffers db1) (orgId input) (warehouseId input)
     (Z.max 0 ((default 1%Z (page input) - 1) * default 100%Z (pageSize input)))
     (default 100%Z (pageSize input))).1.

(** The stock rows and the effective date resolved for that page. *)
Definition stockOf (db1 : DB) (input : RecommendationInput) : list stock_group * option Z :=
  resolveStock (stock_snapshots db1) (orgId input) (warehouseId input)
               (Buffers.sku <$> pageOf db1 input)
               (DateFns.startOfDay (date input))
               (DateFns.addDays (DateFns.startOfDay (date input)) 1).

(** The on-hand quantity that the service uses for a SKU, before rounding. *)
Definition onHandUsed (db1 : DB) (input : RecommendationInput) (s : string) : Q :=
  default 0%Q (stockMapOf (stockOf db1 input).1 !! s).

Definition withAutoRecalc (input : RecommendationInput) (auto : bool) : RecommendationInput :=
  {| orgId := orgId input;
     warehouseId := warehouseId input;
     date := date input;
     autoRecalc := Some auto;
     page := page input;
     pageSize := pageSize input |}.

End Recommendations.

(** ** modules/sales/daily-builder.ts *)

Module SalesDaily.
Import Schema.

(** [from] and [to] are date strings 'YYYY-MM-DD', held as day numbers. *)
Record RebuildOptions := {
  orgId : string;
  from : option Z;
  to : option Z
}.

Definition WAREHOUSE_FALLBACK : string := "GLOBAL".
Definition CHANNEL_FALLBACK : string := "ALL".

Definition fromDateOf (now : Z) (opts : RebuildOptions) : Z :=
  default (DateFns.isoDate (DateFns.subDays now 90)) (from opts).

Definition toDateOf (now : Z) (opts : RebuildOptions) : Z :=
  default (DateFns.isoDate now) (to opts).

(** WHERE org_id = ... AND order_datetime BETWEEN lo AND hi. *)
Definition selectWhere (org : string) (lo hi : Z) (e : sales_events_row) : Prop :=
  se_org_id e = org ∧ (lo ≤ se_order_datetime e)%Z ∧ (se_order_datetime e ≤ hi)%Z.

Global Instance selectWhere_dec o lo hi e : Decision (selectWhere o lo hi e).
Proof. unfold selectWhere. apply _. Defined.

(** GROUP BY org_id, date(order_datetime), sku, warehouse_id, channel: the
    names warehouse_id and channel denote the input columns, which may be
    NULL, not the coalesced output columns. *)
Definition group_key : Type := string * Z * string * option string * option string.

Definition groupKeyOf (e : sales_events_row) : group_key :=
  (se_org_id e, DateFns.startOfDay (se_order_datetime e), se_sku e,
   se_warehouse_id e, se_channel e).

(** The select list of one group. *)
Definition outputKey (g : group_key) : sales_daily_key :=
  match g with
  | (org, day, sku, wh, ch) =>
      (org, day, sku, default WAREHOUSE_FALLBACK wh, default CHANNEL_FALLBACK ch)
  end.

Record excluded := {
  ex_units : Q;
  ex_revenue : Q;
  ex_orders : Z
}.

Definition aggregate (members : list sales_events_row) : excluded :=
  {| ex_units := Num.sum (se_qty <$> members);
     ex_revenue := Num.sum (omap se_net_amount members);
     ex_orders := Z.of_nat (length (remove_dups (se_order_id <$> members))) |}.

Definition selectRows (events : list sales_events_row) (org : string) (lo hi : Z)
    : list (sales_daily_key * excluded) :=
  let rows := filter (selectWhere org lo hi) events in
  (λ g, (outputKey g, aggregate (filter (λ e, groupKeyOf e = g) rows)))
    <$> remove_dups (groupKeyOf <$> rows).

(** INSERT ... ON CONFLICT (primary key) DO UPDATE SET ..., one proposed row. *)
Definition upsertRollup (now : Z) (tbl : gmap sales_daily_key sales_daily_val)
    (p : sales_daily_key * excluded) : gmap sales_daily_key sales_daily_val :=
  match tbl !! p.1 with
  | Some _ =>
      <[p.1 := {| sd_units := ex_units p.2;
                  sd_revenue := ex_revenue p.2;
                  sd_orders := ex_orders p.2;
                  sd_updated_at := now |}]> tbl
  | None =>
      <[p.1 := {| sd_units := ex_units p.2;
                  sd_revenue := ex_revenue p.2;
                  sd_orders := ex_orders p.2;
                  sd_updated_at := now |}]> tbl
  end.

(** Postgres rejects the whole statement when two proposed rows carry the
    same conflict key ("ON CONFLICT DO UPDATE command cannot affect row a
    second time"); the promise then rejects and nothing is stored. *)
Inductive RebuildError := CardinalityViolation.

Record RebuildRange := {
  range_from : Z;
  range_to : Z
}.

Definition rebuildSalesDaily (db : DB) (now : Z) (opts : RebuildOptions)
    : RebuildError + DB * RebuildRange :=
  let fromDate := fromDateOf now opts in
  let toDate := toDateOf now opts in
  let proposed :=
    selectRows (sales_events db) (orgId opts)
               (DateFns.dateStart fromDate) (DateFns.dateEnd toDate) in
  if decide (NoDup (fst <$> proposed)) then
    inr (set_sales_daily db (foldl (upsertRollup now) (sales_daily db) proposed),
         {| range_from := fromDate; range_to := toDate |})
  else inl CardinalityViolation.

(** The stored columns of a proposed row. *)
Definition storedRollup (t : Z) (p : sales_daily_key * excluded) : sales_daily_val :=
  {| sd_units := ex_units p.2;
     sd_revenue := ex_revenue p.2;
     sd_orders := ex_orders p.2;
     sd_updated_at := t |}.

(** The columns of a rollup that the aggregation computes. *)
Definition rollupValues (v : sales_daily_val) : Q * Q * Z :=
  (sd_units v, sd_revenue v, sd_orders v).

End SalesDaily.

(** ** modules/kpi/service.ts *)

Module Kpi.
Import Schema.

(** [from] and [to] are the instants [new Date(from)] and [new Date(to)]. *)
Record KpiInput := {
  orgId : string;
  sku : string;
  warehouseId : option string;
  from : option Z;
  to : option Z
}.

Record Metrics := {
  dos : option Q;
  turns : Q;
  median_days_to_sell : option Z;
  fefo_risk : bool;
  on_hand : Q;
  avg_daily_demand : Q
}.

Record KpiResult := {
  res_sku : string;
  res_from : Z;
  res_to : Z;
  metrics : Metrics
}.

Definition fromDateOf (now : Z) (input : KpiInput) : Z :=
  DateFns.isoDate (default (DateFns.subDays now 30) (from input)).

Definition toDateOf (now : Z) (input : KpiInput) : Z :=
  DateFns.isoDate (default now (to input)).

Definition warehouseOf (input : KpiInput) : string :=
  default "GLOBAL" (warehouseId input).

Definition whereClause (org sku_ warehouse : string) (fromDate toDate : Z)
    (r : sales_daily_key * sales_daily_val) : Prop :=
  sd_org_id r = org ∧ sd_sku r = sku_ ∧ sd_warehouse_id r = warehouse
  ∧ (DateFns.dateStart fromDate ≤ sd_date r)%Z ∧ (sd_date r ≤ DateFns.dateEnd toDate)%Z.

Global Instance whereClause_dec o s w f t r : Decision (whereClause o s w f t r).
Proof. unfold whereClause. apply _. Defined.

(** The units of the rollup rows that [prisma.sales_daily.aggregate] sees. *)
Definition salesUnits (db : DB) (now : Z) (input : KpiInput) : list Q :=
  (λ r, sd_units r.2)
    <$> filter (whereClause (orgId input) (sku input) (warehouseOf input)
                            (fromDateOf now input) (toDateOf now input))
               (map_to_list (sales_daily db)).

(** Prisma [_sum]: null when no row matches. *)
Definition sumOrNull (l : list Q) : option Q :=
  match l with
  | [] => None
  | _ :: _ => Some (Num.sum l)
  end.

Definition windowDaysOf (now : Z) (input : KpiInput) : Z :=
  Z.max 1 (DateFns.differenceInCalendarDays
             (DateFns.dateStart (toDateOf now input))
             (DateFns.dateStart (fromDateOf now input)) + 1).

Definition stockWhere (org sku_ warehouse : string) (s : stock_snapshots_row) : Prop :=
  ss_org_id s = org ∧ ss_sku s = sku_ ∧ ss_warehouse_id s = warehouse.

Global Instance stockWhere_dec o s w r : Decision (stockWhere o s w r).
Proof. unfold stockWhere. apply _. Defined.

Definition stockOf (db : DB) (input : KpiInput) : list stock_snapshots_row :=
  filter (stockWhere (orgId input) (sku input) (warehouseOf input)) (stock_snapshots db).

Definition latestStockDate (db : DB) (input : KpiInput) : option Z :=
  DateFns.latestDate (ss_date <$> stockOf db input).

(** SQL [MIN], NULL on no value. *)
Definition minOrNull (l : list Z) : option Z :=
  foldr (λ d acc, match acc with None => Some d | Some m => Some (Z.min d m) end) None l.

(** [onHand] and [minExpiry] after the [if (latestStock)] block. *)
Definition onHandOf (db : DB) (input : KpiInput) : Q * option Z :=
  match latestStockDate db input with
  | Some d =>
      let rows := filter (λ s, ss_date s = d) (stockOf db input) in
      (Num.orZero (sumOrNull (ss_qty_on_hand <$> rows)),
       minOrNull (omap ss_expiry_date rows))
  | None => (0%Q, None)
  end.

(** A number used as a condition: not null and not zero. *)
Definition truthy (x : option Q) : bool :=
  match x with
  | Some v => negb (Qeq_bool v 0)
  | None => false
  end.

Definition getSkuKpi (db : DB) (now : Z) (input : KpiInput) : KpiResult :=
  let fromDate := fromDateOf now input in
  let toDate := toDateOf now input in
  let units := salesUnits db now input in
  let windowDays := windowDaysOf now input in
  let totalUnits := Num.orZero (sumOrNull units) in
  let avgDailyDemand := Num.orZero (Num.avg units) in
  let '(onHand, minExpiry) := onHandOf db input in
  let dos_ :=
    if Qlt_le_dec 0 avgDailyDemand then Some (onHand / avgDailyDemand)%Q else None in
  let dailyUnits :=
    if Z_lt_le_dec 0 windowDays then (totalUnits / inject_Z windowDays)%Q else 0%Q in
  let turns_ :=
    if Qlt_le_dec 0 onHand then ((dailyUnits * 365) / onHand)%Q else 0%Q in
  let medianDaysToSell :=
    if Qlt_le_dec 0 turns_ then Some (Num.round (365 / turns_)%Q)
    else if truthy dos_ then Num.round <$> dos_
    else None in
  let fefoRisk :=
    match minExpiry, dos_ with
    | Some e, Some d =>
        if truthy dos_
        then bool_decide (DateFns.differenceInCalendarDays e now < Num.ceil d)%Z
        else false
    | _, _ => false
    end in
  {| res_sku := sku input;
     res_from := fromDate;
     res_to := toDate;
     metrics := {| dos := dos_;
                   turns := turns_;
                   median_days_to_sell := medianDaysToSell;
                   fefo_risk := fefoRisk;
                   on_hand := onHand;
                   avg_daily_demand := avgDailyDemand |} |}.

End Kpi.

(** ** modules/assistant/payload.ts: the lead time of the explain payload *)

Module Payload.
Import Schema.

Definition leadTimeWhere (org sku : string) (s : lead_time_stats_row) : Prop :=
  lt_org_id s = org ∧ lt_sku s = sku.

Global Instance leadTimeWhere_dec o s r : Decision (leadTimeWhere o s r).
Proof. unfold leadTimeWhere. apply _. Defined.

Definition computeLeadTime (db : DB) (org sku : string) : Q :=
  match filter (leadTimeWhere org sku) (lead_time_stats db) with
  | stat :: _ => lt_lead_time_days_median stat
  | [] => 7%Q
  end.

(** [Number(x) || 7]. *)
Definition orSeven (x : Q) : Q := if Qeq_bool x 0 then 7%Q else x.

(** The binding [leadTimeDays] of [buildExplainPayload]:
    [Number(buffer?.lead_time_days ?? (await computeLeadTime(params))) || 7]. *)
Definition leadTimeDaysOf (db : DB) (org warehouse sku : string) : Q :=
  orSeven match buffers db !! (org, sku, warehouse) with
          | Some buffer => lead_time_days buffer
          | None => computeLeadTime db org sku
          end.

End Payload.

(** ** The specification's own words, for comparison with the code *)

Module SpecWords.

(** "mean of daily rollup units, zero-filled for days present in the
    window with no sales rollup row": the sum over the window divided by
    the number of days of the window. *)
Definition zeroFilledAverage (units : list Q) (windowDays : Z) : Q :=
  (Num.sum units / inject_Z windowDays)%Q.

(** "(1) previously stored Buffer.lead_time_days if present, else
    (2) median lead time from LeadTimeStat, else (3) 7 days". *)
Definition resolveLeadTime (stored median : option Q) : Q :=
  match stored with
  | Some l => l
  | None => default 7%Q median
  end.

(** "stock_position = on_hand + inbound − reservations". *)
Definition stockPosition (on_hand inbound reservations : Q) : Q :=
  (on_hand + inbound - reservations)%Q.

(** "the most recent prior snapshot date (same warehouse/SKU)": the latest
    snapshot date before the requested day among the given SKUs. *)
Definition priorSnapshotDate (snaps : list Schema.stock_snapshots_row)
    (org warehouse : string) (skus : list string) (dayStart : Z) : option Z :=
  DateFns.latestDate
    (Schema.ss_date
       <$> filter (λ s, Schema.ss_org_id s = org ∧ Schema.ss_warehouse_id s = warehouse
                        ∧ Schema.ss_sku s ∈ skus ∧ (Schema.ss_date s < dayStart)%Z)
                  snaps).

(** "ratio ≈ r": equal once rounded to two decimals, up to one unit in
    the last place. *)
Definition approx2 (x r : Q) : Prop := (Qabs (x - r) <= 1 # 100)%Q.

(** "total units sold in window": the units of the rollup rows of the SKU
    in the warehouse whose day is one of the days [fromDay] to [toDay]. *)
Definition soldInWindow (rollups : gmap Schema.sales_daily_key Schema.sales_daily_val)
    (org sku warehouse : string) (fromDay toDay : Z) : list Q :=
  (λ r, Schema.sd_units r.2)
    <$> filter (λ r, Schema.sd_org_id r = org ∧ Schema.sd_sku r = sku
                     ∧ Schema.sd_warehouse_id r = warehouse
                     ∧ (fromDay ≤ DateFns.isoDate (Schema.sd_date r))%Z
                     ∧ (DateFns.isoDate (Schema.sd_date r) ≤ toDay)%Z)
               (map_to_list rollups).

(** "window length in days": the days [fromDay] to [toDay], both counted. *)
Definition windowLength (fromDay toDay : Z) : Z := (toDay - fromDay + 1)%Z.

(** The current stock of a SKU in a warehouse: its snapshot rows that no
    other snapshot of the SKU in the warehouse postdates ("a
    SKU-warehouse-day on-hand total is the sum across batches"). *)
Definition latestSnapshots (snaps : list Schema.stock_snapshots_row)
    (org sku warehouse : string) : list Schema.stock_snapshots_row :=
  let ofSku r :=
    Schema.ss_org_id r = org ∧ Schema.ss_sku r = sku
    ∧ Schema.ss_warehouse_id r = warehouse in
  filter (λ r, ofSku r
               ∧ Forall (λ r', ofSku r' → (Schema.ss_date r' ≤ Schema.ss_date r)%Z) snaps)
         snaps.

(** "the earliest batch expiry date" among rows: an expiry date of one of
    them that none of their expiry dates precedes. *)
Definition earliestExpiry (rows : list Schema.stock_snapshots_row) (e : Z) : Prop :=
  (∃ r, r ∈ rows ∧ Schema.ss_expiry_date r = Some e)
  ∧ ∀ r e', r ∈ rows → Schema.ss_expiry_date r = Some e' → (e ≤ e')%Z.

End SpecWords.

(** ** Concrete databases used by the examples *)

Module Examples.
Import Schema.

Definition day (d : Z) : Z := DateFns.dateStart d.

Definition org : string := "org-1".
Definition wh : string := "WH-KYIV".

(** Noon of day 20030. *)
Definition now : Z := (day 20030 + 43200000)%Z.

(** Five days later, for requests about the past day 20030. *)
Definition later : Z := (day 20035 + 43200000)%Z.

Definition rollup (units : Q) : sales_daily_val :=
  {| sd_units := units; sd_revenue := units * 100; sd_orders := 1; sd_updated_at := day 20020 |}.

(** SKU-001 sold 30 units on each of two days of the last sixty. *)
Definition salesDaily : gmap sales_daily_key sales_daily_val :=
  <[(org, day 20000, "SKU-001", wh, "ALL") := rollup 30]>
  (<[(org, day 20010, "SKU-001", wh, "ALL") := rollup 30]> ∅).

Definition storedBuffer (lead avg : Q) : buffers_val :=
  {| lead_time_days := lead;
     avg_daily_demand := avg;
     buffer_qty := avg * lead * (12 # 10);
     red_th := avg * lead * (12 # 10) / 3;
     yellow_th := avg * lead * (12 # 10) * 2 / 3;
     updated_at := day 20001 |}.

(** SKU-001 has a stored lead time of 14 days, SKU-002 is dormant. *)
Definition storedBuffers : gmap buffers_key buffers_val :=
  <[(org, "SKU-001", wh) := storedBuffer 14 1]>
  (<[(org, "SKU-002", wh) := storedBuffer 7 5]> ∅).

Definition snapshot (d : Z) (sku batch : string) (qty : Q) : stock_snapshots_row :=
  {| ss_org_id := org; ss_date := day d; ss_sku := sku; ss_warehouse_id := wh;
     ss_qty_on_hand := qty; ss_batch_id := batch; ss_expiry_date := None |}.

Definition leadStats : list lead_time_stats_row :=
  [ {| lt_org_id := org; lt_supplier_id := "SUP-1"; lt_sku := "SKU-001";
       lt_lead_time_days_median := 10 |} ].

Definition mkDb (snaps : list stock_snapshots_row)
    (bufs : gmap buffers_key buffers_val) : DB :=
  {| sales_events := [];
     sales_daily := salesDaily;
     stock_snapshots := snaps;
     buffers := bufs;
     lead_time_stats := leadStats;
     catalog := [] |}.

(** No snapshot on day 20030; two batches two days before. *)
Definition db : DB :=
  mkDb [snapshot 20028 "SKU-001" "b1" 5; snapshot 20028 "SKU-001" "b2" 3] storedBuffers.

(** As [db], with a snapshot dated the day after the requested one. *)
Definition dbNextDay : DB :=
  mkDb [snapshot 20028 "SKU-001" "b1" 5; snapshot 20028 "SKU-001" "b2" 3;
        snapshot 20031 "SKU-001" "b1" 9] storedBuffers.

(** As [db], with a later snapshot of a SKU that has no buffer. *)
Definition dbOtherSku : DB :=
  mkDb [snapshot 20028 "SKU-001" "b1" 5; snapshot 20028 "SKU-001" "b2" 3;
        snapshot 20029 "SKU-900" "b1" 4] storedBuffers.

(** No stored buffer at all, a LeadTimeStat median of 10 days. *)
Definition dbFresh : DB := mkDb [] ∅.

Definition event (order line : string) (t : Z) (qty : Q) (net : option Q)
    (warehouse channel : option string) : sales_events_row :=
  {| se_org_id := org; se_order_id := order; se_line_id := line;
     se_order_datetime := t; se_sku := "SKU-001"; se_qty := qty;
     se_net_amount := net; se_warehouse_id := warehouse; se_channel := channel |}.

(** Two lines of one order on day 20005, one sale without a warehouse on
    day 20006, and one sale long before. *)
Definition dbEvents : DB :=
  {| sales_events :=
       [ event "O-1" "1" (day 20005 + 3600000) 2 (Some 200%Q) (Some wh) None;
         event "O-1" "2" (day 20005 + 7200000) 3 None (Some wh) None;
         event "O-2" "1" (day 20006 + 100) 1 (Some 50%Q) None (Some "web");
         event "O-0" "1" (day 19000) 7 (Some 700%Q) (Some wh) None ];
     sales_daily := salesDaily;
     stock_snapshots := [];
     buffers := ∅;
     lead_time_stats := [];
     catalog := [] |}.

Definition request (auto : option bool) : Recommendations.RecommendationInput :=
  {| Recommendations.orgId := org;
     Recommendations.warehouseId := wh;
     Recommendations.date := day 20030;
     Recommendations.autoRecalc := auto;
     Recommendations.page := None;
     Recommendations.pageSize := None |}.

End Examples.

(** ** modules/assistant/tools.ts: stock distribution and rebalancing *)

Module Tools.
Import Schema.

(** [Math.max] and [Math.min]. *)
Definition mathMax (a b : Q) : Q := if Qlt_le_dec a b then b else a.
Definition mathMin (a b : Q) : Q := if Qlt_le_dec b a then b else a.

(** [clampNumber]; a rational is never NaN or infinite. *)
Definition clampNumber (value min_ max_ : Q) : Q := mathMin (mathMax value min_) max_.

(** [resolveZoneValue] and [roundNumber] of tools.ts repeat the bodies of
    the recommendation service. *)
Definition resolveZoneValue (onHand red_ yellow_ : Q) : Recommendations.Zone :=
  if Qlt_le_dec red_ onHand then
    if Qlt_le_dec yellow_ onHand then Recommendations.green else Recommendations.yellow
  else Recommendations.red.

(** One group of [stock_snapshots.groupBy({ by: ['warehouse_id'], _sum })]. *)
Record StockGroupRow := {
  sgr_warehouse_id : string;
  sgr_sum_qty_on_hand : option Q
}.

(** [baseWhere]: the warehouse filter is present only for a non-empty list. *)
Definition baseWhere (org sku : string) (warehouseIds : list string)
    (r : stock_snapshots_row) : Prop :=
  ss_org_id r = org ∧ ss_sku r = sku
  ∧ (warehouseIds = [] ∨ ss_warehouse_id r ∈ warehouseIds).

Global Instance baseWhere_dec o s l r : Decision (baseWhere o s l r).
Proof. unfold baseWhere. apply _. Defined.

Definition rangeWhere (org sku : string) (warehouseIds : list string) (dayStart : Z)
    (r : stock_snapshots_row) : Prop :=
  baseWhere org sku warehouseIds r
  ∧ (dayStart ≤ ss_date r)%Z ∧ (ss_date r < DateFns.addDays dayStart 1)%Z.

Global Instance rangeWhere_dec o s l d r : Decision (rangeWhere o s l d r).
Proof. unfold rangeWhere. apply _. Defined.

(** The closure [queryRange] of [loadStockDistribution]. *)
Definition queryRange (snaps : list stock_snapshots_row) (org sku : string)
    (warehouseIds : list string) (dayStart : Z) : list StockGroupRow :=
  let rows := filter (rangeWhere org sku warehouseIds dayStart) snaps in
  (λ w, {| sgr_warehouse_id := w;
           sgr_sum_qty_on_hand :=
             Some (Num.sum (ss_qty_on_hand <$> filter (λ r, ss_warehouse_id r = w) rows)) |})
    <$> remove_dups (ss_warehouse_id <$> rows).

(** [requested] is the result of [safeParseDate(options.requestedDate)]. *)
Definition loadStockDistribution (snaps : list stock_snapshots_row) (org sku : string)
    (requested : option Z) (warehouseIds : list string) : option (Z * list StockGroupRow) :=
  let viaLatest :=
    match DateFns.latestDate (ss_date <$> filter (baseWhere org sku warehouseIds) snaps) with
    | None => None
    | Some latest =>
        let latestDay := DateFns.startOfDay latest in
        match queryRange snaps org sku warehouseIds latestDay with
        | [] => None
        | latestRows => Some (latestDay, latestRows)
        end
    end in
  match requested with
  | Some r =>
      let dayStart := DateFns.startOfDay r in
      match queryRange snaps org sku warehouseIds dayStart with
      | [] => viaLatest
      | rows => Some (dayStart, rows)
      end
  | None => viaLatest
  end.

(** [safeParseDate]: [parseDate] stands for [new Date(value)], with [None]
    for an invalid date. *)
Definition safeParseDate (parseDate : string → option Z) (value : option string) : option Z :=
  match value with
  | None => None
  | Some s => if decide (s = "") then None else parseDate s
  end.

Record Analysis := {
  warehouse_id : string;
  warehouse_name : string;
  target : Q;
  onHand : Q;
  red : Q;
  yellow : Q;
  penetration : option Q;
  surplus : Q;
  deficit : Q;
  zone : Recommendations.Zone
}.

Definition withSurplus (row : Analysis) (s : Q) : Analysis :=
  {| warehouse_id := warehouse_id row; warehouse_name := warehouse_name row;
     target := target row; onHand := onHand row; red := red row; yellow := yellow row;
     penetration := penetration row; surplus := s; deficit := deficit row;
     zone := zone row |}.

Definition withDeficit (row : Analysis) (d : Q) : Analysis :=
  {| warehouse_id := warehouse_id row; warehouse_name := warehouse_name row;
     target := target row; onHand := onHand row; red := red row; yellow := yellow row;
     penetration := penetration row; surplus := surplus row; deficit := d;
     zone := zone row |}.

Global Instance positive_dec (q : Q) : Decision (0 < q)%Q.
Proof.
  destruct (Qlt_le_dec 0 q) as [H | H]; [left; exact H | right; exact (Qle_not_lt _ _ H)].
Defined.

(** The body of the [bufferRows.map] callback. *)
Definition analyse (stockMap : gmap string Q) (nameMap : gmap string string)
    (buffer : buffers_key * buffers_val) : Analysis :=
  let wh := buffer.1.2 in
  let onHand_ := default 0%Q (stockMap !! wh) in
  let target_ := buffer_qty buffer.2 in
  {| warehouse_id := wh;
     warehouse_name := default wh (nameMap !! wh);
     target := target_;
     onHand := onHand_;
     red := red_th buffer.2;
     yellow := yellow_th buffer.2;
     penetration :=
       if Qlt_le_dec 0 target_ then Some (Num.roundNumber (onHand_ / target_) 2) else None;
     surplus := mathMax 0 (onHand_ - target_);
     deficit := mathMax 0 (target_ - onHand_);
     zone := resolveZoneValue onHand_ (red_th buffer.2) (yellow_th buffer.2) |}.

(** [Array.prototype.sort] with the comparator [(a, b) => key(b) - key(a)]:
    descending by key, stable. *)
Fixpoint insertDesc (key : Analysis → Q) (x : Analysis) (l : list Analysis) : list Analysis :=
  match l with
  | [] => [x]
  | y :: l' => if Qlt_le_dec (key x) (key y) then y :: insertDesc key x l' else x :: l
  end.

Definition sortDesc (key : Analysis → Q) (l : list Analysis) : list Analysis :=
  foldr (insertDesc key) [] l.

Record Move := {
  move_from : string * string;
  move_to : string * string;
  qty : Q;
  note : string
}.

(** A number with at most one decimal, as a template literal prints it
    (below 1e21). *)
Definition showTenths (q : Q) : string :=
  let n := Num.round (q * 10) in
  let a := Z.abs n in
  (if (n <? 0)%Z then "-" else "")
  +:+ pretty (a / 10)%Z
  +:+ (if (a mod 10 =? 0)%Z then "" else "." +:+ pretty (a mod 10)%Z).

Definition moveOf (donor receiver : Analysis) (qty_ : Q) : Move :=
  {| move_from := (warehouse_id donor, warehouse_name donor);
     move_to := (warehouse_id receiver, warehouse_name receiver);
     qty := Num.roundNumber qty_ 1;
     note := "У " +:+ warehouse_name donor +:+ " запас > target на "
             +:+ showTenths (Num.roundNumber (surplus donor) 1)
             +:+ ", у " +:+ warehouse_name receiver +:+ " бракує "
             +:+ showTenths (Num.roundNumber (deficit receiver) 1) +:+ "." |}.

(** The [while] loop.  The heads of the two lists are [surplusList[i]] and
    [deficitList[j]] with their remaining amounts; advancing an index drops
    the head.  [fuel] bounds the number of iterations; [None] means that
    the bound was too small. *)
Fixpoint matchMoves (fuel : nat) (maxMoves : Q) (moves : list Move)
    (surplusList deficitList : list Analysis) : option (list Move) :=
  match surplusList, deficitList with
  | donor :: donors, receiver :: receivers =>
      if Qlt_le_dec (inject_Z (Z.of_nat (length moves))) maxMoves then
        match fuel with
        | O => None
        | S fuel' =>
            let qty_ := mathMin (surplus donor) (deficit receiver) in
            if Qlt_le_dec 0 qty_ then
              let moves' := moves ++ [moveOf donor receiver qty_] in
              let donor' := withSurplus donor (surplus donor - qty_) in
              let surplusList' :=
                if Qlt_le_dec (1 # 100) (surplus donor') then donor' :: donors else donors in
              let receiver' := withDeficit receiver (deficit receiver - qty_) in
              let deficitList' :=
                if Qlt_le_dec (1 # 100) (deficit receiver')
                then receiver' :: receivers else receivers in
              matchMoves fuel' maxMoves moves' surplusList' deficitList'
            else Some moves
        end
      else Some moves
  | _, _ => Some moves
  end.

Record WarehouseLine := {
  wl_warehouse_id : string;
  wl_warehouse_name : string;
  wl_zone : Recommendations.Zone;
  wl_target : Q;
  wl_on_hand : Q;
  wl_penetration : option Q;
  wl_surplus : Q;
  wl_deficit : Q
}.

Record RebalancePlan := {
  plan_sku : string;
  requested_date : option string;
  effective_date : Z;
  warehouses : list WarehouseLine;
  suggestions : list Move;
  plan_note : string
}.

Inductive RebalanceResult :=
  | Message (message : string)
  | Plan (plan : RebalancePlan).

Record RebalanceArgs := {
  arg_sku : string;
  arg_date : option string;
  arg_max_moves : option Q
}.

Definition bufferRowsOf (db : DB) (org sku : string) : list (buffers_key * buffers_val) :=
  filter (λ row, row.1.1.1 = org ∧ row.1.1.2 = sku) (map_to_list (buffers db)).

Definition nameMapOf (warehouseTable : list (string * string)) (ids : list string)
    : gmap string string :=
  Recommendations.newMap (filter (λ row, row.1 ∈ ids) warehouseTable).

Definition stockMapOf (rows : list StockGroupRow) : gmap string Q :=
  Recommendations.newMap
    ((λ row, (sgr_warehouse_id row, Num.orZero (sgr_sum_qty_on_hand row))) <$> rows).

Definition surplusListOf (analysis : list Analysis) : list Analysis :=
  sortDesc surplus (filter (λ row, (0 < surplus row)%Q) analysis).

Definition deficitListOf (analysis : list Analysis) : list Analysis :=
  sortDesc deficit (filter (λ row, (0 < deficit row)%Q) analysis).

(** The body of the [analysis.map] callback of the result. *)
Definition lineOf (row : Analysis) : WarehouseLine :=
  {| wl_warehouse_id := warehouse_id row;
     wl_warehouse_name := warehouse_name row;
     wl_zone := zone row;
     wl_target := Num.roundNumber (target row) 1;
     wl_on_hand := Num.roundNumber (onHand row) 1;
     wl_penetration := penetration row;
     wl_surplus := Num.roundNumber (surplus row) 1;
     wl_deficit := Num.roundNumber (deficit row) 1 |}.

(** The handler of the tool [suggest_rebalance]; [warehouseTable] is the
    table warehouses as (id, name) rows, [args] the parsed arguments. *)
Definition suggestRebalance (parseDate : string → option Z)
    (warehouseTable : list (string * string)) (db : DB) (org : string)
    (args : RebalanceArgs) : RebalanceResult :=
  let maxMoves := clampNumber (default 5%Q (arg_max_moves args)) 1 20 in
  let bufferRows := bufferRowsOf db org (arg_sku args) in
  match bufferRows with
  | [] => Message "Для цього SKU ще не розраховані буфери ТОС."
  | _ :: _ =>
      let warehouseIds := (λ row, row.1.2) <$> bufferRows in
      match loadStockDistribution (stock_snapshots db) org (arg_sku args)
              (safeParseDate parseDate (arg_date args)) warehouseIds with
      | None => Message "Немає актуальних знімків запасів для цього SKU."
      | Some distribution =>
          let stockMap := stockMapOf distribution.2 in
          let nameMap := nameMapOf warehouseTable warehouseIds in
          let analysis := analyse stockMap nameMap <$> bufferRows in
          let surplusList := surplusListOf analysis in
          let deficitList := deficitListOf analysis in
          let moves :=
            default [] (matchMoves (length surplusList + length deficitList) maxMoves []
                          surplusList deficitList) in
          Plan {| plan_sku := arg_sku args;
                  requested_date := arg_date args;
                  effective_date := DateFns.isoDate distribution.1;
                  warehouses := lineOf <$> analysis;
                  suggestions := moves;
                  plan_note :=
                    match moves with
                    | _ :: _ =>
                        "Перемістіть запас із складів із надлишком до складів із дефіцитом або замовте постачання."
                    | [] => "Надлишків/дефіцитів, що вимагають переміщення, не виявлено."
                    end |}
      end
  end.

End Tools.

(** ** modules/assistant/payload.ts: the explain payload *)

Module Explain.
Import Schema.

(** purchase_orders, primary key (org_id, po_id). *)
Record purchase_orders_row := {
  po_org_id : string;
  po_po_id : string;
  po_received_at : option Z
}.

(** purchase_order_lines, primary key (org_id, po_id, sku). *)
Record purchase_order_lines_row := {
  pol_org_id : string;
  pol_po_id : string;
  pol_sku : string;
  pol_qty : Q;
  pol_moq : option Z;
  pol_pack_size : option Z;
  pol_created_at : Z
}.

(** [date] is the instant [new Date(params.date)]. *)
Record ExplainParams := {
  orgId : string;
  warehouseId : string;
  sku : string;
  date : option Z
}.

Inductive Zone := Red | Yellow | Green.





(** [x || 0] and [x || 1] on numbers. *)
Definition orZero (x : Q) : Q := if Qeq_bool x 0 then 0%Q else x.


(** [round] of payload.ts repeats [roundNumber]. *)
Definition round (value : Q) (precision : nat) : Q := Num.roundNumber value precision.


(** The where clause shared by [computeAvgDailyDemand], [computeDemandStats]
    and [fetchTimeSeries]. *)
Definition windowWhere (params : ExplainParams) (targetDate : Z)
    (r : sales_daily_key * sales_daily_val) : Prop :=
  sd_org_id r = orgId params ∧ sd_warehouse_id r = warehouseId params
  ∧ sd_sku r = sku params
  ∧ (DateFns.subDays targetDate 60 ≤ sd_date r)%Z ∧ (sd_date r ≤ targetDate)%Z.

Global Instance windowWhere_dec p t r : Decision (windowWhere p t r).
Proof. unfold windowWhere. apply _. Defined.

Definition windowRows (db : DB) (params : ExplainParams) (targetDate : Z)
    : list (sales_daily_key * sales_daily_val) :=
  filter (windowWhere params targetDate) (map_to_list (sales_daily db)).


Definition dateAsc (a b : sales_daily_key * sales_daily_val) : Prop :=
  (sd_date a ≤ sd_date b)%Z.

Global Instance dateAsc_dec a b : Decision (dateAsc a b).
Proof. unfold dateAsc. apply _. Defined.




(** The rows that the join of [computeInboundQty] sums. *)
Definition inboundLines (orders : list purchase_orders_row)
    (lines : list purchase_order_lines_row) (params : ExplainParams)
    : list purchase_order_lines_row :=
  pol ← lines;
  po ← orders;
  if decide (po_org_id po = pol_org_id pol ∧ po_po_id po = pol_po_id pol
             ∧ pol_org_id pol = orgId params ∧ pol_sku pol = sku params
             ∧ po_received_at po = None)
  then [pol] else [].

Definition computeInboundQty (orders : list purchase_orders_row)
    (lines : list purchase_order_lines_row) (params : ExplainParams) : Q :=
  Num.sum (pol_qty <$> inboundLines orders lines params).




Definition snapshotWhere (params : ExplainParams) (s : stock_snapshots_row) : Prop :=
  ss_org_id s = orgId params ∧ ss_warehouse_id s = warehouseId params
  ∧ ss_sku s = sku params.

Global Instance snapshotWhere_dec p s : Decision (snapshotWhere p s).
Proof. unfold snapshotWhere. apply _. Defined.








End Explain.

(** ** Views used by the further properties *)

Module Views.
Import Schema.

(** The computed columns of a buffer row (all but updated_at). *)
Definition bufferNumbers (b : buffers_val) : Q * Q * Q * Q * Q :=
  (lead_time_days b, avg_daily_demand b, buffer_qty b, red_th b, yellow_th b).

(** The tables that neither recalcBuffers nor getRecommendations write. *)
Definition otherThanBuffers (db : DB)
    : list sales_events_row * gmap sales_daily_key sales_daily_val
      * list stock_snapshots_row * list lead_time_stats_row * list catalog_row :=
  (sales_events db, sales_daily db, stock_snapshots db, lead_time_stats db, catalog db).

(** The tables that rebuildSalesDaily does not write. *)
Definition otherThanSalesDaily (db : DB)
    : list sales_events_row * list stock_snapshots_row * gmap buffers_key buffers_val
      * list lead_time_stats_row * list catalog_row :=
  (sales_events db, stock_snapshots db, buffers db, lead_time_stats db, catalog db).

(** Zones ordered from worst to best. *)
Definition zoneRank (z : Recommendations.Zone) : nat :=
  match z with
  | Recommendations.red => 0
  | Recommendations.yellow => 1
  | Recommendations.green => 2
  end.

(** The quantities of the batches of one SKU in one warehouse on the day
    that starts at [dayStart]. *)
Definition batchQuantities (snaps : list stock_snapshots_row) (org warehouse sku : string)
    (dayStart : Z) : list Q :=
  ss_qty_on_hand
    <$> filter (λ r, ss_org_id r = org ∧ ss_warehouse_id r = warehouse ∧ ss_sku r = sku
                     ∧ (dayStart ≤ ss_date r)%Z
                     ∧ (ss_date r < DateFns.addDays dayStart 1)%Z)
               snaps.

(** The rollup key of a sales event, with the fallbacks for a missing
    warehouse and channel. *)
Definition rollupKeyOf (e : sales_events_row) : sales_daily_key :=
  SalesDaily.outputKey (SalesDaily.groupKeyOf e).

(** The events that a rebuild selects. *)
Definition selectedEvents (db : DB) (now : Z) (opts : SalesDaily.RebuildOptions)
    : list sales_events_row :=
  filter (SalesDaily.selectWhere (SalesDaily.orgId opts)
            (DateFns.dateStart (SalesDaily.fromDateOf now opts))
            (DateFns.dateEnd (SalesDaily.toDateOf now opts)))
         (sales_events db).

(** The on-hand quantity that the rebalancing tool reads for a warehouse
    from the grouped rows of a stock distribution. *)
Definition stockAt (rows : list Tools.StockGroupRow) (warehouse : string) : Q :=
  default 0%Q (Tools.stockMapOf rows !! warehouse).

(** The stock of a SKU in the warehouse of a buffer row on the day that
    starts at [dayStart], less the target of that row. *)
Definition excess (db : DB) (org sku : string) (dayStart : Z)
    (b : buffers_key * buffers_val) : Q :=
  (Num.sum (batchQuantities (stock_snapshots db) org b.1.2 sku dayStart)
   - buffer_qty b.2)%Q.

(** A move from an entry of [donors] to an entry of [receivers], of at
    most the rounded surplus of the one and the rounded deficit of the
    other. *)
Definition moveBetween (donors receivers : list Tools.Analysis) (m : Tools.Move) : Prop :=
  ∃ d r, d ∈ donors ∧ r ∈ receivers
    ∧ Tools.move_from m = (Tools.warehouse_id d, Tools.warehouse_name d)
    ∧ Tools.move_to m = (Tools.warehouse_id r, Tools.warehouse_name r)
    ∧ (0 <= Tools.qty m)%Q
    ∧ (Tools.qty m <= Num.roundNumber (Tools.surplus d) 1)%Q
    ∧ (Tools.qty m <= Num.roundNumber (Tools.deficit r) 1)%Q.

(** An unreceived order of the line exists. *)
Definition openOrder (orders : list Explain.purchase_orders_row)
    (params : Explain.ExplainParams) (pol : Explain.purchase_order_lines_row) : Prop :=
  Explain.pol_org_id pol = Explain.orgId params ∧ Explain.pol_sku pol = Explain.sku params
  ∧ Exists (λ po, Explain.po_org_id po = Explain.pol_org_id pol
                  ∧ Explain.po_po_id po = Explain.pol_po_id pol
                  ∧ Explain.po_received_at po = None) orders.

Global Instance openOrder_dec orders params pol : Decision (openOrder orders params pol).
Proof. unfold openOrder. apply _. Defined.

End Views.

(** ** Further example data *)

Module MoreExamples.
Import Schema.

(** Two sales of the same day and SKU, one without a warehouse and one
    that names the fallback warehouse explicitly. *)
Definition dbClash : DB :=
  {| sales_events :=
       [ Examples.event "O-7" "1" (Examples.day 20003 + 10) 1 None None None;
         Examples.event "O-8" "1" (Examples.day 20003 + 20) 2 None (Some "GLOBAL") None ];
     sales_daily := ∅;
     stock_snapshots := [];
     buffers := ∅;
     lead_time_stats := [];
     catalog := [] |}.

Definition snapshotAt (warehouse : string) (d : Z) (qty : Q) : stock_snapshots_row :=
  {| ss_org_id := Examples.org; ss_date := Examples.day d; ss_sku := "SKU-001";
     ss_warehouse_id := warehouse; ss_qty_on_hand := qty; ss_batch_id := "b1";
     ss_expiry_date := None |}.

Definition targetOf (qty : Q) : buffers_val :=
  {| lead_time_days := 7; avg_daily_demand := qty / (84 # 10); buffer_qty := qty;
     red_th := qty / 3; yellow_th := qty * 2 / 3; updated_at := Examples.day 20001 |}.

(** SKU-001 has a target of 10 in three warehouses; on day 20028 Kyiv
    holds 25, Lviv 4 and Odesa 2. *)
Definition dbTransfer : DB :=
  {| sales_events := [];
     sales_daily := ∅;
     stock_snapshots :=
       [ snapshotAt "WH-KYIV" 20028 20; snapshotAt "WH-KYIV" 20028 5;
         snapshotAt "WH-LVIV" 20028 4; snapshotAt "WH-ODESA" 20028 2;
         snapshotAt "WH-KYIV" 20020 1 ];
     buffers :=
       <[(Examples.org, "SKU-001", "WH-KYIV") := targetOf 10]>
       (<[(Examples.org, "SKU-001", "WH-LVIV") := targetOf 10]>
       (<[(Examples.org, "SKU-001", "WH-ODESA") := targetOf 10]> ∅));
     lead_time_stats := [];
     catalog := [] |}.

Definition warehouseTable : list (string * string) :=
  [("WH-KYIV", "Kyiv"); ("WH-LVIV", "Lviv"); ("WH-ODESA", "Odesa")].

(** [new Date(value)] for the only date string of the examples. *)
Definition parseDate (value : string) : option Z :=
  if decide (value = "2024-11-01T01:00:00Z") then Some (Examples.day 20028 + 3600000)%Z
  else None.

Definition rebalanceArgs (value : option string) : Tools.RebalanceArgs :=
  {| Tools.arg_sku := "SKU-001"; Tools.arg_date := value; Tools.arg_max_moves := None |}.

Definition transferResult : Tools.RebalanceResult :=
  Tools.suggestRebalance parseDate warehouseTable dbTransfer Examples.org
    (rebalanceArgs None).

Definition explainParams : Explain.ExplainParams :=
  {| Explain.orgId := Examples.org; Explain.warehouseId := Examples.wh;
     Explain.sku := "SKU-001"; Explain.date := Some (Examples.day 20030) |}.

(** PO-1 is open, PO-2 was received. *)
Definition orders : list Explain.purchase_orders_row :=
  [ {| Explain.po_org_id := Examples.org; Explain.po_po_id := "PO-1";
       Explain.po_received_at := None |};
    {| Explain.po_org_id := Examples.org; Explain.po_po_id := "PO-2";
       Explain.po_received_at := Some (Examples.day 20020) |} ].

Definition orderLine (po : string) (qty : Q) (created : Z)
    : Explain.purchase_order_lines_row :=
  {| Explain.pol_org_id := Examples.org; Explain.pol_po_id := po;
     Explain.pol_sku := "SKU-001"; Explain.pol_qty := qty; Explain.pol_moq := Some 5%Z;
     Explain.pol_pack_size := None; Explain.pol_created_at := Examples.day created |}.

(** The line of PO-9 has no order row. *)
Definition orderLines : list Explain.purchase_order_lines_row :=
  [orderLine "PO-1" 12 20010; orderLine "PO-2" 30 20000; orderLine "PO-9" 7 20015].



Definition batch (d : Z) (batchId : string) (qty : Q) (expiry : Z) : stock_snapshots_row :=
  {| ss_org_id := Examples.org; ss_date := Examples.day d; ss_sku := "SKU-001";
     ss_warehouse_id := Examples.wh; ss_qty_on_hand := qty; ss_batch_id := batchId;
     ss_expiry_date := Some (Examples.day expiry) |}.

(** The latest snapshot of SKU-001 has a batch that expires in two days
    and one that expires much later; an older snapshot has a batch that
    is expired already. *)
Definition dbExpiry : DB :=
  Examples.mkDb [batch 20020 "b0" 50 20025; batch 20028 "b1" 500 20032;
                 batch 20028 "b2" 300 20100] Examples.storedBuffers.

End MoreExamples.

(** * Properties *)

(** ** Rational arithmetic helpers *)

Section NumFacts.

Lemma third_le_two_thirds (b : Q) :
  (0 <= b)%Q → (b / 3 <= (b * 2) / 3)%Q ∧ ((b * 2) / 3 <= b)%Q.
Proof.
  intros Hb. unfold Qdiv. change (/ 3)%Q with (1 # 3)%Q. split; lra.
Qed.

Lemma two_thirds_eq (b : Q) : ((b * 2) / 3 == 2 * b / 3)%Q.
Proof. field. Qed.

End NumFacts.

(** ** Lists: filters and the latest date *)

Section ListFacts.

Lemma filter_ext_elem {A : Type} (P Q : A → Prop) `{!∀ x, Decision (P x)}
    `{!∀ x, Decision (Q x)} (l : list A) :
  (∀ x, x ∈ l → P x ↔ Q x) → filter P l = filter Q l.
Proof.
  induction l as [|a l IH]; intros Hext; [done |].
  rewrite !filter_cons.
  assert (Ha : P a ↔ Q a) by (apply Hext; left).
  rewrite IH by (intros x Hx; apply Hext; by right).
  destruct (decide (P a)), (decide (Q a)); tauto.
Qed.

Lemma filter_none {A : Type} (P : A → Prop) `{!∀ x, Decision (P x)} (l : list A) :
  (∀ x, x ∈ l → ¬ P x) → filter P l = [].
Proof.
  intros Hno. destruct (filter P l) as [|x t] eqn:E; [done |].
  assert (Hx : x ∈ filter P l) by (rewrite E; left).
  apply list_elem_of_filter in Hx as [HP Hx]. by destruct (Hno x Hx).
Qed.

Lemma latestDate_cons (a : Z) (l : list Z) :
  DateFns.latestDate (a :: l)
  = match DateFns.latestDate l with
    | None => Some a
    | Some m => Some (Z.max a m)
    end.
Proof. reflexivity. Qed.

Lemma latestDate_None (dates : list Z) : DateFns.latestDate dates = None ↔ dates = [].
Proof.
  destruct dates as [|a l]; [done |]. rewrite latestDate_cons.
  by destruct (DateFns.latestDate l).
Qed.

Lemma latestDate_spec (dates : list Z) (d : Z) :
  DateFns.latestDate dates = Some d → d ∈ dates ∧ ∀ x, x ∈ dates → (x ≤ d)%Z.
Proof.
  revert d. induction dates as [|a l IH]; intros d; [done |].
  rewrite latestDate_cons. destruct (DateFns.latestDate l) as [m |] eqn:E.
  - intros [= <-]. destruct (IH m eq_refl) as [Hin Hmax]. split.
    + destruct (Z.max_spec a m) as [[_ ->] | [_ ->]]; [by right | by left].
    + intros x [-> | Hx]%elem_of_cons; [lia |]. specialize (Hmax x Hx). lia.
  - intros [= <-]. apply latestDate_None in E as ->. split; [by left |].
    intros x [-> | Hx]%elem_of_cons; [lia | by apply elem_of_nil in Hx].
Qed.

End ListFacts.

(** ** Folding upserts over a table *)

Section UpsertFold.
Context `{Countable K} {V A : Type}.
Variables (key : A → K) (val : A → V) (upsert : gmap K V → A → gmap K V).
Hypothesis upsert_insert : ∀ m a, upsert m a = <[key a := val a]> m.

Lemma foldl_upsert_lookup_other (l : list A) (m : gmap K V) (k : K) :
  (∀ a, a ∈ l → key a ≠ k) → foldl upsert m l !! k = m !! k.
Proof.
  revert m. induction l as [|a l IH]; intros m Hk; [done |].
  cbn [foldl]. rewrite IH.
  - rewrite upsert_insert. apply lookup_insert_ne, Hk. left.
  - intros a' Ha'. apply Hk. by right.
Qed.

Lemma foldl_upsert_lookup_written (l : list A) (m : gmap K V) (a : A) :
  NoDup (key <$> l) → a ∈ l → foldl upsert m l !! key a = Some (val a).
Proof.
  revert m. induction l as [|a' l IH]; intros m Hnd Hin.
  - by apply elem_of_nil in Hin.
  - cbn [foldl]. rewrite fmap_cons in Hnd. apply NoDup_cons in Hnd as [Ha' Hnd].
    apply elem_of_cons in Hin as [-> | Hin]; [| by apply IH].
    rewrite foldl_upsert_lookup_other.
    + rewrite upsert_insert. apply lookup_insert_eq.
    + intros b Hb Heq. apply Ha', list_elem_of_fmap. exists b. split; [congruence | done].
Qed.

Lemma foldl_upsert_lookup_cases (l : list A) (m : gmap K V) (k : K) :
  NoDup (key <$> l) →
  (∃ a, a ∈ l ∧ key a = k ∧ foldl upsert m l !! k = Some (val a))
  ∨ ((∀ a, a ∈ l → key a ≠ k) ∧ foldl upsert m l !! k = m !! k).
Proof.
  intros Hnd. destruct (decide (k ∈ key <$> l)) as [Hin | Hout].
  - left. apply list_elem_of_fmap in Hin as (a & -> & Ha).
    exists a. split; [done |]. split; [done |]. by apply foldl_upsert_lookup_written.
  - right. assert (Hk : ∀ a, a ∈ l → key a ≠ k).
    { intros a Ha Heq. apply Hout, list_elem_of_fmap. exists a. by split. }
    split; [exact Hk |]. by apply foldl_upsert_lookup_other.
Qed.

End UpsertFold.

(** ** Buffer recalculation: which rows are written, and with what *)

Section BufferFacts.
Import Schema Buffers.

Variables (orgId warehouseId : string) (now : Z).

Lemma upsertBuffer_insert tbl row :
  upsertBuffer orgId warehouseId now tbl row
  = <[(orgId, dr_sku row, warehouseId) := writtenBuffer now row]> tbl.
Proof. unfold upsertBuffer. by destruct (tbl !! _). Qed.

Lemma foldl_upsert_other (rows : list demand_row) tbl (k : buffers_key) :
  (∀ row, row ∈ rows → (orgId, dr_sku row, warehouseId) ≠ k) →
  foldl (upsertBuffer orgId warehouseId now) tbl rows !! k = tbl !! k.
Proof.
  apply (foldl_upsert_lookup_other (λ row, (orgId, dr_sku row, warehouseId))
           (writtenBuffer now)), upsertBuffer_insert.
Qed.

Lemma foldl_upsert_written (rows : list demand_row) tbl row :
  NoDup (dr_sku <$> rows) → row ∈ rows →
  foldl (upsertBuffer orgId warehouseId now) tbl rows !! (orgId, dr_sku row, warehouseId)
  = Some (writtenBuffer now row).
Proof.
  intros Hnd. apply (foldl_upsert_lookup_written (λ row, (orgId, dr_sku row, warehouseId))
                       (writtenBuffer now)); [apply upsertBuffer_insert |].
  rewrite (list_fmap_compose dr_sku (λ s, (orgId, s, warehouseId))).
  assert (Inj (=) (=) (λ s : string, (orgId, s, warehouseId)))
    by (by intros s1 s2 [= ->]).
  by apply (NoDup_fmap_2 _).
Qed.

Lemma groupBySku_skus rows : dr_sku <$> groupBySku rows = remove_dups (sd_sku <$> rows).
Proof.
  unfold groupBySku. rewrite <- list_fmap_compose.
  induction (remove_dups _) as [|s l IH]; [done |].
  cbn. by rewrite IH.
Qed.

Lemma groupBySku_NoDup rows : NoDup (dr_sku <$> groupBySku rows).
Proof. rewrite groupBySku_skus. apply NoDup_remove_dups. Qed.

Lemma groupBySku_elem rows row :
  row ∈ groupBySku rows ↔
  (∃ r, r ∈ rows ∧ sd_sku r = dr_sku row)
  ∧ dr_avg_units row = Num.avg (unitsOfSku rows (dr_sku row)).
Proof.
  unfold groupBySku. rewrite list_elem_of_fmap. split.
  - intros (s & -> & Hs). cbn. apply elem_of_remove_dups, list_elem_of_fmap in Hs.
    destruct Hs as (r & -> & Hr). eauto.
  - intros [(r & Hr & Hsku) Havg]. exists (dr_sku row). split.
    + destruct row; cbn in *. by rewrite Havg.
    + apply elem_of_remove_dups, list_elem_of_fmap. eauto.
Qed.

Lemma recalcBuffers_buffers db lookbackDays :
  buffers (recalcBuffers db now orgId warehouseId lookbackDays).1
  = foldl (upsertBuffer orgId warehouseId now) (buffers db)
          (groupBySku (windowRows orgId warehouseId now db lookbackDays)).
Proof.
  unfold recalcBuffers, demandRowsOf, windowRows.
  by destruct (groupBySku _).
Qed.

Lemma recalcBuffers_written db lookbackDays s :
  (∃ r, r ∈ windowRows orgId warehouseId now db lookbackDays ∧ sd_sku r = s) →
  buffers (recalcBuffers db now orgId warehouseId lookbackDays).1 !! (orgId, s, warehouseId)
  = Some (writtenBuffer now
            {| dr_sku := s;
               dr_avg_units :=
                 Num.avg (unitsOfSku (windowRows orgId warehouseId now db lookbackDays) s) |}).
Proof.
  intros Hs. rewrite recalcBuffers_buffers.
  set (row := {| dr_sku := s; dr_avg_units := _ |}).
  change s with (dr_sku row) at 1.
  apply foldl_upsert_written; [apply groupBySku_NoDup |].
  apply groupBySku_elem. done.
Qed.

Lemma recalcBuffers_untouched db lookbackDays (k : buffers_key) :
  (∀ r, r ∈ windowRows orgId warehouseId now db lookbackDays → (orgId, sd_sku r, warehouseId) ≠ k) →
  buffers (recalcBuffers db now orgId warehouseId lookbackDays).1 !! k = buffers db !! k.
Proof.
  intros Hk. rewrite recalcBuffers_buffers. apply foldl_upsert_other.
  intros row [(r & Hr & Hsku) _]%groupBySku_elem. rewrite <- Hsku. by apply Hk.
Qed.

Lemma windowRows_elem db lookbackDays r :
  r ∈ windowRows orgId warehouseId now db lookbackDays ↔
  sales_daily db !! r.1 = Some r.2
  ∧ demandWhere orgId warehouseId (DateFns.subDays now (default 60%Z lookbackDays)) r.
Proof.
  unfold windowRows. rewrite list_elem_of_filter.
  destruct r as [k v]. rewrite elem_of_map_to_list. cbn. tauto.
Qed.

End BufferFacts.

(** ** Claims about buffer recalculation *)

Section BufferClaims.
Import Schema Buffers Examples.

Lemma avg_nonempty (l : list Q) :
  l ≠ [] → Num.avg l = Some (Num.sum l / inject_Z (Z.of_nat (length l)))%Q.
Proof. by destruct l. Qed.

Lemma unitsOfSku_nonempty rows s : s ∈ sd_sku <$> rows → unitsOfSku rows s ≠ [].
Proof.
  intros (r & -> & Hr)%list_elem_of_fmap Hnil.
  apply fmap_nil_inv in Hnil.
  assert (Hin : r ∈ filter (λ r0, sd_sku r0 = sd_sku r) rows)
    by (by apply list_elem_of_filter).
  rewrite Hnil in Hin. by apply elem_of_nil in Hin.
Qed.

Lemma recalcBuffers_written' db t o w lookback s :
  s ∈ sd_sku <$> windowRows o w t db lookback →
  buffers (recalcBuffers db t o w lookback).1 !! (o, s, w)
  = Some (writtenBuffer t
            {| dr_sku := s;
               dr_avg_units := Num.avg (unitsOfSku (windowRows o w t db lookback) s) |}).
Proof.
  intros (r & -> & Hr)%list_elem_of_fmap. apply recalcBuffers_written. eauto.
Qed.

(** The lead time written by a recalculation is the constant 7, whatever
    the Buffer table or the LeadTimeStat table hold. *)
Lemma recalcBuffers_lead_time db t o w lookback s :
  s ∈ sd_sku <$> windowRows o w t db lookback →
  ∃ b, buffers (recalcBuffers db t o w lookback).1 !! (o, s, w) = Some b
       ∧ lead_time_days b = DEFAULT_LEAD_TIME_DAYS.
Proof. intros Hs. eexists. split; [by apply recalcBuffers_written' | done]. Qed.

(** C1, as stated, fails: SKU-001 has rollup rows on two of the sixty
    days, 30 units each; the zero-filled mean is 60/60 = 1, the stored
    average daily demand is 60/2 = 30. *)
Lemma C1_not_zero_filled :
  let units := unitsOfSku (windowRows org wh now db None) "SKU-001" in
  length units = 2
  ∧ (SpecWords.zeroFilledAverage units 60 == 1)%Q
  ∧ ∃ b, buffers (recalcBuffers db now org wh None).1 !! (org, "SKU-001", wh) = Some b
         ∧ (avg_daily_demand b == 30)%Q
         ∧ ¬ (avg_daily_demand b == SpecWords.zeroFilledAverage units 60)%Q.
Proof.
  cbv zeta. split; [by vm_compute |]. split; [by vm_compute |].
  eexists. split; [by vm_compute |]. split; by vm_compute.
Qed.

(** C1, amended: for every SKU with at least one rollup row of the
    warehouse in the lookback window, the average daily demand that
    recalcBuffers stores is the sum of the units of those rollup rows
    divided by the number of those rows. *)
Theorem C1_avg_over_rollup_rows db t o w lookback s :
  s ∈ sd_sku <$> windowRows o w t db lookback →
  let units := unitsOfSku (windowRows o w t db lookback) s in
  ∃ b, buffers (recalcBuffers db t o w lookback).1 !! (o, s, w) = Some b
       ∧ (avg_daily_demand b == Num.sum units / inject_Z (Z.of_nat (length units)))%Q.
Proof.
  intros Hs units. eexists. split; [by apply recalcBuffers_written' |].
  cbn. fold units. rewrite avg_nonempty; [reflexivity |].
  by apply unitsOfSku_nonempty.
Qed.

Lemma C1_avg_over_rollup_rows_witness :
  let units := unitsOfSku (windowRows org wh now db None) "SKU-001" in
  ∃ b, buffers (recalcBuffers db now org wh None).1 !! (org, "SKU-001", wh) = Some b
       ∧ (avg_daily_demand b == Num.sum units / inject_Z (Z.of_nat (length units)))%Q.
Proof.
  apply (C1_avg_over_rollup_rows db now org wh None "SKU-001").
  apply (bool_decide_unpack _). vm_compute. reflexivity.
Defined.

(** C2: the resolution order of the specification is not what
    recalcBuffers does.  SKU-001 has a stored lead time of 14 days and a
    LeadTimeStat median of 10 days; the specification's order (and the
    explain payload, which follows it) gives 14, the recalculation
    stores 7.  With no stored buffer the median 10 is ignored as well. *)
Theorem C2_recalc_uses_constant_lead_time :
  (∃ stored written,
      buffers db !! (org, "SKU-001", wh) = Some stored
      ∧ (lead_time_days stored == 14)%Q
      ∧ (SpecWords.resolveLeadTime (Some (lead_time_days stored)) (Some 10%Q) == 14)%Q
      ∧ (Payload.leadTimeDaysOf db org wh "SKU-001" == 14)%Q
      ∧ buffers (recalcBuffers db now org wh None).1 !! (org, "SKU-001", wh) = Some written
      ∧ (lead_time_days written == 7)%Q)
  ∧ (∃ written,
      buffers dbFresh !! (org, "SKU-001", wh) = None
      ∧ (SpecWords.resolveLeadTime None (Some (Payload.computeLeadTime dbFresh org "SKU-001")) == 10)%Q
      ∧ buffers (recalcBuffers dbFresh now org wh None).1 !! (org, "SKU-001", wh) = Some written
      ∧ (lead_time_days written == 7)%Q).
Proof.
  split.
  - do 2 eexists. repeat split; by vm_compute.
  - eexists. repeat split; by vm_compute.
Qed.

(** C3: every buffer written by recalcBuffers has red = buffer_qty/3 and
    yellow = 2·buffer_qty/3; with buffer_qty ≥ 0 the thresholds are
    ordered red ≤ yellow ≤ buffer_qty, and the zone of the
    recommendation is red up to red, yellow from there up to yellow,
    green above. *)
Theorem C3_thresholds_and_zones db t o w lookback s :
  s ∈ sd_sku <$> windowRows o w t db lookback →
  ∃ b, buffers (recalcBuffers db t o w lookback).1 !! (o, s, w) = Some b
    ∧ (red_th b == buffer_qty b / 3)%Q
    ∧ (yellow_th b == 2 * buffer_qty b / 3)%Q
    ∧ ((0 <= buffer_qty b)%Q →
         (red_th b <= yellow_th b)%Q ∧ (yellow_th b <= buffer_qty b)%Q)
    ∧ ∀ on_hand : Q,
         ((on_hand <= red_th b)%Q →
            Recommendations.resolveZone on_hand (red_th b) (yellow_th b)
            = Recommendations.red)
       ∧ ((red_th b < on_hand)%Q → (on_hand <= yellow_th b)%Q →
            Recommendations.resolveZone on_hand (red_th b) (yellow_th b)
            = Recommendations.yellow)
       ∧ ((0 <= buffer_qty b)%Q → (yellow_th b < on_hand)%Q →
            Recommendations.resolveZone on_hand (red_th b) (yellow_th b)
            = Recommendations.green).
Proof.
  intros Hs. eexists. split; [by apply recalcBuffers_written' |].
  set (b := writtenBuffer _ _).
  assert (Hord : (0 <= buffer_qty b)%Q →
                 (red_th b <= yellow_th b)%Q ∧ (yellow_th b <= buffer_qty b)%Q)
    by (intros Hb; apply third_le_two_thirds, Hb).
  split; [reflexivity |]. split; [apply two_thirds_eq |]. split; [exact Hord |].
  intros on_hand. unfold Recommendations.resolveZone. repeat split.
  - intros Hle. destruct (Qlt_le_dec (red_th b) on_hand) as [Hlt | _]; [lra | done].
  - intros Hlt Hle.
    destruct (Qlt_le_dec (red_th b) on_hand) as [_ | Hge]; [| lra].
    destruct (Qlt_le_dec (yellow_th b) on_hand) as [Hlt' | _]; [lra | done].
  - intros Hb Hlt. destruct (Hord Hb) as [Hry _].
    destruct (Qlt_le_dec (red_th b) on_hand) as [_ | Hge]; [| lra].
    destruct (Qlt_le_dec (yellow_th b) on_hand) as [_ | Hge]; [done | lra].
Qed.

Lemma C3_thresholds_and_zones_witness :
  ∃ b, buffers (recalcBuffers db now org wh None).1 !! (org, "SKU-001", wh) = Some b
    ∧ (red_th b == buffer_qty b / 3)%Q
    ∧ (yellow_th b == 2 * buffer_qty b / 3)%Q
    ∧ ((0 <= buffer_qty b)%Q →
         (red_th b <= yellow_th b)%Q ∧ (yellow_th b <= buffer_qty b)%Q)
    ∧ ∀ on_hand : Q,
         ((on_hand <= red_th b)%Q →
            Recommendations.resolveZone on_hand (red_th b) (yellow_th b)
            = Recommendations.red)
       ∧ ((red_th b < on_hand)%Q → (on_hand <= yellow_th b)%Q →
            Recommendations.resolveZone on_hand (red_th b) (yellow_th b)
            = Recommendations.yellow)
       ∧ ((0 <= buffer_qty b)%Q → (yellow_th b < on_hand)%Q →
            Recommendations.resolveZone on_hand (red_th b) (yellow_th b)
            = Recommendations.green).
Proof.
  apply (C3_thresholds_and_zones db now org wh None "SKU-001").
  apply (bool_decide_unpack _). vm_compute. reflexivity.
Defined.

(** C8: recalcBuffers leaves the Buffer row of a SKU without a rollup row
    of the warehouse in the lookback window as it was, and with no
    rollup row at all in the window it stores nothing and returns
    updated = 0. *)
Theorem C8_dormant_skus_untouched db t o w lookback :
  (∀ s, s ∉ sd_sku <$> windowRows o w t db lookback →
        buffers (recalcBuffers db t o w lookback).1 !! (o, s, w) = buffers db !! (o, s, w))
  ∧ (windowRows o w t db lookback = [] →
        recalcBuffers db t o w lookback = (db, {| updated := 0 |})).
Proof.
  split.
  - intros s Hs. apply recalcBuffers_untouched.
    intros r Hr Heq. apply Hs, list_elem_of_fmap. exists r. split; [congruence | done].
  - intros Hnil. unfold recalcBuffers, demandRowsOf.
    fold (windowRows o w t db lookback). by rewrite Hnil.
Qed.

Lemma C8_dormant_skus_untouched_witness :
  (buffers (recalcBuffers db now org wh None).1 !! (org, "SKU-002", wh)
   = buffers db !! (org, "SKU-002", wh))
  ∧ recalcBuffers db (day 30000) org wh None = (db, {| updated := 0 |}).
Proof.
  split.
  - apply (proj1 (C8_dormant_skus_untouched db now org wh None) "SKU-002").
    apply (bool_decide_unpack _). vm_compute. reflexivity.
  - apply (proj2 (C8_dormant_skus_untouched db (day 30000) org wh None)).
    vm_compute. reflexivity.
Defined.

End BufferClaims.

(** ** The recommendation service, taken apart *)

Section RecommendationFacts.
Import Schema Recommendations.

Lemma getRecommendations_db db t input :
  (getRecommendations db t input).1
  = if default true (autoRecalc input)
    then (Buffers.recalcBuffers db t (orgId input) (warehouseId input) None).1
    else db.
Proof.
  unfold getRecommendations.
  destruct (Buffers.listBuffersPage _ _ _ _ _) as [[|b bs] n]; [done |].
  by destruct (resolveStock _ _ _ _ _ _).
Qed.

Lemma getRecommendations_data db t input :
  let db1 := (getRecommendations db t input).1 in
  data (getRecommendations db t input).2
  = recommend (stockMapOf (stockOf db1 input).1)
              (catalogMapOf (catalog db1) (orgId input) (Buffers.sku <$> pageOf db1 input))
    <$> pageOf db1 input.
Proof.
  cbv zeta. rewrite getRecommendations_db.
  unfold getRecommendations, stockOf, pageOf.
  destruct (Buffers.listBuffersPage _ _ _ _ _) as [[|b bs] n]; [done |].
  cbn [fst]. by destruct (resolveStock _ _ _ _ _ _).
Qed.

Lemma getRecommendations_effectiveDate db t input :
  let db1 := (getRecommendations db t input).1 in
  effectiveDate (getRecommendations db t input).2
  = match pageOf db1 input with
    | [] => None
    | _ :: _ => (stockOf db1 input).2
    end.
Proof.
  cbv zeta. rewrite getRecommendations_db.
  unfold getRecommendations, stockOf, pageOf.
  destruct (Buffers.listBuffersPage _ _ _ _ _) as [[|b bs] n]; [done |].
  cbn [fst]. by destruct (resolveStock _ _ _ _ _ _).
Qed.

Lemma paginate_elem {A : Type} (skip take_ : Z) (rows : list A) (x : A) :
  x ∈ Buffers.paginate skip take_ rows → x ∈ rows.
Proof.
  unfold Buffers.paginate. destruct (take_ <? 0)%Z.
  - rewrite elem_of_reverse. intros Hx.
    apply (sublist_subseteq _ _ (sublist_take _ _)) in Hx.
    apply (sublist_subseteq _ _ (sublist_drop _ _)) in Hx.
    by rewrite elem_of_reverse in Hx.
  - intros Hx.
    apply (sublist_subseteq _ _ (sublist_take _ _)) in Hx.
    by apply (sublist_subseteq _ _ (sublist_drop _ _)) in Hx.
Qed.

Lemma listBuffersPage_elem tbl o w skip take_ (bv : Buffers.BufferView) :
  bv ∈ (Buffers.listBuffersPage tbl o w skip take_).1 →
  ∃ b, tbl !! (o, Buffers.sku bv, w) = Some b
       ∧ bv = Buffers.mapBuffer ((o, Buffers.sku bv, w), b).
Proof.
  unfold Buffers.listBuffersPage. cbn [fst].
  intros (kv & -> & Hkv)%list_elem_of_fmap.
  apply paginate_elem in Hkv as Hi.
  unfold Buffers.buffersOrdered in Hi.
  rewrite merge_sort_Permutation in Hi.
  apply list_elem_of_filter in Hi as [[Ho Hw] Hin].
  destruct kv as [[[o' s] w'] b]. cbn in *. subst.
  apply elem_of_map_to_list in Hin. eauto.
Qed.

Lemma getRecommendations_row db t input row :
  row ∈ data (getRecommendations db t input).2 →
  let db1 := (getRecommendations db t input).1 in
  ∃ b, buffers db1 !! (orgId input, sku row, warehouseId input) = Some b
       ∧ row = recommend (stockMapOf (stockOf db1 input).1)
                 (catalogMapOf (catalog db1) (orgId input) (Buffers.sku <$> pageOf db1 input))
                 (Buffers.mapBuffer ((orgId input, sku row, warehouseId input), b)).
Proof.
  rewrite getRecommendations_data. cbv zeta.
  intros (bv & -> & Hbv)%list_elem_of_fmap.
  apply listBuffersPage_elem in Hbv as (b & Hb & Hbv).
  exists b. split; [exact Hb |]. cbn [sku recommend]. by rewrite <- Hbv.
Qed.

End RecommendationFacts.

(** ** The on-hand quantity is the batch sum of the effective date *)

Section StockFacts.
Import Schema Recommendations.

Lemma newMap_lookup {V : Type} (entries : list (string * V)) (kv : string * V) :
  NoDup (entries.*1) → kv ∈ entries → newMap entries !! kv.1 = Some kv.2.
Proof.
  intros Hnd Hin. unfold newMap.
  by apply (foldl_upsert_lookup_written fst snd (λ m e, <[e.1 := e.2]> m)).
Qed.

Lemma newMap_lookup_None {V : Type} (entries : list (string * V)) (s : string) :
  s ∉ entries.*1 → newMap entries !! s = None.
Proof.
  intros Hs. unfold newMap.
  rewrite (foldl_upsert_lookup_other fst snd (λ m e, <[e.1 := e.2]> m)); [done | done |].
  intros e He Heq. apply Hs, list_elem_of_fmap. exists e. by split.
Qed.

Lemma fetchStockRows_skus snaps o w skus a b :
  sg_sku <$> fetchStockRows snaps o w skus a b
  = remove_dups (ss_sku <$> filter (stockWhere o w a b skus) snaps).
Proof.
  unfold fetchStockRows. destruct skus as [|s0 skus].
  - assert (Hnil : filter (stockWhere o w a b []) snaps = []).
    { induction snaps as [|r snaps IH]; [done |].
      rewrite filter_cons. destruct (decide _) as [(_ & _ & _ & _ & Hin) | _]; [| done].
      by apply elem_of_nil in Hin. }
    by rewrite Hnil.
  - rewrite <- list_fmap_compose. induction (remove_dups _) as [|s l IH]; [done |].
    cbn. by rewrite IH.
Qed.

(** What the stock map holds for a SKU after a fetch over a day range. *)
Lemma stockMapOf_fetch snaps o w skus a b (s : string) :
  let rows := filter (stockWhere o w a b skus) snaps in
  stockMapOf (fetchStockRows snaps o w skus a b) !! s
  = if decide (s ∈ ss_sku <$> rows) then Some (Num.sum (qtyOfSku rows s)) else None.
Proof.
  cbv zeta. unfold stockMapOf.
  set (entries := (λ row, (sg_sku row, Num.orZero (sg_sum_qty_on_hand row)))
                    <$> fetchStockRows snaps o w skus a b).
  assert (Hkeys : entries.*1
                  = remove_dups (ss_sku <$> filter (stockWhere o w a b skus) snaps)).
  { unfold entries. rewrite <- list_fmap_compose, <- fetchStockRows_skus.
    by apply list_fmap_ext. }
  destruct (decide _) as [Hin | Hout].
  - assert (Hent : (s, Num.sum (qtyOfSku (filter (stockWhere o w a b skus) snaps) s))
                   ∈ entries).
    { unfold entries, fetchStockRows. destruct skus as [|s0 skus].
      - apply list_elem_of_fmap in Hin as (r & _ & Hr).
        apply list_elem_of_filter in Hr as [(_ & _ & _ & _ & Hr) _].
        by apply elem_of_nil in Hr.
      - rewrite <- list_fmap_compose. apply list_elem_of_fmap. exists s.
        split; [done |]. by apply elem_of_remove_dups. }
    apply (newMap_lookup entries _) in Hent; [done |].
    rewrite Hkeys. apply NoDup_remove_dups.
  - apply newMap_lookup_None. rewrite Hkeys. by rewrite elem_of_remove_dups.
Qed.

(** The effective date, when there is one, is a day on which some SKU of
    the page has a snapshot, and the stock rows are the fetch of that day. *)
Lemma resolveStock_effective snaps o w skus dayStart :
  let r := resolveStock snaps o w skus dayStart (DateFns.addDays dayStart 1) in
  match r.2 with
  | Some d => r.1 = fetchStockRows snaps o w skus d (DateFns.addDays d 1) ∧ r.1 ≠ []
  | None => r.1 = []
  end.
Proof.
  cbv zeta. unfold resolveStock.
  destruct (fetchStockRows snaps o w skus dayStart _) as [|g gs] eqn:E1;
    [| cbn; by rewrite E1].
  destruct (findFallbackDate snaps o w _) as [fd |]; [| done].
  destruct (fetchStockRows snaps o w skus (DateFns.startOfDay fd) _) as [|g gs] eqn:E2;
    [done | cbn; by rewrite E2].
Qed.

(** On-hand, as used for a row, is the sum of the SKU's batches on the
    effective date (0 when the SKU has none there or no date was found). *)
Lemma onHandUsed_effective db1 input (s : string) :
  onHandUsed db1 input s
  = match (stockOf db1 input).2 with
    | Some d =>
        let rows := filter (stockWhere (orgId input) (warehouseId input) d
                              (DateFns.addDays d 1) (Buffers.sku <$> pageOf db1 input))
                           (stock_snapshots db1) in
        if decide (s ∈ ss_sku <$> rows) then Num.sum (qtyOfSku rows s) else 0%Q
    | None => 0%Q
    end.
Proof.
  unfold onHandUsed, stockOf.
  pose proof (resolveStock_effective (stock_snapshots db1) (orgId input) (warehouseId input)
                (Buffers.sku <$> pageOf db1 input) (DateFns.startOfDay (date input))) as H.
  cbv zeta in H. destruct (resolveStock _ _ _ _ _ _) as [rows [d |]]; cbn [fst snd] in *.
  - destruct H as [-> _]. rewrite stockMapOf_fetch. by destruct (decide _).
  - by rewrite H.
Qed.

End StockFacts.

(** ** Claims about the recommendation rows *)

Section RecommendationClaims.
Import Schema Recommendations Examples.

(** C4: for every recommendation row, suggested_qty is
    max(0, ceil(buffer_qty − stock_position)) with
    stock_position = on_hand + inbound − reservations (inbound and
    reservations are both 0 in the service); it is an integer, never
    negative, and never below the raw order quantity. *)
Theorem C4_suggested_qty db t input row :
  row ∈ data (getRecommendations db t input).2 →
  let db1 := (getRecommendations db t input).1 in
  let reservations := 0%Q in
  let stock_position :=
    SpecWords.stockPosition (onHandUsed db1 input (sku row)) (inbound row) reservations in
  ∃ b, buffers db1 !! (orgId input, sku row, warehouseId input) = Some b
    ∧ suggestedQty row = Z.max 0 (Qceiling (buffer_qty b - stock_position))
    ∧ (0 ≤ suggestedQty row)%Z
    ∧ (buffer_qty b - stock_position <= inject_Z (suggestedQty row))%Q.
Proof.
  intros Hrow. cbv zeta.
  destruct (getRecommendations_row db t input row Hrow) as (b & Hb & Heq).
  exists b. split; [exact Hb |].
  set (oh := onHandUsed _ _ _).
  assert (Hs : suggestedQty row
               = Z.max 0 (Qceiling (buffer_qty b - SpecWords.stockPosition oh (inbound row) 0))).
  { assert (Hraw : suggestedQty row = Z.max 0 (Num.ceil (buffer_qty b - (oh + 0)))).
    { unfold oh, onHandUsed. rewrite Heq at 1. reflexivity. }
    assert (Hinb : inbound row = 0%Q) by (rewrite Heq; reflexivity).
    rewrite Hraw, Hinb. f_equal. unfold Num.ceil. apply Qceiling_comp.
    unfold SpecWords.stockPosition. ring. }
  split; [exact Hs |]. split; [rewrite Hs; lia |].
  rewrite Hs. eapply Qle_trans; [apply Qle_ceiling |].
  rewrite <- Zle_Qle. lia.
Qed.

Lemma C4_suggested_qty_witness :
  ∃ row, head (data (getRecommendations db now (request (Some false))).2) = Some row
    ∧ sku row = "SKU-001"
    ∧ suggestedQty row = 9%Z
    ∧ ∃ b, buffers db !! (org, "SKU-001", wh) = Some b
        ∧ suggestedQty row
          = Z.max 0 (Qceiling (buffer_qty b
              - SpecWords.stockPosition
                  (onHandUsed db (request (Some false)) "SKU-001") (inbound row) 0)).
Proof.
  destruct (data (getRecommendations db now (request (Some false))).2)
    as [|row rest] eqn:E; [by vm_compute in E |].
  assert (Hin : row ∈ data (getRecommendations db now (request (Some false))).2)
    by (rewrite E; left).
  destruct (C4_suggested_qty db now (request (Some false)) row Hin) as (b & Hb & Hs & _).
  assert (Hsku : sku row = "SKU-001") by (vm_compute in E; by injection E as <- _).
  assert (Hqty : suggestedQty row = 9%Z) by (vm_compute in E; by injection E as <- _).
  exists row. split; [done |]. split; [done |]. split; [done |].
  rewrite Hsku in Hb, Hs. exists b. split; [exact Hb | exact Hs].
Defined.
Lemma ratio_above_threshold (onHand_ demand30 : Q) :
  (0 < demand30)%Q →
  ((11 # 10) < onHand_ / demand30)%Q ↔ (demand30 * (11 # 10) < onHand_)%Q.
Proof.
  intros Hd. split; intros H.
  - destruct (Qlt_le_dec (demand30 * (11 # 10)) onHand_) as [Hlt | Hle]; [done |].
    assert (onHand_ / demand30 <= 11 # 10)%Q.
    { apply Qle_shift_div_r; [done |]. lra. }
    lra.
  - apply Qlt_shift_div_l; [done |]. lra.
Qed.

(** C5, as stated, fails on its example: for avg_daily_demand = 10 and
    on_hand = 400 the flag is raised, with ratio 400/300 rounded to two
    decimals, 1.33, which is not 1.21. *)
Lemma C5_ratio_is_not_1_21 :
  ∃ o, detectOverstock 400 (Some 10%Q) = Some o
       ∧ (ratio o == 133 # 100)%Q
       ∧ ¬ SpecWords.approx2 (ratio o) (121 # 100).
Proof.
  eexists. split; [vm_compute; reflexivity |]. split; [by vm_compute |].
  unfold SpecWords.approx2. vm_compute. intros H. by apply H.
Qed.

(** C5, amended: the overstock flag of a recommendation row is raised
    exactly when avg_daily_demand > 0 and
    on_hand > avg_daily_demand × 30 × 1.1, and it carries the ratio
    on_hand / (avg_daily_demand × 30) rounded to two decimals; for
    avg_daily_demand = 10 and on_hand = 400 the flag is raised with
    ratio 1.33. *)
Theorem C5_overstock_flag (onHand_ avg : Q) :
  (is_Some (detectOverstock onHand_ (Some avg))
     ↔ (0 < avg)%Q ∧ (avg * 30 * (11 # 10) < onHand_)%Q)
  ∧ (∀ o, detectOverstock onHand_ (Some avg) = Some o →
          ratio o = Num.roundNumber (onHand_ / (avg * 30)) 2)
  ∧ (∀ stockMap catalogMap buffer,
       overstock (recommend stockMap catalogMap buffer)
       = detectOverstock (default 0%Q (stockMap !! Buffers.sku buffer))
                         (Some (Buffers.avgDailyDemand buffer)))
  ∧ (∃ o, detectOverstock 400 (Some 10%Q) = Some o ∧ (ratio o == 133 # 100)%Q).
Proof.
  split; [| split; [| split]].
  - unfold detectOverstock.
    destruct (Qeq_bool avg 0) eqn:Hz.
    { apply Qeq_bool_iff in Hz. split; [by intros [? ?] |]. intros [Hpos _]. lra. }
    destruct (Qlt_le_dec 0 avg) as [Hpos | Hneg].
    2: { split; [by intros [? ?] |]. intros [Hpos _]. lra. }
    destruct (Qlt_le_dec 0 (avg * 30)) as [Hd | Hd]; [| lra].
    destruct (Qlt_le_dec (11 # 10) (onHand_ / (avg * 30))) as [Hr | Hr].
    + split; [| by eauto]. intros _. split; [done |].
      by apply ratio_above_threshold.
    + split; [by intros [? ?] |]. intros [_ Hlt].
      apply ratio_above_threshold in Hlt; [lra | done].
  - intros o. unfold detectOverstock.
    repeat (destruct (Qeq_bool _ _) || destruct (Qlt_le_dec _ _)); try done.
    by intros [= <-].
  - done.
  - eexists. split; [vm_compute; reflexivity | by vm_compute].
Qed.

Lemma C5_overstock_flag_witness :
  ∃ o, detectOverstock 400 (Some 10%Q) = Some o
       ∧ ratio o = Num.roundNumber (400 / (10 * 30)) 2.
Proof.
  destruct (C5_overstock_flag 400 10) as (Hiff & Hratio & _).
  destruct (proj2 Hiff) as [o Ho]; [split; by vm_compute |].
  exists o. split; [exact Ho | exact (Hratio o Ho)].
Defined.

End RecommendationClaims.

(** ** Claims about the effective date and the automatic recalculation *)

Section RecommendationStateClaims.
Import Schema Recommendations Examples.

(** C6: the fallback does not return the most recent prior snapshot date.
    Both requests are made on day 20035 for day 20030, on which no snapshot
    exists; the most recent earlier one is day 20028, with batches
    5 + 3 = 8 for SKU-001.  In [dbNextDay] a snapshot dated day 20031
    exists: the service returns day 20031 as the effective date and 9 as
    on-hand.  In [dbOtherSku] the most recent snapshot up to the requested
    day belongs to a SKU outside the page: the service returns no
    effective date and 0 as on-hand. *)
Theorem C6_fallback_misses_prior_snapshot :
  let req := request (Some false) in
  let skus := ["SKU-001"; "SKU-002"] in
  (fetchStockRows (stock_snapshots dbNextDay) org wh skus (day 20030) (day 20031) = []
   ∧ SpecWords.priorSnapshotDate (stock_snapshots dbNextDay) org wh skus (day 20030)
     = Some (day 20028)
   ∧ Num.sum (qtyOfSku (filter (stockWhere org wh (day 20028) (day 20029) skus)
                               (stock_snapshots dbNextDay)) "SKU-001") = 8%Q
   ∧ effectiveDate (getRecommendations dbNextDay later req).2 = Some (day 20031)
   ∧ (onHandUsed dbNextDay req "SKU-001" == 9)%Q
   ∧ (onHand <$> head (data (getRecommendations dbNextDay later req).2))
     = Some (Num.roundNumber 9 1))
  ∧ (fetchStockRows (stock_snapshots dbOtherSku) org wh skus (day 20030) (day 20031) = []
     ∧ SpecWords.priorSnapshotDate (stock_snapshots dbOtherSku) org wh skus (day 20030)
       = Some (day 20028)
     ∧ Num.sum (qtyOfSku (filter (stockWhere org wh (day 20028) (day 20029) skus)
                                 (stock_snapshots dbOtherSku)) "SKU-001") = 8%Q
     ∧ effectiveDate (getRecommendations dbOtherSku later req).2 = None
     ∧ (onHandUsed dbOtherSku req "SKU-001" == 0)%Q
     ∧ (onHand <$> head (data (getRecommendations dbOtherSku later req).2))
       = Some (Num.roundNumber 0 1)).
Proof. cbv zeta. repeat split; by vm_compute. Qed.

(** C10: unless autoRecalc is explicitly false, getRecommendations first
    runs recalcBuffers for the org and warehouse (default lookback), the
    page is read from the recalculated Buffer table, and that table is
    what the call leaves behind; with autoRecalc = false the database is
    unchanged.  The write is real: on [db] the default call changes the
    Buffer table. *)
Theorem C10_auto_recalc db t input :
  let recalculated :=
    (Buffers.recalcBuffers db t (orgId input) (warehouseId input) None).1 in
  (autoRecalc input ≠ Some false →
     (getRecommendations db t input).1 = recalculated
     ∧ (getRecommendations db t input).2
       = (getRecommendations recalculated t (withAutoRecalc input false)).2)
  ∧ (autoRecalc input = Some false → (getRecommendations db t input).1 = db)
  ∧ buffers (getRecommendations Examples.db now (request None)).1 ≠ buffers Examples.db.
Proof.
  cbv zeta. split; [| split].
  - intros Hauto.
    assert (Hdef : default true (autoRecalc input) = true)
      by (destruct (autoRecalc input) as [[|]|]; done).
    split; [by rewrite getRecommendations_db, Hdef |].
    unfold getRecommendations. rewrite Hdef. reflexivity.
  - intros Hauto. by rewrite getRecommendations_db, Hauto.
  - intros Heq.
    assert (H : buffers (getRecommendations Examples.db now (request None)).1
                  !! (org, "SKU-001", wh)
                = buffers Examples.db !! (org, "SKU-001", wh)) by (by rewrite Heq).
    vm_compute in H. discriminate H.
Qed.

Lemma C10_auto_recalc_witness :
  (getRecommendations db now (request None)).1
  = (Buffers.recalcBuffers db now org wh None).1
  ∧ (getRecommendations db now (request (Some false))).1 = db.
Proof.
  split.
  - apply (proj1 (C10_auto_recalc db now (request None))). discriminate.
  - apply (proj1 (proj2 (C10_auto_recalc db now (request (Some false))))). reflexivity.
Defined.

End RecommendationStateClaims.

(** ** Claims about the sales_daily builder *)

Section SalesDailyClaims.
Import Schema SalesDaily.

Lemma upsertRollup_insert t tbl p :
  upsertRollup t tbl p = <[p.1 := storedRollup t p]> tbl.
Proof. unfold upsertRollup. by destruct (tbl !! _). Qed.

Lemma startOfDay_in_range (ts fromDate toDate : Z) :
  (DateFns.dateStart fromDate ≤ ts)%Z → (ts ≤ DateFns.dateEnd toDate)%Z →
  (DateFns.dateStart fromDate ≤ DateFns.startOfDay ts)%Z
  ∧ (DateFns.startOfDay ts ≤ DateFns.dateStart toDate)%Z.
Proof.
  unfold DateFns.dateStart, DateFns.dateEnd, DateFns.startOfDay, DateFns.MS_PER_DAY.
  intros Hlo Hhi.
  pose proof (Z.div_mod ts 86400000 ltac:(lia)) as Hdm.
  pose proof (Z.mod_pos_bound ts 86400000 ltac:(lia)) as Hm.
  lia.
Qed.

Lemma selectRows_key_date events org lo hi (k : sales_daily_key) (ex : excluded) :
  (k, ex) ∈ selectRows events org lo hi →
  ∃ e, se_org_id e = org ∧ (lo ≤ se_order_datetime e)%Z ∧ (se_order_datetime e ≤ hi)%Z
       ∧ k.1.1.1.2 = DateFns.startOfDay (se_order_datetime e).
Proof.
  unfold selectRows. intros (g & Hk & Hg)%list_elem_of_fmap.
  apply elem_of_remove_dups, list_elem_of_fmap in Hg as (e & -> & He).
  apply list_elem_of_filter in He as [(Horg & Hlo & Hhi) _].
  injection Hk as -> _.
  exists e. by repeat split.
Qed.

(** C7: rebuilding twice over the same events and the same date range
    stores the same rollups: the second run succeeds when the first
    does, leaves every rollup with the units, revenue and order count
    that the first run left (only updated_at is refreshed, no row is
    added), and a run that the database rejects stores nothing and is
    rejected again.  No row dated outside the range is written. *)
Theorem C7_rebuild_idempotent db t1 t2 opts :
  fromDateOf t1 opts = fromDateOf t2 opts →
  toDateOf t1 opts = toDateOf t2 opts →
  (∀ db1 range,
     rebuildSalesDaily db t1 opts = inr (db1, range) →
     (∃ db2, rebuildSalesDaily db1 t2 opts = inr (db2, range)
             ∧ ∀ k, rollupValues <$> sales_daily db2 !! k
                    = rollupValues <$> sales_daily db1 !! k)
     ∧ (∀ org d sku wh ch,
          (d < DateFns.dateStart (range_from range))%Z
          ∨ (DateFns.dateEnd (range_to range) < d)%Z →
          sales_daily db1 !! (org, d, sku, wh, ch)
          = sales_daily db !! (org, d, sku, wh, ch)))
  ∧ (∀ e, rebuildSalesDaily db t1 opts = inl e → rebuildSalesDaily db t2 opts = inl e).
Proof.
  intros Hfrom Hto. unfold rebuildSalesDaily. rewrite <- Hfrom, <- Hto.
  set (proposed := selectRows _ _ _ _).
  destruct (decide (NoDup (proposed.*1))) as [Hnd | Hdup]; [| by split].
  split; [| done]. intros db1 range [= <- <-]. cbn [sales_events set_sales_daily sales_daily].
  fold proposed. rewrite decide_True by done. split.
  - eexists. split; [reflexivity |]. intros k. cbn [sales_daily set_sales_daily].
    destruct (foldl_upsert_lookup_cases fst (storedRollup t1) (upsertRollup t1)
                (upsertRollup_insert t1) proposed (sales_daily db) k Hnd)
      as [(p & Hp & Hk & Hlk) | [Hk Hlk]].
    + rewrite Hlk. rewrite <- Hk.
      rewrite (foldl_upsert_lookup_written fst (storedRollup t2) (upsertRollup t2)
                 (upsertRollup_insert t2) proposed _ p Hnd Hp).
      done.
    + by rewrite (foldl_upsert_lookup_other fst (storedRollup t2) (upsertRollup t2)
                   (upsertRollup_insert t2) proposed _ k Hk).
  - intros org d sku wh ch Hout. cbn [range_from range_to] in Hout.
    apply (foldl_upsert_lookup_other fst (storedRollup t1) (upsertRollup t1)
             (upsertRollup_insert t1)).
    intros [k ex] Hp Heq. cbn in Heq. subst k.
    apply selectRows_key_date in Hp as (e & _ & Hlo & Hhi & Hd). cbn in Hd.
    destruct (startOfDay_in_range _ _ _ Hlo Hhi) as [H1 H2].
    unfold DateFns.dateEnd, DateFns.dateStart in *. lia.
Qed.

Lemma C7_rebuild_idempotent_witness :
  let opts := {| orgId := Examples.org; from := Some 20000%Z; to := Some 20010%Z |} in
  ∃ db1 db2 range,
    rebuildSalesDaily Examples.dbEvents Examples.now opts = inr (db1, range)
    ∧ rebuildSalesDaily db1 (Examples.now + 5000) opts = inr (db2, range)
    ∧ ∀ k, rollupValues <$> sales_daily db2 !! k = rollupValues <$> sales_daily db1 !! k.
Proof.
  cbv zeta.
  set (opts := {| orgId := Examples.org; from := Some 20000%Z; to := Some 20010%Z |}).
  assert (∃ db1 range,
             rebuildSalesDaily Examples.dbEvents Examples.now opts = inr (db1, range))
    as (db1 & range & E).
  { unfold rebuildSalesDaily. rewrite decide_True; [by eexists _, _ |].
    apply (bool_decide_unpack _). vm_compute. reflexivity. }
  destruct (proj1 (C7_rebuild_idempotent Examples.dbEvents Examples.now
                     (Examples.now + 5000) opts eq_refl eq_refl) db1 range E)
    as [(db2 & H2 & Hv) _].
  exists db1, db2, range. by repeat split.
Defined.

End SalesDailyClaims.

(** ** Claims about the KPI service *)

Section KpiClaims.
Import Schema Kpi.

Lemma total_units_sum (units : list Q) : Num.orZero (sumOrNull units) = Num.sum units.
Proof. by destruct units. Qed.

Lemma day_bounds (day d : Z) :
  ((DateFns.dateStart day ≤ d)%Z ↔ (day ≤ DateFns.isoDate d)%Z)
  ∧ ((d ≤ DateFns.dateEnd day)%Z ↔ (DateFns.isoDate d ≤ day)%Z).
Proof.
  unfold DateFns.dateStart, DateFns.dateEnd, DateFns.isoDate, DateFns.MS_PER_DAY.
  pose proof (Z.div_mod d 86400000 ltac:(lia)) as Hdm.
  pose proof (Z.mod_pos_bound d 86400000 ltac:(lia)) as Hmod.
  split; split; intros H; nia.
Qed.

Lemma isoDate_dateStart (day : Z) : DateFns.isoDate (DateFns.dateStart day) = day.
Proof.
  unfold DateFns.isoDate, DateFns.dateStart, DateFns.MS_PER_DAY. by apply Z.div_mul.
Qed.

Lemma salesUnits_soldInWindow db t input :
  salesUnits db t input
  = SpecWords.soldInWindow (sales_daily db) (orgId input) (sku input)
      (default "GLOBAL" (warehouseId input))
      (DateFns.isoDate (default (DateFns.subDays t 30) (from input)))
      (DateFns.isoDate (default t (to input))).
Proof.
  unfold salesUnits, SpecWords.soldInWindow. f_equal.
  apply list_filter_iff. intros r.
  unfold whereClause, warehouseOf, fromDateOf, toDateOf.
  destruct (day_bounds (DateFns.isoDate (default (DateFns.subDays t 30) (from input)))
              (sd_date r)) as [Hlo _].
  destruct (day_bounds (DateFns.isoDate (default t (to input))) (sd_date r)) as [_ Hhi].
  tauto.
Qed.

Lemma windowDaysOf_length t input :
  windowDaysOf t input
  = Z.max 1 (SpecWords.windowLength
               (DateFns.isoDate (default (DateFns.subDays t 30) (from input)))
               (DateFns.isoDate (default t (to input)))).
Proof.
  unfold windowDaysOf, SpecWords.windowLength, DateFns.differenceInCalendarDays,
    fromDateOf, toDateOf.
  by rewrite !isoDate_dateStart.
Qed.

Lemma minOrNull_cons (a : Z) (l : list Z) :
  minOrNull (a :: l)
  = match minOrNull l with
    | None => Some a
    | Some m => Some (Z.min a m)
    end.
Proof. reflexivity. Qed.

Lemma minOrNull_None (l : list Z) : minOrNull l = None ↔ l = [].
Proof.
  destruct l as [|a l]; [done |]. rewrite minOrNull_cons. by destruct (minOrNull l).
Qed.

Lemma minOrNull_Some (l : list Z) (e : Z) :
  minOrNull l = Some e ↔ e ∈ l ∧ ∀ x, x ∈ l → (e ≤ x)%Z.
Proof.
  revert e. induction l as [|a l IH]; intros e.
  { split; [done |]. intros [H _]. by apply elem_of_nil in H. }
  rewrite minOrNull_cons. destruct (minOrNull l) as [m |] eqn:E.
  - destruct (proj1 (IH m) eq_refl) as [Hin Hmin]. split.
    + intros [= <-]. split.
      * destruct (Z.min_spec a m) as [[_ ->] | [_ ->]]; [by left | by right].
      * intros x [-> | Hx]%elem_of_cons; [lia |]. specialize (Hmin x Hx). lia.
    + intros [He Hle]. f_equal.
      assert (Ha : (e ≤ a)%Z) by (apply Hle; left).
      assert (Hm : (e ≤ m)%Z) by (apply Hle; by right).
      apply elem_of_cons in He as [-> | He]; [lia |].
      specialize (Hmin e He). lia.
  - apply minOrNull_None in E. subst l. split.
    + intros [= <-]. split; [left |]. intros x [-> | Hx]%elem_of_cons; [lia |].
      by apply elem_of_nil in Hx.
    + intros [[-> | He]%elem_of_cons _]; [done | by apply elem_of_nil in He].
Qed.

(** The rows that the second stock query of the KPI aggregates are the
    latest snapshot rows of the SKU in the warehouse. *)
Lemma onHandOf_latest db input :
  onHandOf db input
  = (Num.sum (ss_qty_on_hand
                <$> SpecWords.latestSnapshots (stock_snapshots db) (orgId input) (sku input)
                      (default "GLOBAL" (warehouseId input))),
     minOrNull (omap ss_expiry_date
                  (SpecWords.latestSnapshots (stock_snapshots db) (orgId input) (sku input)
                     (default "GLOBAL" (warehouseId input))))).
Proof.
  unfold onHandOf, latestStockDate, SpecWords.latestSnapshots. cbv zeta.
  destruct (DateFns.latestDate (ss_date <$> stockOf db input)) as [d |] eqn:E.
  - destruct (latestDate_spec _ _ E) as [Hin Hmax].
    apply list_elem_of_fmap in Hin as (r0 & Hd & Hr0).
    assert (Hrows : filter (λ s, ss_date s = d) (stockOf db input)
                    = filter (λ r, (ss_org_id r = orgId input ∧ ss_sku r = sku input
                                    ∧ ss_warehouse_id r = default "GLOBAL" (warehouseId input))
                                   ∧ Forall (λ r', ss_org_id r' = orgId input
                                                   ∧ ss_sku r' = sku input
                                                   ∧ ss_warehouse_id r'
                                                     = default "GLOBAL" (warehouseId input)
                                                   → (ss_date r' ≤ ss_date r)%Z)
                                       (stock_snapshots db))
                        (stock_snapshots db)).
    { unfold stockOf. rewrite list_filter_filter. apply filter_ext_elem.
      intros r Hr. unfold stockWhere, warehouseOf. rewrite Forall_forall. split.
      - intros [Hdate Hw]. split; [done |]. intros r' Hr' Hw'. rewrite Hdate.
        apply Hmax, list_elem_of_fmap. exists r'. split; [done |].
        by apply list_elem_of_filter.
      - intros [Hw Hall]. split; [| done].
        assert (Hle : (ss_date r ≤ d)%Z).
        { apply Hmax, list_elem_of_fmap. exists r. split; [done |].
          by apply list_elem_of_filter. }
        apply list_elem_of_filter in Hr0 as [Hw0 Hr0].
        specialize (Hall r0 Hr0 Hw0). lia. }
    rewrite Hrows. by rewrite total_units_sum.
  - apply latestDate_None, fmap_nil_inv in E.
    rewrite filter_none; [done |].
    intros r Hr [Hw _].
    assert (Hin : r ∈ stockOf db input) by by apply list_elem_of_filter.
    rewrite E in Hin. by apply elem_of_nil in Hin.
Qed.

(** C9: days-of-supply is on_hand / avg_daily_demand, and null when the
    demand is zero; turns is (units sold in the window ÷ days of the
    window) × 365 ÷ on_hand, and 0 when on_hand is 0;
    median_days_to_sell is 365 / turns rounded when turns > 0, and
    otherwise days-of-supply rounded (nothing when days-of-supply is
    null or zero).  The window runs from the day of [from] (30 days
    before now by default) to the day of [to] (today by default), both
    counted; the units sold are those of the rollup rows of these days,
    avg_daily_demand is their mean over the rows, and on_hand is the sum
    of the latest snapshot rows. *)
Theorem C9_kpi_metrics db t input :
  let m := metrics (getSkuKpi db t input) in
  let warehouse := default "GLOBAL" (warehouseId input) in
  let fromDay := DateFns.isoDate (default (DateFns.subDays t 30) (from input)) in
  let toDay := DateFns.isoDate (default t (to input)) in
  let units :=
    SpecWords.soldInWindow (sales_daily db) (orgId input) (sku input) warehouse
      fromDay toDay in
  let stock :=
    SpecWords.latestSnapshots (stock_snapshots db) (orgId input) (sku input) warehouse in
  avg_daily_demand m = Num.orZero (Num.avg units)
  ∧ on_hand m = Num.sum (ss_qty_on_hand <$> stock)
  ∧ ((0 < avg_daily_demand m)%Q → dos m = Some (on_hand m / avg_daily_demand m)%Q)
  ∧ ((avg_daily_demand m == 0)%Q → dos m = None)
  ∧ ((fromDay ≤ toDay)%Z → (0 < on_hand m)%Q →
       (turns m
        == Num.sum units / inject_Z (SpecWords.windowLength fromDay toDay) * 365
           / on_hand m)%Q)
  ∧ ((toDay < fromDay)%Z → (turns m == 0)%Q)
  ∧ ((on_hand m == 0)%Q → turns m = 0%Q)
  ∧ ((0 < turns m)%Q → median_days_to_sell m = Some (Num.round (365 / turns m)))
  ∧ (¬ (0 < turns m)%Q →
       median_days_to_sell m
       = match dos m with
         | Some d => if Qeq_bool d 0 then None else Some (Num.round d)
         | None => None
         end).
Proof.
  cbv zeta. unfold getSkuKpi.
  rewrite onHandOf_latest, salesUnits_soldInWindow, windowDaysOf_length.
  set (fromDay := DateFns.isoDate (default (DateFns.subDays t 30) (from input))).
  set (toDay := DateFns.isoDate (default t (to input))).
  set (units := SpecWords.soldInWindow _ _ _ _ _ _).
  set (onHand := Num.sum (ss_qty_on_hand <$> _)).
  set (minExpiry := minOrNull _).
  cbn [metrics dos turns median_days_to_sell on_hand avg_daily_demand].
  set (avg := Num.orZero (Num.avg units)).
  set (w := Z.max 1 (SpecWords.windowLength fromDay toDay)).
  assert (Hw : (1 ≤ w)%Z) by (unfold w; lia).
  rewrite total_units_sum.
  destruct (Z_lt_le_dec 0 w) as [_ | Hw0]; [| lia].
  set (tr := if Qlt_le_dec 0 onHand then _ else _).
  split; [done |]. split; [done |].
  split. { intros Hpos. destruct (Qlt_le_dec 0 avg); [done | lra]. }
  split. { intros Hz. destruct (Qlt_le_dec 0 avg); [lra | done]. }
  split.
  { intros Hdays Hpos. unfold tr. destruct (Qlt_le_dec 0 onHand); [| lra].
    replace w with (SpecWords.windowLength fromDay toDay);
      [reflexivity | unfold w, SpecWords.windowLength; lia]. }
  split.
  { intros Hdays.
    assert (Hnil : units = []).
    { unfold units, SpecWords.soldInWindow. rewrite filter_none; [done |].
      intros r _ (_ & _ & _ & Hlo & Hhi). lia. }
    unfold tr. rewrite Hnil. destruct (Qlt_le_dec 0 onHand); [| reflexivity].
    cbn [Num.sum foldr]. unfold Qdiv. ring. }
  split. { intros Hz. unfold tr. destruct (Qlt_le_dec 0 onHand); [lra | done]. }
  split. { intros Hpos. destruct (Qlt_le_dec 0 tr); [done | lra]. }
  intros Hnpos. destruct (Qlt_le_dec 0 tr) as [Hpos | _]; [done |].
  destruct (Qlt_le_dec 0 avg); cbn; [| done].
  by destruct (Qeq_bool _ 0).
Qed.

Lemma C9_kpi_metrics_witness :
  let input := {| orgId := Examples.org; sku := "SKU-001";
                  warehouseId := Some Examples.wh;
                  from := Some (Examples.day 20000); to := Some (Examples.day 20010) |} in
  let m := metrics (getSkuKpi Examples.db Examples.now input) in
  (avg_daily_demand m == 30)%Q
  ∧ (on_hand m == 8)%Q
  ∧ dos m = Some (on_hand m / avg_daily_demand m)%Q
  ∧ (turns m == 60 / 11 * 365 / 8)%Q
  ∧ median_days_to_sell m = Some 1%Z.
Proof.
  cbv zeta.
  set (input := {| orgId := Examples.org; sku := "SKU-001";
                   warehouseId := Some Examples.wh;
                   from := Some (Examples.day 20000); to := Some (Examples.day 20010) |}).
  destruct (C9_kpi_metrics Examples.db Examples.now input)
    as (Havg & Hon & Hdos & _ & Hturns & _ & _ & Hmed & _).
  assert (Hturns' : (turns (metrics (getSkuKpi Examples.db Examples.now input))
                     == 60 / 11 * 365 / 8)%Q).
  { rewrite Hturns; [| by vm_compute | rewrite Hon; by vm_compute].
    rewrite Hon. by vm_compute. }
  split; [rewrite Havg; by vm_compute |].
  split; [rewrite Hon; by vm_compute |].
  split; [apply Hdos; rewrite Havg; by vm_compute |].
  split; [exact Hturns' |].
  rewrite Hmed; [| rewrite Hturns'; by vm_compute].
  by vm_compute.
Defined.

End KpiClaims.

(** * Further properties of the code *)

(** ** Buffer recalculation *)

Section BufferExtras.
Import Schema Buffers Views.

Lemma recalcBuffers_other_tables db t o w lookback :
  otherThanBuffers (recalcBuffers db t o w lookback).1 = otherThanBuffers db.
Proof. unfold recalcBuffers. by destruct (demandRowsOf _ _ _ _). Qed.

Lemma windowRows_recalc db t t' o w lookback lookback' :
  windowRows o w t' (recalcBuffers db t o w lookback).1 lookback'
  = windowRows o w t' db lookback'.
Proof.
  unfold windowRows.
  pose proof (recalcBuffers_other_tables db t o w lookback) as H.
  injection H as _ -> _ _ _. done.
Qed.

Lemma recalcBuffers_updated db t o w lookback :
  updated (recalcBuffers db t o w lookback).2
  = length (groupBySku (windowRows o w t db lookback)).
Proof.
  unfold recalcBuffers, demandRowsOf. fold (windowRows o w t db lookback).
  by destruct (groupBySku _).
Qed.

(** X1: recalculating again, at a time whose lookback window selects the
    same rollup rows, reports the same count and leaves every buffer row
    with the same lead time, demand, target and thresholds; only
    updated_at moves.  At the same instant the second run changes
    nothing at all. *)
Theorem recalcBuffers_rerun db t1 t2 o w lookback :
  windowRows o w t2 db lookback = windowRows o w t1 db lookback →
  let r1 := recalcBuffers db t1 o w lookback in
  let r2 := recalcBuffers r1.1 t2 o w lookback in
  updated r2.2 = updated r1.2
  ∧ (∀ k, bufferNumbers <$> buffers r2.1 !! k = bufferNumbers <$> buffers r1.1 !! k)
  ∧ (t2 = t1 → r2 = r1).
Proof.
  intros Hwin. cbv zeta.
  set (r1 := recalcBuffers db t1 o w lookback).
  assert (Hrows : windowRows o w t2 r1.1 lookback = windowRows o w t1 db lookback)
    by (unfold r1; by rewrite windowRows_recalc).
  assert (Hnum : ∀ k, bufferNumbers <$> buffers (recalcBuffers r1.1 t2 o w lookback).1 !! k
                      = bufferNumbers <$> buffers r1.1 !! k).
  { intros k. rewrite recalcBuffers_buffers, Hrows.
    assert (Hb1 : buffers r1.1
                  = foldl (upsertBuffer o w t1) (buffers db)
                          (groupBySku (windowRows o w t1 db lookback)))
      by apply recalcBuffers_buffers.
    rewrite Hb1. set (rows := groupBySku _).
    destruct (foldl_upsert_lookup_cases (λ row, (o, dr_sku row, w)) (writtenBuffer t2)
                (upsertBuffer o w t2) (upsertBuffer_insert o w t2) rows
                (foldl (upsertBuffer o w t1) (buffers db) rows) k)
      as [(row & Hrow & Hk & Hlk) | [_ Hlk]].
    - rewrite (list_fmap_compose dr_sku (λ s, (o, s, w))).
      assert (Inj (=) (=) (λ s : string, (o, s, w))) by (by intros s1 s2 [= ->]).
      apply (NoDup_fmap_2 _), groupBySku_NoDup.
    - etrans; [exact (f_equal (fmap bufferNumbers) Hlk) |]. subst k.
      by rewrite (foldl_upsert_written o w t1 rows _ row (groupBySku_NoDup _) Hrow).
    - exact (f_equal (fmap bufferNumbers) Hlk). }
  split; [| split; [exact Hnum |]].
  - rewrite recalcBuffers_updated, Hrows. unfold r1. by rewrite recalcBuffers_updated.
  - intros ->. unfold r1.
    unfold recalcBuffers at 1. unfold demandRowsOf.
    fold (windowRows o w t1 (recalcBuffers db t1 o w lookback).1 lookback).
    rewrite windowRows_recalc.
    unfold recalcBuffers, demandRowsOf. fold (windowRows o w t1 db lookback).
    destruct (groupBySku (windowRows o w t1 db lookback)) as [|row rows] eqn:E; [done |].
    cbn [fst]. f_equal. unfold set_buffers. cbn. f_equal.
    apply map_eq. intros k.
    pose proof (Hnum k) as Hk. rewrite !recalcBuffers_buffers in Hk.
    unfold r1 in Hk. rewrite windowRows_recalc, recalcBuffers_buffers, E in Hk.
    destruct (foldl_upsert_lookup_cases (λ row, (o, dr_sku row, w)) (writtenBuffer t1)
                (upsertBuffer o w t1) (upsertBuffer_insert o w t1) (row :: rows)
                (foldl (upsertBuffer o w t1) (buffers db) (row :: rows)) k)
      as [(row' & Hrow' & Hk' & Hlk) | [_ Hlk]].
    + rewrite (list_fmap_compose dr_sku (λ s, (o, s, w))), <- E.
      assert (Inj (=) (=) (λ s : string, (o, s, w))) by (by intros s1 s2 [= ->]).
      apply (NoDup_fmap_2 _), groupBySku_NoDup.
    + etrans; [exact Hlk |]. subst k. symmetry.
      apply (foldl_upsert_written o w t1 (row :: rows)); [| done].
      rewrite <- E. apply groupBySku_NoDup.
    + exact Hlk.
Qed.

Lemma recalcBuffers_rerun_witness :
  let r1 := recalcBuffers Examples.db Examples.now Examples.org Examples.wh None in
  let r2 := recalcBuffers r1.1 (Examples.now + 60000) Examples.org Examples.wh None in
  updated r2.2 = 1
  ∧ ∀ k, bufferNumbers <$> buffers r2.1 !! k = bufferNumbers <$> buffers r1.1 !! k.
Proof.
  cbv zeta.
  destruct (recalcBuffers_rerun Examples.db Examples.now (Examples.now + 60000)
              Examples.org Examples.wh None) as (Hu & Hn & _).
  - vm_compute. reflexivity.
  - split; [rewrite Hu; vm_compute; reflexivity | exact Hn].
Defined.

(** X2: a recalculation for one organisation and warehouse writes only
    Buffer rows of that organisation and warehouse: the rows of every
    other organisation or warehouse, and all other tables, stay as they
    were. *)
Theorem recalcBuffers_isolation db t o w lookback :
  otherThanBuffers (recalcBuffers db t o w lookback).1 = otherThanBuffers db
  ∧ ∀ o' s w', (o' ≠ o ∨ w' ≠ w) →
      buffers (recalcBuffers db t o w lookback).1 !! (o', s, w') = buffers db !! (o', s, w').
Proof.
  split; [apply recalcBuffers_other_tables |].
  intros o' s w' Hne. apply recalcBuffers_untouched.
  intros r _ [= -> _ ->]. by destruct Hne.
Qed.

Lemma recalcBuffers_isolation_witness :
  buffers (recalcBuffers Examples.db Examples.now Examples.org "WH-LVIV" None).1
    !! (Examples.org, "SKU-001", Examples.wh)
  = buffers Examples.db !! (Examples.org, "SKU-001", Examples.wh).
Proof.
  apply (proj2 (recalcBuffers_isolation Examples.db Examples.now Examples.org "WH-LVIV" None)).
  right. discriminate.
Defined.

Lemma sum_nonneg (l : list Q) : Forall (λ x, (0 <= x)%Q) l → (0 <= Num.sum l)%Q.
Proof.
  induction 1 as [|x l Hx _ IH]; cbn; [lra |].
  unfold Num.sum in IH. lra.
Qed.

Lemma avg_nonneg (l : list Q) : Forall (λ x, (0 <= x)%Q) l → (0 <= Num.orZero (Num.avg l))%Q.
Proof.
  intros Hl. destruct l as [|x l]; [cbn; lra |].
  cbn [Num.avg Num.orZero default].
  apply Qle_shift_div_l.
  - change 0%Q with (inject_Z 0). rewrite <- Zlt_Qlt. cbn [length]. lia.
  - rewrite Qmult_0_l. by apply sum_nonneg.
Qed.

(** X3: when no rollup row of the window for a SKU has negative units,
    the buffer written for it has a non-negative average demand, the
    target buffer_qty = avg_daily_demand × 7 × 1.2, and thresholds ordered
    0 ≤ red ≤ yellow ≤ buffer_qty. *)
Theorem recalcBuffers_nonnegative db t o w lookback s :
  s ∈ sd_sku <$> windowRows o w t db lookback →
  Forall (λ u, (0 <= u)%Q) (unitsOfSku (windowRows o w t db lookback) s) →
  ∃ b, buffers (recalcBuffers db t o w lookback).1 !! (o, s, w) = Some b
    ∧ (0 <= avg_daily_demand b)%Q
    ∧ (buffer_qty b == avg_daily_demand b * (42 # 5))%Q
    ∧ (0 <= red_th b)%Q ∧ (red_th b <= yellow_th b)%Q ∧ (yellow_th b <= buffer_qty b)%Q.
Proof.
  intros Hs Hu. eexists. split; [by apply recalcBuffers_written' |].
  cbn [writtenBuffer avg_daily_demand buffer_qty red_th yellow_th dr_avg_units].
  set (avg := Num.orZero _).
  assert (Havg : (0 <= avg)%Q) by (by apply avg_nonneg).
  unfold DEFAULT_LEAD_TIME_DAYS, BUFFER_FACTOR.
  split; [exact Havg |]. split; [ring |].
  set (q := (avg * 7 * (12 # 10))%Q).
  assert (Hq : (0 <= q)%Q) by (unfold q; nra).
  destruct (third_le_two_thirds q Hq) as [H1 H2].
  split; [| by split]. unfold Qdiv. change (/ 3)%Q with (1 # 3)%Q. lra.
Qed.

Lemma recalcBuffers_nonnegative_witness :
  ∃ b, buffers (recalcBuffers Examples.db Examples.now Examples.org Examples.wh None).1
         !! (Examples.org, "SKU-001", Examples.wh) = Some b
    ∧ (0 <= avg_daily_demand b)%Q
    ∧ (buffer_qty b == avg_daily_demand b * (42 # 5))%Q
    ∧ (0 <= red_th b)%Q ∧ (red_th b <= yellow_th b)%Q ∧ (yellow_th b <= buffer_qty b)%Q.
Proof.
  apply (recalcBuffers_nonnegative Examples.db Examples.now Examples.org Examples.wh None
           "SKU-001").
  - apply (bool_decide_unpack _). vm_compute. reflexivity.
  - vm_compute. repeat constructor; discriminate.
Defined.

End BufferExtras.

(** ** Listing buffers and paging *)

Section ListingExtras.
Import Schema Buffers.

Lemma buffersOrdered_elem tbl o w (row : buffers_key * buffers_val) :
  row ∈ buffersOrdered tbl o w
  ↔ tbl !! row.1 = Some row.2 ∧ row.1.1.1 = o ∧ row.1.2 = w.
Proof.
  unfold buffersOrdered. rewrite merge_sort_Permutation, list_elem_of_filter.
  destruct row as [k b]. rewrite elem_of_map_to_list. unfold buffersWhere. cbn. tauto.
Qed.

Lemma buffersOrdered_key tbl o w (row : buffers_key * buffers_val) :
  row ∈ buffersOrdered tbl o w → row.1 = (o, sku (mapBuffer row), w).
Proof.
  intros (_ & Ho & Hw)%buffersOrdered_elem.
  destruct row as [[[o' s] w'] b]. cbn in *. by subst.
Qed.

Lemma buffersOrdered_NoDup_keys tbl o w : NoDup (buffersOrdered tbl o w).*1.
Proof.
  unfold buffersOrdered. rewrite merge_sort_Permutation.
  apply NoDup_fmap_fst.
  - intros k b1 b2 [_ H1]%list_elem_of_filter [_ H2]%list_elem_of_filter.
    apply elem_of_map_to_list in H1, H2. congruence.
  - apply NoDup_filter, NoDup_map_to_list.
Qed.

Lemma listBuffers_skus_keys tbl o w :
  (λ s, (o, s, w)) <$> (sku <$> listBuffers tbl o w) = (buffersOrdered tbl o w).*1.
Proof.
  unfold listBuffers. rewrite <- !list_fmap_compose.
  apply list_fmap_ext. intros i row Hrow%list_elem_of_lookup_2.
  symmetry. by apply (buffersOrdered_key tbl).
Qed.

Lemma listBuffers_NoDup tbl o w : NoDup (sku <$> listBuffers tbl o w).
Proof.
  apply (NoDup_fmap_1 (λ s, (o, s, w))).
  rewrite listBuffers_skus_keys. apply buffersOrdered_NoDup_keys.
Qed.

Lemma listBuffersPage_slice tbl o w skip take_ :
  (0 ≤ take_)%Z →
  (listBuffersPage tbl o w skip take_).1
  = take (Z.to_nat take_) (drop (Z.to_nat skip) (listBuffers tbl o w)).
Proof.
  intros Htake. unfold listBuffersPage, listBuffers, paginate. cbn [fst].
  rewrite (proj2 (Z.ltb_ge take_ 0) Htake). by rewrite fmap_take, fmap_drop.
Qed.

Lemma listBuffersPage_from_end tbl o w take_ :
  (take_ < 0)%Z →
  (listBuffersPage tbl o w 0 take_).1
  = reverse (take (Z.to_nat (- take_)) (reverse (listBuffers tbl o w))).
Proof.
  intros Htake. unfold listBuffersPage, listBuffers, paginate. cbn [fst].
  rewrite (proj2 (Z.ltb_lt take_ 0) Htake). change (Z.to_nat 0) with 0%nat.
  by rewrite drop_0, fmap_reverse, fmap_take, fmap_reverse.
Qed.

End ListingExtras.

(** ** Rounding *)

Section RoundingExtras.

Lemma pow10_pos (p : nat) : (0 < inject_Z (Num.pow10 p))%Q.
Proof.
  change 0%Q with (inject_Z 0). rewrite <- Zlt_Qlt. unfold Num.pow10.
  apply Z.pow_pos_nonneg; lia.
Qed.

Lemma round_inject_Z (n : Z) : Num.round (inject_Z n) = n.
Proof.
  unfold Num.round.
  assert (Hlo : (n ≤ Qfloor (inject_Z n + (1 # 2)))%Z).
  { rewrite <- (Qfloor_Z n) at 1. apply Qfloor_resp_le. lra. }
  assert (Hhi : (Qfloor (inject_Z n + (1 # 2)) < n + 1)%Z).
  { rewrite Zlt_Qlt. eapply Qle_lt_trans; [apply Qfloor_le |].
    rewrite inject_Z_plus. change (inject_Z 1) with 1%Q. lra. }
  lia.
Qed.

Lemma round_mono (x y : Q) : (x <= y)%Q → (Num.round x ≤ Num.round y)%Z.
Proof. intros H. unfold Num.round. apply Qfloor_resp_le. lra. Qed.

Lemma roundNumber_mono (x y : Q) (p : nat) :
  (x <= y)%Q → (Num.roundNumber x p <= Num.roundNumber y p)%Q.
Proof.
  intros Hxy. pose proof (pow10_pos p) as Hf. unfold Num.roundNumber. cbv zeta.
  apply Qmult_le_compat_r; [| apply Qlt_le_weak, Qinv_lt_0_compat, Hf].
  rewrite <- Zle_Qle. apply round_mono.
  apply Qmult_le_compat_r; [done | lra].
Qed.

Lemma roundNumber_nonneg (x : Q) (p : nat) : (0 <= x)%Q → (0 <= Num.roundNumber x p)%Q.
Proof.
  intros Hx. apply (Qle_trans _ (Num.roundNumber 0 p)); [| by apply roundNumber_mono].
  pose proof (pow10_pos p) as Hf. unfold Num.roundNumber. cbv zeta.
  assert (Hr : Num.round (0 * inject_Z (Num.pow10 p)) = 0%Z).
  { etrans; [| apply (round_inject_Z 0)]. unfold Num.round. apply Qfloor_comp.
    change (inject_Z 0) with 0%Q. lra. }
  rewrite Hr. change (inject_Z 0) with 0%Q. unfold Qdiv. lra.
Qed.

End RoundingExtras.

(** ** The recommendation page *)

Section PageExtras.
Import Schema Recommendations Views.

Lemma getRecommendations_total db t input :
  total (getRecommendations db t input).2
  = length (Buffers.listBuffers (buffers (getRecommendations db t input).1)
              (orgId input) (warehouseId input)).
Proof.
  rewrite getRecommendations_db. unfold getRecommendations.
  set (db1 := if default true (autoRecalc input) then _ else db).
  destruct (Buffers.listBuffersPage (buffers db1) _ _ _ _) as [bs n] eqn:E.
  assert (Hn : n = length (Buffers.listBuffers (buffers db1) (orgId input)
                             (warehouseId input))).
  { apply (f_equal snd) in E. cbn in E. subst n.
    unfold Buffers.listBuffers. by rewrite length_fmap. }
  destruct bs as [|b bs]; [done |]. by destruct (resolveStock _ _ _ _ _ _).
Qed.

Lemma getRecommendations_skus db t input :
  sku <$> data (getRecommendations db t input).2
  = Buffers.sku <$> pageOf (getRecommendations db t input).1 input.
Proof.
  rewrite getRecommendations_data. cbv zeta. rewrite <- list_fmap_compose.
  by apply list_fmap_ext.
Qed.

(** X5: for a page size that is not negative, the page that
    getRecommendations returns has one row per buffer of the requested
    slice of the listing of the warehouse's buffers: the SKUs of the rows
    are those of pageSize consecutive entries of listBuffers after the
    (page - 1) × pageSize first ones, so no SKU twice and at most pageSize
    rows; total counts all buffers of the warehouse whatever the page; a
    page that starts beyond the last buffer is empty and carries no
    effective date.  For a negative page size and a page number of at
    least 1 the rows are the last |pageSize| entries of the listing. *)
Theorem getRecommendations_page_shape db t input :
  let db1 := (getRecommendations db t input).1 in
  let p := (getRecommendations db t input).2 in
  let all := Buffers.listBuffers (buffers db1) (orgId input) (warehouseId input) in
  let size := default 100%Z (pageSize input) in
  let skip := Z.max 0 ((default 1%Z (page input) - 1) * size) in
  ((0 ≤ size)%Z →
   total p = length all
   ∧ sku <$> data p = Buffers.sku <$> take (Z.to_nat size) (drop (Z.to_nat skip) all)
   ∧ length (data p) ≤ Z.to_nat size
   ∧ NoDup (sku <$> data p)
   ∧ (length all ≤ Z.to_nat skip → data p = [] ∧ effectiveDate p = None))
  ∧ ((size < 0)%Z → (1 ≤ default 1%Z (page input))%Z →
     sku <$> data p
     = Buffers.sku <$> reverse (take (Z.to_nat (- size)) (reverse all))).
Proof.
  cbv zeta.
  set (db1 := (getRecommendations db t input).1).
  set (all := Buffers.listBuffers (buffers db1) (orgId input) (warehouseId input)).
  set (size := default 100%Z (pageSize input)).
  set (skip := Z.max 0 ((default 1%Z (page input) - 1) * size)).
  split.
  2: { intros Hsize Hpage. rewrite getRecommendations_skus. fold db1. f_equal.
       unfold pageOf. fold size.
       replace (Z.max 0 ((default 1%Z (page input) - 1) * size)) with 0%Z by nia.
       by apply listBuffersPage_from_end. }
  intros Hsize.
  assert (Hpage : pageOf db1 input = take (Z.to_nat size) (drop (Z.to_nat skip) all))
    by by apply listBuffersPage_slice.
  assert (Hskus : sku <$> data (getRecommendations db t input).2
                  = take (Z.to_nat size) (drop (Z.to_nat skip) (Buffers.sku <$> all))).
  { rewrite getRecommendations_skus. fold db1. by rewrite Hpage, fmap_take, fmap_drop. }
  split; [apply getRecommendations_total |].
  split; [by rewrite Hskus, fmap_take, fmap_drop |].
  split.
  { rewrite <- (length_fmap sku), Hskus, length_take. lia. }
  split.
  { rewrite Hskus. eapply sublist_NoDup; [apply listBuffers_NoDup |].
    etrans; [apply sublist_take | apply sublist_drop]. }
  intros Hlen.
  assert (Hnil : pageOf db1 input = []).
  { rewrite Hpage, drop_ge; [by rewrite take_nil | done]. }
  split.
  - rewrite getRecommendations_data. cbv zeta. fold db1. by rewrite Hnil.
  - rewrite getRecommendations_effectiveDate. cbv zeta. fold db1. by rewrite Hnil.
Qed.

Lemma getRecommendations_page_shape_witness :
  (total (getRecommendations Examples.db Examples.now
            {| orgId := Examples.org; warehouseId := Examples.wh;
               date := Examples.day 20030; autoRecalc := Some false;
               page := Some 1%Z; pageSize := Some 1%Z |}).2 = 2
   ∧ sku <$> data (getRecommendations Examples.db Examples.now
                     {| orgId := Examples.org; warehouseId := Examples.wh;
                        date := Examples.day 20030; autoRecalc := Some false;
                        page := Some 1%Z; pageSize := Some 1%Z |}).2 = ["SKU-001"])
  ∧ sku <$> data (getRecommendations Examples.db Examples.now
                    {| orgId := Examples.org; warehouseId := Examples.wh;
                       date := Examples.day 20030; autoRecalc := Some false;
                       page := Some 2%Z; pageSize := Some 1%Z |}).2 = ["SKU-002"]
  ∧ data (getRecommendations Examples.db Examples.now
            {| orgId := Examples.org; warehouseId := Examples.wh;
               date := Examples.day 20030; autoRecalc := Some false;
               page := Some 3%Z; pageSize := Some 1%Z |}).2 = []
  ∧ sku <$> data (getRecommendations Examples.db Examples.now
                    {| orgId := Examples.org; warehouseId := Examples.wh;
                       date := Examples.day 20030; autoRecalc := Some false;
                       page := None; pageSize := Some (-1)%Z |}).2 = ["SKU-002"].
Proof.
  split; [| split; [| split]].
  4: { destruct (getRecommendations_page_shape Examples.db Examples.now
                   {| orgId := Examples.org; warehouseId := Examples.wh;
                      date := Examples.day 20030; autoRecalc := Some false;
                      page := None; pageSize := Some (-1)%Z |}) as [_ Hneg].
       rewrite Hneg; [done | by vm_compute | by vm_compute]. }
  - destruct (getRecommendations_page_shape Examples.db Examples.now
                {| orgId := Examples.org; warehouseId := Examples.wh;
                   date := Examples.day 20030; autoRecalc := Some false;
                   page := Some 1%Z; pageSize := Some 1%Z |})
      as [Hpos _]. destruct Hpos as (Htotal & Hskus & _); [by vm_compute |].
    split; [by rewrite Htotal | by rewrite Hskus].
  - destruct (getRecommendations_page_shape Examples.db Examples.now
                {| orgId := Examples.org; warehouseId := Examples.wh;
                   date := Examples.day 20030; autoRecalc := Some false;
                   page := Some 2%Z; pageSize := Some 1%Z |})
      as [Hpos _]. destruct Hpos as (_ & Hskus & _); [by vm_compute |].
    by rewrite Hskus.
  - destruct (getRecommendations_page_shape Examples.db Examples.now
                {| orgId := Examples.org; warehouseId := Examples.wh;
                   date := Examples.day 20030; autoRecalc := Some false;
                   page := Some 3%Z; pageSize := Some 1%Z |})
      as [Hpos _]. destruct Hpos as (_ & _ & _ & _ & Hempty); [by vm_compute |].
    apply Hempty. vm_compute. lia.
Defined.

End PageExtras.

(** ** On-hand quantity and effective date *)

Section StockExtras.
Import Schema Recommendations Views.

Lemma startOfDay_spec (t : Z) :
  (DateFns.startOfDay t mod DateFns.MS_PER_DAY = 0)%Z
  ∧ (DateFns.startOfDay t ≤ t)%Z ∧ (t < DateFns.addDays (DateFns.startOfDay t) 1)%Z.
Proof.
  unfold DateFns.startOfDay, DateFns.addDays, DateFns.MS_PER_DAY.
  pose proof (Z.mod_pos_bound t 86400000 ltac:(lia)).
  pose proof (Z.div_mod t 86400000 ltac:(lia)).
  split; [| lia].
  replace (t - t mod 86400000)%Z with (t `div` 86400000 * 86400000)%Z by lia.
  apply Z.mod_mul. lia.
Qed.

Lemma qtyOfSku_batches snaps o w skus d (s : string) :
  s ∈ skus →
  qtyOfSku (filter (stockWhere o w d (DateFns.addDays d 1) skus) snaps) s
  = batchQuantities snaps o w s d.
Proof.
  intros Hs. unfold qtyOfSku, batchQuantities. f_equal.
  rewrite list_filter_filter. apply list_filter_iff.
  intros r. unfold stockWhere. split.
  - intros (<- & ? & ? & ? & ? & _). done.
  - intros (? & ? & <- & ? & ?). done.
Qed.

Lemma fetchStockRows_nonempty snaps o w skus a b (r : stock_snapshots_row) :
  r ∈ snaps → stockWhere o w a b skus r → fetchStockRows snaps o w skus a b ≠ [].
Proof.
  intros Hr Hw Hnil.
  assert (Hin : ss_sku r ∈ sg_sku <$> fetchStockRows snaps o w skus a b).
  { rewrite fetchStockRows_skus. apply elem_of_remove_dups, list_elem_of_fmap.
    exists r. split; [done |]. by apply list_elem_of_filter. }
  rewrite Hnil in Hin. by apply elem_of_nil in Hin.
Qed.

Lemma fetchStockRows_inhabited snaps o w skus a b :
  fetchStockRows snaps o w skus a b ≠ [] →
  ∃ r, r ∈ snaps ∧ stockWhere o w a b skus r.
Proof.
  intros Hne.
  destruct (fetchStockRows snaps o w skus a b) as [|g gs] eqn:E; [done |].
  assert (Hin : sg_sku g ∈ sg_sku <$> fetchStockRows snaps o w skus a b)
    by (rewrite E; left).
  rewrite fetchStockRows_skus in Hin.
  apply elem_of_remove_dups, list_elem_of_fmap in Hin as (r & _ & Hr).
  apply list_elem_of_filter in Hr as [Hw Hr]. eauto.
Qed.

Lemma row_in_page db t input row :
  row ∈ data (getRecommendations db t input).2 →
  sku row ∈ Buffers.sku <$> pageOf (getRecommendations db t input).1 input.
Proof.
  intros Hrow. rewrite <- getRecommendations_skus. apply list_elem_of_fmap. eauto.
Qed.

(** X6: the on-hand quantity of every recommendation row is the sum of
    the SKU's batch quantities in the warehouse on the effective date
    that the same response carries (rounded to one decimal in the row),
    and 0 when the response has no effective date. *)
Theorem getRecommendations_onHand db t input row :
  row ∈ data (getRecommendations db t input).2 →
  let db1 := (getRecommendations db t input).1 in
  let batchSum :=
    match effectiveDate (getRecommendations db t input).2 with
    | Some d =>
        Num.sum (batchQuantities (stock_snapshots db1) (orgId input) (warehouseId input)
                   (sku row) d)
    | None => 0%Q
    end in
  onHandUsed db1 input (sku row) = batchSum
  ∧ onHand row = Num.roundNumber batchSum 1.
Proof.
  intros Hrow. cbv zeta.
  pose proof (row_in_page db t input row Hrow) as Hpage.
  set (db1 := (getRecommendations db t input).1) in *.
  assert (Hused : onHandUsed db1 input (sku row)
                  = match effectiveDate (getRecommendations db t input).2 with
                    | Some d =>
                        Num.sum (batchQuantities (stock_snapshots db1) (orgId input)
                                   (warehouseId input) (sku row) d)
                    | None => 0%Q
                    end).
  { rewrite getRecommendations_effectiveDate. cbv zeta. fold db1.
    destruct (pageOf db1 input) as [|b bs] eqn:Ep.
    { by apply elem_of_nil in Hpage. }
    rewrite onHandUsed_effective, Ep.
    destruct (stockOf db1 input).2 as [d |]; [| done]. cbv zeta.
    rewrite <- (qtyOfSku_batches _ _ _ (Buffers.sku <$> b :: bs)) by done.
    destruct (decide _) as [_ | Hout]; [done |].
    unfold qtyOfSku.
    destruct (filter (λ s, ss_sku s = sku row) _) as [|r rs] eqn:Ef; [done |].
    exfalso. apply Hout.
    assert (Hr : r ∈ filter (λ s, ss_sku s = sku row)
                   (filter (stockWhere (orgId input) (warehouseId input) d
                              (DateFns.addDays d 1) (Buffers.sku <$> b :: bs))
                           (stock_snapshots db1)))
      by (rewrite Ef; left).
    apply list_elem_of_filter in Hr as [<- Hr]. apply list_elem_of_fmap. eauto. }
  split; [exact Hused |]. rewrite <- Hused.
  destruct (getRecommendations_row db t input row Hrow) as (b & _ & Heq).
  fold db1 in Heq. unfold onHandUsed. rewrite Heq at 1. reflexivity.
Qed.

Lemma getRecommendations_onHand_witness :
  ∃ row, head (data (getRecommendations Examples.db Examples.now
                       (Examples.request (Some false))).2) = Some row
    ∧ effectiveDate (getRecommendations Examples.db Examples.now
                       (Examples.request (Some false))).2 = Some (Examples.day 20028)
    ∧ onHand row
      = Num.roundNumber
          (Num.sum (batchQuantities (stock_snapshots Examples.db) Examples.org Examples.wh
                      (sku row) (Examples.day 20028))) 1.
Proof.
  set (req := Examples.request (Some false)).
  destruct (data (getRecommendations Examples.db Examples.now req).2)
    as [|row rest] eqn:E; [by vm_compute in E |].
  assert (Hin : row ∈ data (getRecommendations Examples.db Examples.now req).2)
    by (rewrite E; left).
  assert (Hd : effectiveDate (getRecommendations Examples.db Examples.now req).2
               = Some (Examples.day 20028)) by (vm_compute; reflexivity).
  destruct (getRecommendations_onHand Examples.db Examples.now req row Hin) as [_ Hoh].
  rewrite Hd in Hoh.
  exists row. split; [done |]. split; [done | exact Hoh].
Defined.

(** X7: when a SKU of the page has a snapshot in the warehouse on the
    requested day, the effective date is the start of that day; whenever
    an effective date is returned it is the start of a day, not later than
    the end of the requested day, on which a SKU of the page has a
    snapshot; and with no snapshot of the warehouse up to the end of the
    requested day there is no effective date. *)
Theorem getRecommendations_effectiveDate_cases db t input :
  let db1 := (getRecommendations db t input).1 in
  let p := (getRecommendations db t input).2 in
  let dayStart := DateFns.startOfDay (date input) in
  let skus := Buffers.sku <$> pageOf db1 input in
  let onDay d r := stockWhere (orgId input) (warehouseId input) d (DateFns.addDays d 1) skus r in
  ((∃ r, r ∈ stock_snapshots db1 ∧ onDay dayStart r) → effectiveDate p = Some dayStart)
  ∧ (∀ d, effectiveDate p = Some d →
       (d mod DateFns.MS_PER_DAY = 0)%Z ∧ (d ≤ DateFns.addDays dayStart 1)%Z
       ∧ ∃ r, r ∈ stock_snapshots db1 ∧ onDay d r)
  ∧ ((∀ r, r ∈ stock_snapshots db1 →
        ¬ fallbackWhere (orgId input) (warehouseId input) (DateFns.addDays dayStart 1) r) →
     effectiveDate p = None).
Proof.
  cbv zeta. rewrite getRecommendations_effectiveDate. cbv zeta.
  set (db1 := (getRecommendations db t input).1).
  set (dayStart := DateFns.startOfDay (date input)).
  unfold stockOf. fold dayStart.
  set (skus := Buffers.sku <$> pageOf db1 input).
  assert (Hskus : pageOf db1 input = [] → skus = []) by (unfold skus; by intros ->).
  unfold resolveStock.
  split; [| split].
  - intros (r & Hr & Hw).
    pose proof (fetchStockRows_nonempty _ _ _ _ _ _ r Hr Hw) as Hne.
    destruct (pageOf db1 input) as [|b bs] eqn:Ep.
    { destruct Hw as (_ & _ & _ & _ & Hin). rewrite (Hskus eq_refl) in Hin.
      by apply elem_of_nil in Hin. }
    by destruct (fetchStockRows _ _ _ _ dayStart _).
  - intros d. destruct (pageOf db1 input) as [|b bs]; [done |].
    destruct (fetchStockRows _ _ _ _ dayStart _) as [|g gs] eqn:E1.
    + destruct (findFallbackDate _ _ _ _) as [fd |] eqn:Ef; [| done].
      destruct (fetchStockRows _ _ _ _ (DateFns.startOfDay fd) _) as [|g gs] eqn:E2;
        [done |].
      cbn. intros [= <-].
      apply latestDate_spec in Ef as [Hfd _].
      apply list_elem_of_fmap in Hfd as (r & -> & Hr).
      apply list_elem_of_filter in Hr as [(_ & _ & Hle) _].
      destruct (startOfDay_spec (ss_date r)) as (Hmod & Hlo & _).
      split; [done |]. split; [lia |].
      apply fetchStockRows_inhabited.
      intros Hnil. discriminate (eq_trans (eq_sym E2) Hnil).
    + cbn. intros [= <-].
      destruct (startOfDay_spec (date input)) as (Hmod & _ & _).
      split; [done |]. split; [unfold DateFns.addDays, DateFns.MS_PER_DAY; lia |].
      apply fetchStockRows_inhabited.
      intros Hnil. discriminate (eq_trans (eq_sym E1) Hnil).
  - intros Hnone. destruct (pageOf db1 input) as [|b bs]; [done |].
    destruct (fetchStockRows _ _ _ _ dayStart _) as [|g gs] eqn:E1.
    + assert (Hf : findFallbackDate (stock_snapshots db1) (orgId input) (warehouseId input)
                     (DateFns.addDays dayStart 1) = None).
      { unfold findFallbackDate. apply latestDate_None.
        destruct (filter _ _) as [|r rs] eqn:Efil; [done |].
        assert (Hr : r ∈ filter (fallbackWhere (orgId input) (warehouseId input)
                                   (DateFns.addDays dayStart 1)) (stock_snapshots db1))
          by (rewrite Efil; left).
        apply list_elem_of_filter in Hr as [Hw Hr]. by destruct (Hnone r Hr). }
      by rewrite Hf.
    + exfalso.
      assert (Hne : fetchStockRows (stock_snapshots db1) (orgId input) (warehouseId input)
                      skus dayStart (DateFns.addDays dayStart 1) ≠ [])
        by (intros Hnil; discriminate (eq_trans (eq_sym E1) Hnil)).
      destruct (fetchStockRows_inhabited _ _ _ _ _ _ Hne) as (r & Hr & Hw).
      apply (Hnone r Hr). destruct Hw as (? & ? & ? & ? & _).
      repeat split; [done | done | lia].
Qed.

Lemma getRecommendations_effectiveDate_cases_witness :
  effectiveDate (getRecommendations Examples.db Examples.now
                   {| orgId := Examples.org; warehouseId := Examples.wh;
                      date := Examples.day 20028 + 3600000; autoRecalc := Some false;
                      page := None; pageSize := None |}).2
  = Some (Examples.day 20028).
Proof.
  apply (proj1 (getRecommendations_effectiveDate_cases Examples.db Examples.now
                  {| orgId := Examples.org; warehouseId := Examples.wh;
                     date := Examples.day 20028 + 3600000; autoRecalc := Some false;
                     page := None; pageSize := None |})).
  exists (Examples.snapshot 20028 "SKU-001" "b1" 5).
  split; [left |]. apply (bool_decide_unpack _). vm_compute. reflexivity.
Defined.

End StockExtras.

(** ** Relations between the fields of a recommendation row *)

Section RowExtras.
Import Schema Recommendations Views.

Lemma resolveZone_red_iff (onHand_ r y : Q) :
  resolveZone onHand_ r y = red ↔ (onHand_ <= r)%Q.
Proof.
  unfold resolveZone. destruct (Qlt_le_dec r onHand_); [| by split].
  destruct (Qlt_le_dec y onHand_); split; (done || lra).
Qed.

Lemma resolveZone_green_iff (onHand_ r y : Q) :
  resolveZone onHand_ r y = green ↔ (r < onHand_)%Q ∧ (y < onHand_)%Q.
Proof.
  unfold resolveZone. destruct (Qlt_le_dec r onHand_).
  - destruct (Qlt_le_dec y onHand_); split; try done; intros [? ?]; lra.
  - split; [done |]. intros [? ?]; lra.
Qed.

(** X8: for the same buffer, more stock on hand never gives a worse zone
    and never a larger suggested quantity. *)
Theorem recommend_more_stock (stockMap1 stockMap2 : gmap string Q) catalogMap
    (buffer : Buffers.BufferView) :
  (default 0%Q (stockMap1 !! Buffers.sku buffer)
   <= default 0%Q (stockMap2 !! Buffers.sku buffer))%Q →
  zoneRank (zone (recommend stockMap1 catalogMap buffer))
  ≤ zoneRank (zone (recommend stockMap2 catalogMap buffer))
  ∧ (suggestedQty (recommend stockMap2 catalogMap buffer)
     ≤ suggestedQty (recommend stockMap1 catalogMap buffer))%Z.
Proof.
  intros Hle. cbn [zone suggestedQty recommend].
  set (oh1 := default 0%Q (stockMap1 !! Buffers.sku buffer)) in *.
  set (oh2 := default 0%Q (stockMap2 !! Buffers.sku buffer)) in *.
  split.
  - unfold resolveZone.
    repeat (destruct (Qlt_le_dec _ _)); cbn; try lia; lra.
  - apply Z.max_le_compat_l. unfold Num.ceil. apply Qceiling_resp_le. lra.
Qed.

Lemma recommend_more_stock_witness :
  let buffer := Buffers.mapBuffer ((Examples.org, "SKU-001", Examples.wh),
                                   Examples.storedBuffer 7 5) in
  (suggestedQty (recommend {["SKU-001" := 30%Q]} ∅ buffer)
   ≤ suggestedQty (recommend {["SKU-001" := 10%Q]} ∅ buffer))%Z.
Proof.
  cbv zeta.
  apply (recommend_more_stock {["SKU-001" := 10%Q]} {["SKU-001" := 30%Q]} ∅).
  by vm_compute.
Defined.

(** X9: for a buffer with the thresholds that recalcBuffers writes
    (red = buffer_qty/3, yellow = 2·buffer_qty/3) and a positive target:
    a red row suggests at least two thirds of the target (so at least one
    unit), a row that suggests nothing is green, and a green row suggests
    less than a third of the target plus one unit. *)
Theorem recommend_zone_and_order (stockMap : gmap string Q) catalogMap
    (buffer : Buffers.BufferView) :
  (0 < Buffers.bufferQty buffer)%Q →
  (Buffers.redThreshold buffer == Buffers.bufferQty buffer / 3)%Q →
  (Buffers.yellowThreshold buffer == Buffers.bufferQty buffer * 2 / 3)%Q →
  let row := recommend stockMap catalogMap buffer in
  (zone row = red →
     (Buffers.bufferQty buffer * 2 / 3 <= inject_Z (suggestedQty row))%Q
     ∧ (1 ≤ suggestedQty row)%Z)
  ∧ (suggestedQty row = 0%Z → zone row = green)
  ∧ (zone row = green →
     (inject_Z (suggestedQty row) < Buffers.bufferQty buffer / 3 + 1)%Q).
Proof.
  intros Hpos Hred Hyellow. cbn [zone suggestedQty recommend].
  set (oh := default 0%Q (stockMap !! Buffers.sku buffer)).
  set (q := Buffers.bufferQty buffer) in *.
  unfold Qdiv in Hred, Hyellow. change (/ 3)%Q with (1 # 3)%Q in Hred, Hyellow.
  unfold Qdiv. change (/ 3)%Q with (1 # 3)%Q.
  pose proof (Qle_ceiling (q - (oh + 0))) as Hceil.
  pose proof (Qceiling_lt (q - (oh + 0))) as Hceil'.
  unfold Z.sub in Hceil'. rewrite inject_Z_plus in Hceil'.
  rewrite inject_Z_opp in Hceil'. change (inject_Z 1) with 1%Q in Hceil'.
  unfold Num.ceil.
  split; [| split].
  - intros Hz%resolveZone_red_iff.
    assert (Hc : (q * 2 * (1 # 3) <= inject_Z (Qceiling (q - (oh + 0))))%Q) by lra.
    assert (H1 : (0 < Qceiling (q - (oh + 0)))%Z).
    { rewrite Zlt_Qlt. change (inject_Z 0) with 0%Q. lra. }
    split; [| lia].
    rewrite Z.max_r by lia. exact Hc.
  - intros Hzero. apply resolveZone_green_iff.
    assert (Hc : (Qceiling (q - (oh + 0)) ≤ 0)%Z) by lia.
    rewrite Zle_Qle in Hc. change (inject_Z 0) with 0%Q in Hc. split; lra.
  - intros [Hr Hy]%resolveZone_green_iff.
    destruct (Z.max_spec 0 (Qceiling (q - (oh + 0)))) as [[_ ->] | [_ ->]].
    + lra.
    + change (inject_Z 0) with 0%Q. lra.
Qed.

Lemma recommend_zone_and_order_witness :
  let buffer := Buffers.mapBuffer ((Examples.org, "SKU-002", Examples.wh),
                                   Examples.storedBuffer 7 5) in
  zone (recommend {["SKU-002" := 50%Q]} ∅ buffer) = green.
Proof.
  cbv zeta.
  apply (recommend_zone_and_order {["SKU-002" := 50%Q]} ∅
           (Buffers.mapBuffer ((Examples.org, "SKU-002", Examples.wh),
                               Examples.storedBuffer 7 5))).
  - by vm_compute.
  - by vm_compute.
  - by vm_compute.
  - vm_compute. reflexivity.
Defined.

(** X10: a row that carries the overstock flag has a days-of-supply value
    of at least 33 days, and the ratio it carries is at least 1.1. *)
Theorem recommend_overstock_days (stockMap : gmap string Q) catalogMap
    (buffer : Buffers.BufferView) (o : Overstock) :
  let row := recommend stockMap catalogMap buffer in
  overstock row = Some o →
  (11 # 10 <= ratio o)%Q
  ∧ ∃ d, daysOfSupply row = Some d ∧ (33 <= d)%Q.
Proof.
  cbn [overstock daysOfSupply recommend]. unfold detectOverstock.
  set (oh := default 0%Q (stockMap !! Buffers.sku buffer)).
  set (avg := Buffers.avgDailyDemand buffer).
  destruct (Qeq_bool avg 0); [done |].
  destruct (Qlt_le_dec 0 avg) as [Havg | _]; [| done].
  destruct (Qlt_le_dec 0 (avg * 30)) as [Hd | _]; [| done].
  destruct (Qlt_le_dec (11 # 10) (oh / (avg * 30))) as [Hr | _]; [| done].
  intros [= <-]. cbn [ratio].
  assert (Hoh : (avg * 30 * (11 # 10) < oh)%Q) by (by apply ratio_above_threshold).
  split.
  - unfold Num.roundNumber. cbv zeta.
    apply Qle_shift_div_l; [by vm_compute |].
    assert (Heq : ((11 # 10) * inject_Z (Num.pow10 2) == inject_Z 110)%Q) by reflexivity.
    rewrite Heq, <- Zle_Qle.
    apply (Z.le_trans _ (Num.round (inject_Z 110))); [by vm_compute |].
    apply round_mono. change (inject_Z (Num.pow10 2)) with 100%Q.
    change (inject_Z 110) with 110%Q. lra.
  - eexists. split; [reflexivity |].
    unfold Num.roundNumber. cbv zeta.
    apply Qle_shift_div_l; [by vm_compute |].
    assert (Heq : (33 * inject_Z (Num.pow10 1) == inject_Z 330)%Q) by reflexivity.
    rewrite Heq, <- Zle_Qle.
    apply (Z.le_trans _ (Num.round (inject_Z 330))); [by vm_compute |].
    apply round_mono. change (inject_Z (Num.pow10 1)) with 10%Q.
    assert (Hx : (33 < oh / avg)%Q).
    { apply Qlt_shift_div_l; [done |]. lra. }
    change (inject_Z 330) with 330%Q. lra.
Qed.

Lemma recommend_overstock_days_witness :
  let buffer := Buffers.mapBuffer ((Examples.org, "SKU-002", Examples.wh),
                                   Examples.storedBuffer 7 10) in
  ∃ o d, overstock (recommend {["SKU-002" := 400%Q]} ∅ buffer) = Some o
    ∧ daysOfSupply (recommend {["SKU-002" := 400%Q]} ∅ buffer) = Some d
    ∧ (33 <= d)%Q.
Proof.
  cbv zeta.
  set (buffer := Buffers.mapBuffer ((Examples.org, "SKU-002", Examples.wh),
                                    Examples.storedBuffer 7 10)).
  assert (∃ o, overstock (recommend {["SKU-002" := 400%Q]} ∅ buffer) = Some o)
    as [o Ho] by (eexists; vm_compute; reflexivity).
  destruct (recommend_overstock_days {["SKU-002" := 400%Q]} ∅ buffer o Ho)
    as (_ & d & Hd & Hle).
  by exists o, d.
Defined.

End RowExtras.

(** ** The sales_daily builder: what a run stores *)

Section SalesDailyExtras.
Import Schema SalesDaily Views.

Lemma NoDup_fmap_elem_inj {A B : Type} (f : A → B) (l : list A) (x y : A) :
  NoDup (f <$> l) → x ∈ l → y ∈ l → f x = f y → x = y.
Proof.
  induction l as [|a l IH]; intros Hnd Hx Hy Hf; [by apply elem_of_nil in Hx |].
  rewrite fmap_cons in Hnd. apply NoDup_cons in Hnd as [Ha Hnd].
  apply elem_of_cons in Hx as [-> | Hx]; apply elem_of_cons in Hy as [-> | Hy].
  - done.
  - exfalso. apply Ha. rewrite Hf. apply list_elem_of_fmap. eauto.
  - exfalso. apply Ha. rewrite <- Hf. apply list_elem_of_fmap. eauto.
  - by apply IH.
Qed.

Lemma proposed_rows db t opts :
  selectRows (sales_events db) (orgId opts)
    (DateFns.dateStart (fromDateOf t opts)) (DateFns.dateEnd (toDateOf t opts))
  = (λ g, (outputKey g, aggregate (filter (λ e, groupKeyOf e = g) (selectedEvents db t opts))))
      <$> remove_dups (groupKeyOf <$> selectedEvents db t opts).
Proof. reflexivity. Qed.

Lemma proposed_keys db t opts :
  (selectRows (sales_events db) (orgId opts)
     (DateFns.dateStart (fromDateOf t opts)) (DateFns.dateEnd (toDateOf t opts))).*1
  = outputKey <$> remove_dups (groupKeyOf <$> selectedEvents db t opts).
Proof.
  rewrite proposed_rows, <- list_fmap_compose. by apply list_fmap_ext.
Qed.

Lemma rebuild_success db t opts db1 range :
  rebuildSalesDaily db t opts = inr (db1, range) →
  NoDup (outputKey <$> remove_dups (groupKeyOf <$> selectedEvents db t opts))
  ∧ db1 = set_sales_daily db
            (foldl (upsertRollup t) (sales_daily db)
               (selectRows (sales_events db) (orgId opts)
                  (DateFns.dateStart (fromDateOf t opts))
                  (DateFns.dateEnd (toDateOf t opts))))
  ∧ range = {| range_from := fromDateOf t opts; range_to := toDateOf t opts |}.
Proof.
  unfold rebuildSalesDaily. destruct (decide _) as [Hnd | _]; [| done].
  intros [= <- <-]. by rewrite <- proposed_keys.
Qed.

(** X11: after a successful run, the rollup of every key that some selected
    event falls under holds the sum of the quantities, the sum of the
    non-null net amounts and the number of distinct orders of all selected
    events of that key (warehouse and channel defaulting to 'GLOBAL' and
    'ALL'), stamped with the time of the run; a key with no selected event
    keeps whatever it held. *)
Theorem rebuildSalesDaily_content db t opts db1 range (k : sales_daily_key) :
  rebuildSalesDaily db t opts = inr (db1, range) →
  let events := filter (λ e, rollupKeyOf e = k) (selectedEvents db t opts) in
  match events with
  | [] => sales_daily db1 !! k = sales_daily db !! k
  | _ :: _ =>
      sales_daily db1 !! k
      = Some {| sd_units := Num.sum (se_qty <$> events);
                sd_revenue := Num.sum (omap se_net_amount events);
                sd_orders := Z.of_nat (length (remove_dups (se_order_id <$> events)));
                sd_updated_at := t |}
  end.
Proof.
  intros (Hnd & -> & _)%rebuild_success. cbv zeta. cbn [sales_daily set_sales_daily].
  set (rows := selectedEvents db t opts) in *.
  destruct (filter (λ e, rollupKeyOf e = k) rows) as [|e0 es] eqn:E.
  - apply (foldl_upsert_lookup_other fst (storedRollup t) (upsertRollup t)
             (upsertRollup_insert t)).
    intros [k' ex] Hp Hk. cbn in Hk. subst k'.
    rewrite proposed_rows in Hp. fold rows in Hp.
    apply list_elem_of_fmap in Hp as (g & [= Hkg _] & Hg).
    apply elem_of_remove_dups, list_elem_of_fmap in Hg as (e & -> & He).
    assert (Hin : e ∈ filter (λ e, rollupKeyOf e = k) rows)
      by (by apply list_elem_of_filter).
    rewrite E in Hin. by apply elem_of_nil in Hin.
  - assert (He0 : e0 ∈ filter (λ e, rollupKeyOf e = k) rows) by (rewrite E; left).
    apply list_elem_of_filter in He0 as [Hk0 He0].
    set (g := groupKeyOf e0).
    assert (Hg : g ∈ remove_dups (groupKeyOf <$> rows)).
    { apply elem_of_remove_dups, list_elem_of_fmap. eauto. }
    assert (Hsame : filter (λ e, groupKeyOf e = g) rows
                    = filter (λ e, rollupKeyOf e = k) rows).
    { apply filter_ext_elem. intros e He. split.
      - intros Hge. unfold rollupKeyOf. by rewrite Hge.
      - intros Hke. apply (NoDup_fmap_elem_inj outputKey _ _ _ Hnd); [| done |].
        + apply elem_of_remove_dups, list_elem_of_fmap. eauto.
        + unfold rollupKeyOf in Hke, Hk0. by rewrite Hke. }
    set (p := (outputKey g, aggregate (filter (λ e, groupKeyOf e = g) rows))).
    assert (Hp : p ∈ selectRows (sales_events db) (orgId opts)
                       (DateFns.dateStart (fromDateOf t opts))
                       (DateFns.dateEnd (toDateOf t opts))).
    { rewrite proposed_rows. fold rows. apply list_elem_of_fmap. by exists g. }
    pose proof (foldl_upsert_lookup_written fst (storedRollup t) (upsertRollup t)
                  (upsertRollup_insert t) _ (sales_daily db) p
                  ltac:(by rewrite proposed_keys) Hp) as Hlk.
    unfold rollupKeyOf in Hk0. fold g in Hk0. cbn [fst p] in Hlk. rewrite Hk0 in Hlk.
    rewrite Hlk. unfold storedRollup, p, aggregate. cbn [snd ex_units ex_revenue ex_orders].
    by rewrite Hsame, E.
Qed.

Lemma rebuildSalesDaily_content_witness :
  let opts := {| orgId := Examples.org; from := Some 20000%Z; to := Some 20010%Z |} in
  ∃ db1 range v,
    rebuildSalesDaily Examples.dbEvents Examples.now opts = inr (db1, range)
    ∧ sales_daily db1 !! (Examples.org, Examples.day 20005, "SKU-001", Examples.wh, "ALL")
      = Some v
    ∧ (sd_units v == 5)%Q ∧ (sd_revenue v == 200)%Q ∧ sd_orders v = 1%Z.
Proof.
  cbv zeta.
  set (opts := {| orgId := Examples.org; from := Some 20000%Z; to := Some 20010%Z |}).
  assert (∃ db1 range, rebuildSalesDaily Examples.dbEvents Examples.now opts
                       = inr (db1, range)) as (db1 & range & E).
  { unfold rebuildSalesDaily. rewrite decide_True; [by eexists _, _ |].
    apply (bool_decide_unpack _). vm_compute. reflexivity. }
  pose proof (rebuildSalesDaily_content Examples.dbEvents Examples.now opts db1 range
                (Examples.org, Examples.day 20005, "SKU-001", Examples.wh, "ALL") E) as H.
  cbv zeta in H.
  destruct (filter _ (selectedEvents Examples.dbEvents Examples.now opts))
    as [|e es] eqn:Ef; [by vm_compute in Ef |].
  eexists db1, range, _. split; [exact E |]. split; [exact H |].
  cbn [sd_units sd_revenue sd_orders].
  vm_compute in Ef. injection Ef as <- <-. by vm_compute.
Defined.

End SalesDailyExtras.

Section SalesDailyErrorExtras.
Import Schema SalesDaily Views.

Lemma rebuild_fails_iff db t opts :
  (∃ e, rebuildSalesDaily db t opts = inl e)
  ↔ ¬ NoDup (outputKey <$> remove_dups (groupKeyOf <$> selectedEvents db t opts)).
Proof.
  unfold rebuildSalesDaily. rewrite proposed_keys.
  destruct (decide _) as [Hnd | Hdup]; split; try done.
  - by intros [e ?].
  - eauto.
Qed.

Lemma selectRows_key_org events org lo hi (k : sales_daily_key) (ex : excluded) :
  (k, ex) ∈ selectRows events org lo hi → k.1.1.1.1 = org.
Proof.
  unfold selectRows. intros (g & Hk & Hg)%list_elem_of_fmap.
  apply elem_of_remove_dups, list_elem_of_fmap in Hg as (e & -> & He).
  apply list_elem_of_filter in He as [(Horg & _) _].
  injection Hk as -> _. done.
Qed.

Lemma outputKey_clash (g1 g2 : group_key) :
  outputKey g1 = outputKey g2 → g1 ≠ g2 →
  (g1.1.2 = None ∧ g2.1.2 = Some WAREHOUSE_FALLBACK)
  ∨ (g1.1.2 = Some WAREHOUSE_FALLBACK ∧ g2.1.2 = None)
  ∨ (g1.2 = None ∧ g2.2 = Some CHANNEL_FALLBACK)
  ∨ (g1.2 = Some CHANNEL_FALLBACK ∧ g2.2 = None).
Proof.
  destruct g1 as [[[[o1 d1] s1] w1] c1], g2 as [[[[o2 d2] s2] w2] c2]. cbn.
  intros [= -> -> -> Hw Hc] Hne.
  destruct w1 as [w1 |], w2 as [w2 |]; cbn in Hw; subst; eauto;
    destruct c1 as [c1 |], c2 as [c2 |]; cbn in Hc; subst; eauto 6.
  all: by destruct Hne.
Qed.

(** X12: a run is rejected exactly when two selected events fall under the
    same rollup key although their stored warehouse or channel differ,
    which can only be a missing value next to the explicit fallback
    ('GLOBAL' warehouse or 'ALL' channel); so a run over events none of
    which names 'GLOBAL' or 'ALL' explicitly always succeeds. *)
Theorem rebuildSalesDaily_rejected db t opts :
  ((∃ e, rebuildSalesDaily db t opts = inl e)
   ↔ ∃ e1 e2, e1 ∈ selectedEvents db t opts ∧ e2 ∈ selectedEvents db t opts
              ∧ rollupKeyOf e1 = rollupKeyOf e2 ∧ groupKeyOf e1 ≠ groupKeyOf e2)
  ∧ ((∃ e, rebuildSalesDaily db t opts = inl e) →
     ∃ e1 e2, e1 ∈ selectedEvents db t opts ∧ e2 ∈ selectedEvents db t opts
       ∧ ((se_warehouse_id e1 = None ∧ se_warehouse_id e2 = Some WAREHOUSE_FALLBACK)
          ∨ (se_channel e1 = None ∧ se_channel e2 = Some CHANNEL_FALLBACK)))
  ∧ ((∀ e, e ∈ selectedEvents db t opts →
        se_warehouse_id e ≠ Some WAREHOUSE_FALLBACK ∧ se_channel e ≠ Some CHANNEL_FALLBACK) →
     ∃ db1 range, rebuildSalesDaily db t opts = inr (db1, range)).
Proof.
  set (rows := selectedEvents db t opts).
  assert (Hiff : (∃ e, rebuildSalesDaily db t opts = inl e)
                 ↔ ∃ e1 e2, e1 ∈ rows ∧ e2 ∈ rows
                            ∧ rollupKeyOf e1 = rollupKeyOf e2
                            ∧ groupKeyOf e1 ≠ groupKeyOf e2).
  { rewrite rebuild_fails_iff. fold rows. split.
    - intros Hdup.
      set (groups := remove_dups (groupKeyOf <$> rows)) in *.
      destruct (decide (Exists (λ g1, Exists (λ g2, outputKey g1 = outputKey g2 ∧ g1 ≠ g2)
                                        groups) groups)) as [Hyes | Hno].
      + apply Exists_exists in Hyes as (g1 & Hg1 & Hyes).
        apply Exists_exists in Hyes as (g2 & Hg2 & Hk & Hne).
        apply elem_of_remove_dups, list_elem_of_fmap in Hg1 as (e1 & -> & He1).
        apply elem_of_remove_dups, list_elem_of_fmap in Hg2 as (e2 & -> & He2).
        by exists e1, e2.
      + exfalso. apply Hdup. apply NoDup_fmap_2_strong; [| apply NoDup_remove_dups].
        intros g1 g2 Hg1 Hg2 Hk. destruct (decide (g1 = g2)) as [| Hne]; [done |].
        exfalso. apply Hno. apply Exists_exists. exists g1. split; [done |].
        apply Exists_exists. by exists g2.
    - intros (e1 & e2 & He1 & He2 & Hk & Hne) Hnd. apply Hne.
      apply (NoDup_fmap_elem_inj outputKey _ _ _ Hnd); [| | done];
        apply elem_of_remove_dups, list_elem_of_fmap; eauto. }
  split; [exact Hiff |]. split.
  - intros (e1 & e2 & He1 & He2 & Hk & Hne)%Hiff.
    destruct (outputKey_clash _ _ Hk Hne) as [[H1 H2] | [[H1 H2] | [[H1 H2] | [H1 H2]]]];
      cbn in H1, H2.
    + exists e1, e2. eauto.
    + exists e2, e1. eauto.
    + exists e1, e2. eauto.
    + exists e2, e1. eauto.
  - intros Hexplicit.
    destruct (rebuildSalesDaily db t opts) as [e | [db1 range]] eqn:E; [| eauto].
    exfalso.
    destruct (proj1 Hiff (ex_intro _ e eq_refl)) as (e1 & e2 & He1 & He2 & Hk & Hne).
    destruct (Hexplicit e1 He1) as [Hw1 Hc1]. destruct (Hexplicit e2 He2) as [Hw2 Hc2].
    destruct (outputKey_clash _ _ Hk Hne) as [[H1 H2] | [[H1 H2] | [[H1 H2] | [H1 H2]]]];
      cbn in H1, H2; congruence.
Qed.

Lemma rebuildSalesDaily_rejected_witness :
  let opts := {| orgId := Examples.org; from := Some 20000%Z; to := Some 20010%Z |} in
  (∃ db1 range, rebuildSalesDaily Examples.dbEvents Examples.now opts = inr (db1, range))
  ∧ (∃ e, rebuildSalesDaily MoreExamples.dbClash Examples.now opts = inl e).
Proof.
  cbv zeta.
  set (opts := {| orgId := Examples.org; from := Some 20000%Z; to := Some 20010%Z |}).
  split.
  - apply (proj2 (proj2 (rebuildSalesDaily_rejected Examples.dbEvents Examples.now opts))).
    apply Forall_forall. apply (bool_decide_unpack _). vm_compute. reflexivity.
  - apply (proj1 (rebuildSalesDaily_rejected MoreExamples.dbClash Examples.now opts)).
    exists (Examples.event "O-7" "1" (Examples.day 20003 + 10) 1 None None None),
           (Examples.event "O-8" "1" (Examples.day 20003 + 20) 2 None (Some "GLOBAL") None).
    split; [| split; [| split; [reflexivity | discriminate]]].
    + apply list_elem_of_filter. split; [| left].
      apply (bool_decide_unpack _). vm_compute. reflexivity.
    + apply list_elem_of_filter. split; [| right; left].
      apply (bool_decide_unpack _). vm_compute. reflexivity.
Defined.

(** X13: a successful run never removes a rollup and writes only rollups
    of its own organisation: every key present before is present after,
    rows of other organisations and all other tables are unchanged, and a
    run that selects no event leaves the database as it was. *)
Theorem rebuildSalesDaily_keeps db t opts db1 range :
  rebuildSalesDaily db t opts = inr (db1, range) →
  otherThanSalesDaily db1 = otherThanSalesDaily db
  ∧ (∀ k, is_Some (sales_daily db !! k) → is_Some (sales_daily db1 !! k))
  ∧ (∀ org d sku wh ch, org ≠ orgId opts →
       sales_daily db1 !! (org, d, sku, wh, ch) = sales_daily db !! (org, d, sku, wh, ch))
  ∧ (selectedEvents db t opts = [] → sales_daily db1 = sales_daily db).
Proof.
  intros (Hnd & -> & _)%rebuild_success. cbn [sales_daily set_sales_daily].
  split; [done |]. split; [| split].
  - intros k Hk.
    destruct (foldl_upsert_lookup_cases fst (storedRollup t) (upsertRollup t)
                (upsertRollup_insert t) _ (sales_daily db) k
                ltac:(by rewrite proposed_keys))
      as [(p & _ & _ & Hlk) | [_ Hlk]].
    + eexists. exact Hlk.
    + destruct Hk as [v Hv]. exists v. etrans; [exact Hlk | exact Hv].
  - intros org d sku wh ch Horg.
    apply (foldl_upsert_lookup_other fst (storedRollup t) (upsertRollup t)
             (upsertRollup_insert t)).
    intros [k ex] Hp Hk. cbn in Hk. subst k.
    apply selectRows_key_org in Hp. cbn in Hp. congruence.
  - intros Hnil. rewrite proposed_rows, Hnil. done.
Qed.

Lemma rebuildSalesDaily_keeps_witness :
  let opts := {| orgId := Examples.org; from := Some 20000%Z; to := Some 20010%Z |} in
  ∃ db1 range,
    rebuildSalesDaily Examples.dbEvents Examples.now opts = inr (db1, range)
    ∧ is_Some (sales_daily db1
                 !! (Examples.org, Examples.day 20010, "SKU-001", Examples.wh, "ALL")).
Proof.
  cbv zeta.
  set (opts := {| orgId := Examples.org; from := Some 20000%Z; to := Some 20010%Z |}).
  assert (∃ db1 range, rebuildSalesDaily Examples.dbEvents Examples.now opts
                       = inr (db1, range)) as (db1 & range & E).
  { unfold rebuildSalesDaily. rewrite decide_True; [by eexists _, _ |].
    apply (bool_decide_unpack _). vm_compute. reflexivity. }
  exists db1, range. split; [exact E |].
  apply (proj1 (proj2 (rebuildSalesDaily_keeps Examples.dbEvents Examples.now opts
                         db1 range E))).
  eexists. vm_compute. reflexivity.
Defined.

End SalesDailyErrorExtras.

(** ** The KPI service: edge cases, on-hand and expiry risk *)

Section KpiExtras.
Import Schema Kpi.

Lemma truthy_zero (x : Q) : (x == 0)%Q → truthy (Some x) = false.
Proof. intros H. cbn. by rewrite (proj2 (Qeq_bool_iff x 0) H). Qed.

(** X14: without any stock snapshot of the SKU in the warehouse the KPI
    reports on_hand 0, turns 0, no median days-to-sell and no expiry risk,
    whatever the sales; without any rollup row in the window it reports
    demand 0, no days-of-supply, turns 0, no median and no expiry risk,
    whatever the stock. *)
Theorem getSkuKpi_empty_inputs db t input :
  let m := metrics (getSkuKpi db t input) in
  (stockOf db input = [] →
     on_hand m = 0%Q ∧ turns m = 0%Q ∧ median_days_to_sell m = None ∧ fefo_risk m = false)
  ∧ (salesUnits db t input = [] →
     avg_daily_demand m = 0%Q ∧ dos m = None ∧ (turns m == 0)%Q
     ∧ median_days_to_sell m = None ∧ fefo_risk m = false).
Proof.
  cbv zeta. split.
  - intros Hnil. unfold getSkuKpi, onHandOf, latestStockDate. rewrite Hnil.
    cbn [fmap list_fmap DateFns.latestDate foldr].
    cbn [metrics on_hand turns median_days_to_sell fefo_risk].
    set (avg := Num.orZero (Num.avg _)).
    destruct (Z_lt_le_dec 0 (windowDaysOf t input)); destruct (Qlt_le_dec 0 0) as [H0 | _];
      try lra; repeat split; try done.
    all: destruct (Qlt_le_dec 0 avg); [| done].
    all: rewrite truthy_zero; [done |]. all: field; lra.
  - intros Hnil. unfold getSkuKpi. rewrite Hnil.
    destruct (onHandOf db input) as [onHand minExpiry].
    cbn [metrics avg_daily_demand dos turns median_days_to_sell fefo_risk
         Num.avg Num.orZero sumOrNull default].
    destruct (Qlt_le_dec 0 0) as [H0 | _]; [lra |].
    set (daily := if Z_lt_le_dec 0 (windowDaysOf t input) then _ else _).
    assert (Hdaily : (daily == 0)%Q).
    { unfold daily. destruct (Z_lt_le_dec 0 _) as [Hw |]; [| reflexivity].
      unfold Qdiv. ring. }
    set (tr := if Qlt_le_dec 0 onHand then _ else _).
    assert (Hturns : (tr == 0)%Q).
    { unfold tr. destruct (Qlt_le_dec 0 onHand); [| reflexivity].
      rewrite Hdaily. unfold Qdiv. ring. }
    repeat split; try done.
    + destruct (Qlt_le_dec 0 tr) as [Hpos | _]; [| done]. rewrite Hturns in Hpos. lra.
    + by destruct minExpiry.
Qed.

Lemma getSkuKpi_empty_inputs_witness :
  let input := {| orgId := Examples.org; sku := "SKU-404"; warehouseId := None;
                  from := None; to := None |} in
  median_days_to_sell (metrics (getSkuKpi Examples.db Examples.now input)) = None
  ∧ dos (metrics (getSkuKpi Examples.db Examples.now input)) = None.
Proof.
  cbv zeta.
  set (input := {| orgId := Examples.org; sku := "SKU-404"; warehouseId := None;
                   from := None; to := None |}).
  destruct (getSkuKpi_empty_inputs Examples.db Examples.now input) as [Hstock Hsales].
  split.
  - apply Hstock. vm_compute. reflexivity.
  - apply Hsales. vm_compute. reflexivity.
Defined.

(** X15: the on-hand quantity of the KPI is the sum over the snapshots of
    the SKU in the warehouse that carry the latest snapshot timestamp;
    no snapshot of the SKU in the warehouse is dated later. *)
Theorem getSkuKpi_on_hand_latest db t input (d : Z) :
  latestStockDate db input = Some d →
  (∃ r, r ∈ stockOf db input ∧ ss_date r = d)
  ∧ (∀ r, r ∈ stockOf db input → (ss_date r ≤ d)%Z)
  ∧ on_hand (metrics (getSkuKpi db t input))
    = Num.sum (ss_qty_on_hand <$> filter (λ r, ss_date r = d) (stockOf db input)).
Proof.
  intros Hd. pose proof Hd as [Hin Hmax]%latestDate_spec.
  apply list_elem_of_fmap in Hin as (r0 & Hr0 & Hin).
  split; [by exists r0 |]. split.
  - intros r Hr. apply Hmax, list_elem_of_fmap. eauto.
  - unfold getSkuKpi, onHandOf. rewrite Hd.
    cbn [metrics on_hand]. apply total_units_sum.
Qed.

Lemma getSkuKpi_on_hand_latest_witness :
  let input := {| orgId := Examples.org; sku := "SKU-001";
                  warehouseId := Some Examples.wh; from := None; to := None |} in
  on_hand (metrics (getSkuKpi Examples.dbNextDay Examples.now input))
  = Num.sum (ss_qty_on_hand
               <$> filter (λ r, ss_date r = Examples.day 20031)
                     (stockOf Examples.dbNextDay input)).
Proof.
  cbv zeta.
  apply (getSkuKpi_on_hand_latest Examples.dbNextDay Examples.now
           {| orgId := Examples.org; sku := "SKU-001";
              warehouseId := Some Examples.wh; from := None; to := None |}
           (Examples.day 20031)).
  vm_compute. reflexivity.
Defined.

Lemma minExpiry_earliest (rows : list stock_snapshots_row) (e : Z) :
  minOrNull (omap ss_expiry_date rows) = Some e ↔ SpecWords.earliestExpiry rows e.
Proof.
  rewrite minOrNull_Some. unfold SpecWords.earliestExpiry.
  rewrite list_elem_of_omap. split.
  - intros [Hin Hmin]. split; [exact Hin |]. intros r e' Hr He'.
    apply Hmin, list_elem_of_omap. by exists r.
  - intros [Hin Hmin]. split; [exact Hin |]. intros x (r & Hr & Hx)%list_elem_of_omap.
    by apply (Hmin r).
Qed.

(** X16: the KPI raises the expiry (FEFO) risk exactly when some batch of
    the latest snapshot of the SKU in the warehouse has an expiry date,
    the average daily demand is positive, the on-hand quantity is not
    zero, and the earliest expiry date among the batches of that latest
    snapshot is fewer calendar days away than the days-of-supply rounded
    up.  Batches of older snapshots play no part. *)
Theorem getSkuKpi_fefo_risk db t input :
  let m := metrics (getSkuKpi db t input) in
  let stock :=
    SpecWords.latestSnapshots (stock_snapshots db) (orgId input) (sku input)
      (default "GLOBAL" (warehouseId input)) in
  fefo_risk m = true
  ↔ ∃ e, SpecWords.earliestExpiry stock e
         ∧ (0 < avg_daily_demand m)%Q
         ∧ ¬ (on_hand m == 0)%Q
         ∧ (DateFns.isoDate e - DateFns.isoDate t
            < Qceiling (on_hand m / avg_daily_demand m))%Z.
Proof.
  cbv zeta. unfold getSkuKpi. rewrite onHandOf_latest.
  set (stock := SpecWords.latestSnapshots _ _ _ _).
  cbn [metrics fefo_risk on_hand avg_daily_demand].
  set (onHand := Num.sum _).
  set (avg := Num.orZero (Num.avg _)).
  destruct (minOrNull (omap ss_expiry_date stock)) as [e |] eqn:Emin.
  2: { split; [done |]. intros (e & He & _). apply minExpiry_earliest in He. congruence. }
  assert (Hsame : ∀ e', SpecWords.earliestExpiry stock e' → e' = e).
  { intros e' He'. apply minExpiry_earliest in He'. congruence. }
  apply minExpiry_earliest in Emin.
  destruct (Qlt_le_dec 0 avg) as [Havg | Havg].
  2: { split; [done |]. intros (e' & _ & Hpos & _). lra. }
  cbn [truthy]. destruct (Qeq_bool (onHand / avg) 0) eqn:Hz; cbn [negb].
  - apply Qeq_bool_iff in Hz. split; [done |].
    intros (e' & _ & _ & Hne & _). exfalso. apply Hne.
    assert (Hmul : (onHand == onHand / avg * avg)%Q) by (field; lra).
    rewrite Hmul, Hz. ring.
  - apply Qeq_bool_neq in Hz. rewrite bool_decide_eq_true.
    unfold Num.ceil, DateFns.differenceInCalendarDays. split.
    + intros Hlt. exists e. repeat split; try done; try apply Emin.
      intros Hoh. apply Hz. rewrite Hoh. unfold Qdiv. ring.
    + intros (e' & He' & _ & _ & Hlt). by rewrite (Hsame e' He') in Hlt.
Qed.

Lemma getSkuKpi_fefo_risk_witness :
  fefo_risk (metrics (getSkuKpi MoreExamples.dbExpiry Examples.now
                        {| orgId := Examples.org; sku := "SKU-001";
                           warehouseId := Some Examples.wh;
                           from := None; to := None |})) = true.
Proof.
  apply (getSkuKpi_fefo_risk MoreExamples.dbExpiry Examples.now
           {| orgId := Examples.org; sku := "SKU-001"; warehouseId := Some Examples.wh;
              from := None; to := None |}).
  exists (Examples.day 20032).
  split; [| split; [by vm_compute | split; [| by vm_compute]]].
  - assert (Hstock :
      SpecWords.latestSnapshots (stock_snapshots MoreExamples.dbExpiry) Examples.org
        "SKU-001" (default "GLOBAL" (Some Examples.wh))
      = [MoreExamples.batch 20028 "b1" 500 20032; MoreExamples.batch 20028 "b2" 300 20100])
      by (vm_compute; reflexivity).
    cbn [orgId sku warehouseId]. rewrite Hstock. split.
    + exists (MoreExamples.batch 20028 "b1" 500 20032). split; [left | reflexivity].
    + intros r e' Hr He'.
      apply elem_of_cons in Hr as [-> | Hr];
        [| apply elem_of_cons in Hr as [-> | Hr]; [| by apply elem_of_nil in Hr]];
        injection He' as <-; by vm_compute.
  - intros H. vm_compute in H. discriminate H.
Defined.

End KpiExtras.

(** ** The rebalancing tool: the matching loop *)

Section RebalanceLoopExtras.
Import Schema Tools Views.

Lemma mathMax_spec (a b : Q) :
  (a <= mathMax a b)%Q ∧ (b <= mathMax a b)%Q ∧ (mathMax a b = a ∨ mathMax a b = b).
Proof.
  unfold mathMax. destruct (Qlt_le_dec a b); repeat split; auto; lra.
Qed.

Lemma mathMin_spec (a b : Q) :
  (mathMin a b <= a)%Q ∧ (mathMin a b <= b)%Q ∧ (mathMin a b = a ∨ mathMin a b = b).
Proof.
  unfold mathMin. destruct (Qlt_le_dec b a); repeat split; auto; lra.
Qed.

Lemma clampNumber_bounds (value lo hi : Q) :
  (lo <= hi)%Q → (lo <= clampNumber value lo hi)%Q ∧ (clampNumber value lo hi <= hi)%Q.
Proof.
  intros Hle. unfold clampNumber, mathMin, mathMax.
  destruct (Qlt_le_dec value lo); destruct (Qlt_le_dec hi _); split; lra.
Qed.

Lemma moveBetween_weaken (S S' D D' : list Analysis) (m : Move) :
  (∀ d', d' ∈ S' → ∃ d, d ∈ S ∧ warehouse_id d = warehouse_id d'
      ∧ warehouse_name d = warehouse_name d' ∧ (surplus d' <= surplus d)%Q) →
  (∀ r', r' ∈ D' → ∃ r, r ∈ D ∧ warehouse_id r = warehouse_id r'
      ∧ warehouse_name r = warehouse_name r' ∧ (deficit r' <= deficit r)%Q) →
  moveBetween S' D' m → moveBetween S D m.
Proof.
  intros HS HD (d' & r' & Hd & Hr & Hf & Ht & H0 & Hqs & Hqd).
  destruct (HS d' Hd) as (d & Hd1 & Hd2 & Hd3 & Hd4).
  destruct (HD r' Hr) as (r & Hr1 & Hr2 & Hr3 & Hr4).
  exists d, r. repeat split; try done.
  - by rewrite Hd2, Hd3.
  - by rewrite Hr2, Hr3.
  - eapply Qle_trans; [exact Hqs |]. by apply roundNumber_mono.
  - eapply Qle_trans; [exact Hqd |]. by apply roundNumber_mono.
Qed.

Lemma matchMoves_nil_l fuel maxMoves moves D :
  matchMoves fuel maxMoves moves [] D = Some moves.
Proof. by destruct fuel. Qed.

Lemma matchMoves_nil_r fuel maxMoves moves S :
  matchMoves fuel maxMoves moves S [] = Some moves.
Proof. by destruct fuel, S. Qed.

Lemma step_lengths (donor receiver : Analysis) (donors receivers : list Analysis) :
  let qty_ := mathMin (surplus donor) (deficit receiver) in
  let donor' := withSurplus donor (surplus donor - qty_) in
  let receiver' := withDeficit receiver (deficit receiver - qty_) in
  (length (if Qlt_le_dec (1 # 100) (surplus donor') then donor' :: donors else donors)
   + length (if Qlt_le_dec (1 # 100) (deficit receiver')
             then receiver' :: receivers else receivers)
   ≤ S (length donors + length receivers))%nat.
Proof.
  cbv zeta.
  destruct (mathMin_spec (surplus donor) (deficit receiver)) as (_ & _ & Hq).
  set (qty_ := mathMin (surplus donor) (deficit receiver)) in *.
  assert (Hq' : (qty_ == surplus donor)%Q ∨ (qty_ == deficit receiver)%Q).
  { destruct Hq as [-> | ->]; [by left | by right]. }
  clearbody qty_. clear Hq.
  destruct (Qlt_le_dec (1 # 100) (surplus _)) as [Hs | Hs];
    destruct (Qlt_le_dec (1 # 100) (deficit _)) as [Hd | Hd]; cbn [length]; try lia.
  exfalso. cbn in Hs, Hd. destruct Hq'; lra.
Qed.

Lemma matchMoves_spec (fuel : nat) (maxMoves : Q) :
  ∀ (moves : list Move) (S D : list Analysis),
  (length S + length D ≤ fuel)%nat →
  ∃ ms, matchMoves fuel maxMoves moves S D = Some (moves ++ ms)
    ∧ (ms = [] ∨ (length ms < length S + length D)%nat)
    ∧ (ms ≠ [] → (inject_Z (Z.of_nat (length (moves ++ ms))) < maxMoves + 1)%Q)
    ∧ Forall (moveBetween S D) ms.
Proof.
  induction fuel as [|fuel IH]; intros moves S D Hfuel.
  - destruct S as [|donor donors]; [| destruct D as [|receiver receivers]];
      [| | cbn in Hfuel; lia];
      (exists []; rewrite app_nil_r; repeat split; [by destruct D | by left | done | done])
      || (exists []; rewrite app_nil_r; repeat split; [by left | done | done]).
  - destruct S as [|donor donors].
    { exists []. rewrite app_nil_r. repeat split; [by left | done | done]. }
    destruct D as [|receiver receivers].
    { exists []. rewrite app_nil_r. repeat split; [by left | done | done]. }
    cbn [matchMoves].
    destruct (Qlt_le_dec (inject_Z (Z.of_nat (length moves))) maxMoves) as [Hlen | Hlen];
      [| exists []; rewrite app_nil_r; repeat split; [by left | done | done]].
    pose proof (step_lengths donor receiver donors receivers) as Hdrop.
    cbv zeta in Hdrop |- *.
    destruct (mathMin_spec (surplus donor) (deficit receiver)) as (Hq1 & Hq2 & _).
    set (qty_ := mathMin (surplus donor) (deficit receiver)) in *.
    clearbody qty_.
    destruct (Qlt_le_dec 0 qty_) as [Hpos | Hpos];
      [| exists []; rewrite app_nil_r; repeat split; [by left | done | done]].
    set (S' := if Qlt_le_dec (1 # 100) (surplus (withSurplus donor (surplus donor - qty_)))
               then withSurplus donor (surplus donor - qty_) :: donors else donors) in *.
    set (D' := if Qlt_le_dec (1 # 100) (deficit (withDeficit receiver (deficit receiver - qty_)))
               then withDeficit receiver (deficit receiver - qty_) :: receivers
               else receivers) in *.
    assert (HS : ∀ d', d' ∈ S' → ∃ d, d ∈ donor :: donors
               ∧ warehouse_id d = warehouse_id d'
               ∧ warehouse_name d = warehouse_name d' ∧ (surplus d' <= surplus d)%Q).
    { intros d' Hd'. unfold S' in Hd'.
      destruct (Qlt_le_dec (1 # 100) (surplus _)) in Hd'.
      - apply elem_of_cons in Hd' as [-> | Hd'].
        + exists donor. repeat split; [by left | cbn; lra].
        + exists d'. repeat split; [by right | lra].
      - exists d'. repeat split; [by right | lra]. }
    assert (HD : ∀ r', r' ∈ D' → ∃ r, r ∈ receiver :: receivers
               ∧ warehouse_id r = warehouse_id r'
               ∧ warehouse_name r = warehouse_name r' ∧ (deficit r' <= deficit r)%Q).
    { intros r' Hr'. unfold D' in Hr'.
      destruct (Qlt_le_dec (1 # 100) (deficit _)) in Hr'.
      - apply elem_of_cons in Hr' as [-> | Hr'].
        + exists receiver. repeat split; [by left | cbn; lra].
        + exists r'. repeat split; [by right | lra].
      - exists r'. repeat split; [by right | lra]. }
    destruct (IH (moves ++ [moveOf donor receiver qty_]) S' D') as (ms & Hms & Hcount & Hmax & Hall).
    { cbn in Hfuel. lia. }
    exists (moveOf donor receiver qty_ :: ms). split; [| split; [| split]].
    + etrans; [exact Hms |]. by rewrite <- app_assoc.
    + right. cbn [length]. destruct Hcount as [-> | Hcount]; cbn [length]; lia.
    + intros _. destruct ms as [|m0 ms0].
      * rewrite length_app. cbn [length]. rewrite Nat2Z.inj_add, inject_Z_plus.
        change (inject_Z (Z.of_nat 1)) with 1%Q. lra.
      * specialize (Hmax ltac:(done)). by rewrite <- app_assoc in Hmax.
    + constructor.
      * exists donor, receiver. repeat split; [by left | by left | ..].
        -- apply roundNumber_nonneg. lra.
        -- cbn. by apply roundNumber_mono.
        -- cbn. by apply roundNumber_mono.
      * eapply Forall_impl; [exact Hall |]. intros m. by apply moveBetween_weaken.
Qed.

Lemma matchMoves_first (fuel : nat) (maxMoves : Q) (d r : Analysis)
    (S0 D0 : list Analysis) :
  (length (d :: S0) + length (r :: D0) ≤ fuel)%nat →
  (0 < maxMoves)%Q → (0 < surplus d)%Q → (0 < deficit r)%Q →
  ∃ ms, matchMoves fuel maxMoves [] (d :: S0) (r :: D0)
        = Some (moveOf d r (mathMin (surplus d) (deficit r)) :: ms).
Proof.
  intros Hfuel Hmax Hs Hd. destruct fuel as [|fuel]; [cbn in Hfuel; lia |].
  cbn [matchMoves length].
  destruct (Qlt_le_dec (inject_Z (Z.of_nat 0)) maxMoves) as [_ | Hle];
    [| exfalso; change (inject_Z (Z.of_nat 0)) with 0%Q in Hle; lra].
  pose proof (step_lengths d r S0 D0) as Hdrop. cbv zeta in Hdrop |- *.
  destruct (Qlt_le_dec 0 (mathMin (surplus d) (deficit r))) as [_ | Hle].
  - match goal with
    | |- ∃ ms, matchMoves fuel maxMoves ?mv ?S' ?D' = _ =>
        destruct (matchMoves_spec fuel maxMoves mv S' D') as (ms & Hms & _)
    end.
    { cbn in Hfuel. lia. }
    exists ms. exact Hms.
  - exfalso. unfold mathMin in Hle. destruct (Qlt_le_dec (deficit r) (surplus d)); lra.
Qed.

End RebalanceLoopExtras.

(** ** The rebalancing tool: the stock distribution *)

Section DistributionExtras.
Import Schema Tools Views.

Lemma queryRange_ids snaps org sku whs d :
  sgr_warehouse_id <$> queryRange snaps org sku whs d
  = remove_dups (ss_warehouse_id <$> filter (rangeWhere org sku whs d) snaps).
Proof.
  unfold queryRange. cbv zeta. rewrite <- list_fmap_compose.
  induction (remove_dups _) as [|w l IH]; [done |]. cbn. by f_equal.
Qed.

Lemma queryRange_nil_iff snaps org sku whs d :
  queryRange snaps org sku whs d = [] ↔ ∀ r, r ∈ snaps → ¬ rangeWhere org sku whs d r.
Proof.
  split.
  - intros Hnil r Hr Hw.
    assert (Hin : ss_warehouse_id r ∈ sgr_warehouse_id <$> queryRange snaps org sku whs d).
    { rewrite queryRange_ids. apply elem_of_remove_dups, list_elem_of_fmap.
      exists r. split; [done |]. by apply list_elem_of_filter. }
    rewrite Hnil in Hin. by apply elem_of_nil in Hin.
  - intros Hno. unfold queryRange. cbv zeta.
    assert (Hf : filter (rangeWhere org sku whs d) snaps = []).
    { by apply filter_none. }
    by rewrite Hf.
Qed.

Lemma loadStockDistribution_None snaps org sku req whs :
  loadStockDistribution snaps org sku req whs = None
  ↔ ∀ r, r ∈ snaps → ¬ baseWhere org sku whs r.
Proof.
  set (viaLatest :=
    match DateFns.latestDate (ss_date <$> filter (baseWhere org sku whs) snaps) with
    | None => None
    | Some latest =>
        match queryRange snaps org sku whs (DateFns.startOfDay latest) with
        | [] => None
        | latestRows => Some (DateFns.startOfDay latest, latestRows)
        end
    end).
  assert (Hvia : viaLatest = None ↔ ∀ r, r ∈ snaps → ¬ baseWhere org sku whs r).
  { unfold viaLatest.
    destruct (DateFns.latestDate _) as [latest |] eqn:E.
    - destruct (latestDate_spec _ _ E) as [Hin _].
      apply list_elem_of_fmap in Hin as (r & -> & Hr).
      apply list_elem_of_filter in Hr as [Hw Hr].
      destruct (startOfDay_spec (ss_date r)) as (_ & Hlo & Hhi).
      destruct (queryRange _ _ _ _ _) as [|g gs] eqn:Eq.
      + exfalso. apply (proj1 (queryRange_nil_iff _ _ _ _ _) Eq r Hr). by split.
      + split; [done |]. intros Hno. by destruct (Hno r Hr).
    - split; [| done]. intros _ r Hr Hw.
      apply latestDate_None in E.
      assert (Hin : ss_date r ∈ ss_date <$> filter (baseWhere org sku whs) snaps).
      { apply list_elem_of_fmap. exists r. split; [done |]. by apply list_elem_of_filter. }
      rewrite E in Hin. by apply elem_of_nil in Hin. }
  unfold loadStockDistribution. cbv zeta. fold viaLatest.
  destruct req as [r0 |]; [| exact Hvia].
  destruct (queryRange snaps org sku whs (DateFns.startOfDay r0)) as [|g gs] eqn:Eq;
    [exact Hvia |].
  split; [done |]. intros Hno. exfalso.
  assert (Hne : queryRange snaps org sku whs (DateFns.startOfDay r0) ≠ []) by by rewrite Eq.
  apply Hne, queryRange_nil_iff. intros r Hr [Hw _]. by apply (Hno r Hr).
Qed.

Lemma loadStockDistribution_Some snaps org sku req whs eff rows :
  loadStockDistribution snaps org sku req whs = Some (eff, rows) →
  rows = queryRange snaps org sku whs eff ∧ rows ≠ []
  ∧ ((∃ r0, req = Some r0 ∧ eff = DateFns.startOfDay r0)
     ∨ ((∀ r0, req = Some r0 → queryRange snaps org sku whs (DateFns.startOfDay r0) = [])
        ∧ ∃ r, r ∈ snaps ∧ baseWhere org sku whs r ∧ eff = DateFns.startOfDay (ss_date r)
            ∧ ∀ r', r' ∈ snaps → baseWhere org sku whs r' → (ss_date r' ≤ ss_date r)%Z)).
Proof.
  set (viaLatest :=
    match DateFns.latestDate (ss_date <$> filter (baseWhere org sku whs) snaps) with
    | None => None
    | Some latest =>
        match queryRange snaps org sku whs (DateFns.startOfDay latest) with
        | [] => None
        | latestRows => Some (DateFns.startOfDay latest, latestRows)
        end
    end).
  assert (Hvia : viaLatest = Some (eff, rows) →
    rows = queryRange snaps org sku whs eff ∧ rows ≠ []
    ∧ ∃ r, r ∈ snaps ∧ baseWhere org sku whs r ∧ eff = DateFns.startOfDay (ss_date r)
        ∧ ∀ r', r' ∈ snaps → baseWhere org sku whs r' → (ss_date r' ≤ ss_date r)%Z).
  { unfold viaLatest. destruct (DateFns.latestDate _) as [latest |] eqn:E; [| done].
    destruct (latestDate_spec _ _ E) as [Hin Hmax].
    apply list_elem_of_fmap in Hin as (r & -> & Hr).
    apply list_elem_of_filter in Hr as [Hw Hr].
    destruct (queryRange snaps org sku whs (DateFns.startOfDay (ss_date r)))
      as [|g gs] eqn:Eq; [done |].
    intros [= <- <-]. rewrite Eq. split; [done |]. split; [done |].
    exists r. split; [done |]. split; [done |]. split; [done |].
    intros r' Hr' Hw'. apply Hmax, list_elem_of_fmap. exists r'. split; [done |].
    by apply list_elem_of_filter. }
  unfold loadStockDistribution. cbv zeta. fold viaLatest.
  destruct req as [r0 |].
  - destruct (queryRange snaps org sku whs (DateFns.startOfDay r0)) as [|g gs] eqn:Eq.
    + intros H. destruct (Hvia H) as (H1 & H2 & H3). split; [done |]. split; [done |].
      right. split; [by intros ? [= <-] | done].
    + intros [= <- <-]. split; [done |]. split; [done |]. left. by exists r0.
  - intros H. destruct (Hvia H) as (H1 & H2 & H3). split; [done |]. split; [done |].
    right. by split.
Qed.

Lemma queryRange_NoDup snaps org sku whs d :
  NoDup (sgr_warehouse_id <$> queryRange snaps org sku whs d).
Proof. rewrite queryRange_ids. apply NoDup_remove_dups. Qed.

Lemma stockAt_queryRange snaps org sku whs d (w : string) :
  whs = [] ∨ w ∈ whs →
  stockAt (queryRange snaps org sku whs d) w = Num.sum (batchQuantities snaps org w sku d).
Proof.
  intros Hw. unfold stockAt, stockMapOf.
  set (entries := (λ row, (sgr_warehouse_id row, Num.orZero (sgr_sum_qty_on_hand row)))
                    <$> queryRange snaps org sku whs d).
  assert (Hkeys : entries.*1 = sgr_warehouse_id <$> queryRange snaps org sku whs d).
  { unfold entries. by rewrite <- list_fmap_compose. }
  assert (Hbatch : filter (λ r, ss_warehouse_id r = w)
                     (filter (rangeWhere org sku whs d) snaps)
                   = filter (λ r, ss_org_id r = org ∧ ss_warehouse_id r = w ∧ ss_sku r = sku
                                  ∧ (d ≤ ss_date r)%Z
                                  ∧ (ss_date r < DateFns.addDays d 1)%Z) snaps).
  { rewrite list_filter_filter. apply list_filter_iff. intros r.
    unfold rangeWhere, baseWhere. split.
    - intros (-> & (? & ? & ?) & ? & ?). done.
    - intros (? & <- & ? & ? & ?). split; [done |]. split; [| done].
      split; [done |]. split; [done |]. destruct Hw as [-> | Hw]; [by left | by right]. }
  destruct (decide (w ∈ ss_warehouse_id <$> filter (rangeWhere org sku whs d) snaps))
    as [Hin | Hnin].
  - assert (He : (w, Num.sum (ss_qty_on_hand
                     <$> filter (λ r, ss_warehouse_id r = w)
                           (filter (rangeWhere org sku whs d) snaps))) ∈ entries).
    { unfold entries, queryRange. cbv zeta. rewrite <- list_fmap_compose.
      apply list_elem_of_fmap. exists w. split; [done |]. by apply elem_of_remove_dups. }
    assert (Hnd : NoDup entries.*1) by (rewrite Hkeys; apply queryRange_NoDup).
    pose proof (newMap_lookup entries _ Hnd He) as Hlk. cbn [fst snd] in Hlk.
    etrans; [exact (f_equal (default 0%Q) Hlk) |].
    cbn. unfold batchQuantities. by rewrite Hbatch.
  - rewrite newMap_lookup_None.
    + cbn. unfold batchQuantities. rewrite <- Hbatch.
      assert (Hf : filter (λ r, ss_warehouse_id r = w)
                     (filter (rangeWhere org sku whs d) snaps) = []).
      { apply filter_none. intros r Hr Heq. apply Hnin.
        apply list_elem_of_fmap. by exists r. }
      by rewrite Hf.
    + rewrite Hkeys, queryRange_ids. by rewrite elem_of_remove_dups.
Qed.

End DistributionExtras.

(** ** The rebalancing tool: the suggested moves *)

Section RebalanceExtras.
Import Schema Tools Views.

Lemma insertDesc_perm key x l : insertDesc key x l ≡ₚ x :: l.
Proof.
  induction l as [|y l IH]; [done |]. cbn.
  destruct (Qlt_le_dec (key x) (key y)); [| done].
  rewrite IH. apply Permutation_swap.
Qed.

Lemma sortDesc_perm key l : sortDesc key l ≡ₚ l.
Proof.
  induction l as [|x l IH]; [done |]. cbn. rewrite insertDesc_perm. by rewrite IH.
Qed.

Lemma sortDesc_head key l x t :
  sortDesc key l = x :: t → ∀ y, y ∈ l → (key y <= key x)%Q.
Proof.
  revert x t. induction l as [|a l IH]; intros x t Hs y Hy.
  { by apply elem_of_nil in Hy. }
  change (insertDesc key a (sortDesc key l) = x :: t) in Hs.
  destruct (sortDesc key l) as [|x0 t0] eqn:E.
  - assert (Hl : l = []).
    { apply Permutation_nil_r. by rewrite <- E, sortDesc_perm. }
    subst l. injection Hs as <- <-.
    apply elem_of_cons in Hy as [-> | Hy]; [lra | by apply elem_of_nil in Hy].
  - cbn in Hs. destruct (Qlt_le_dec (key a) (key x0)) as [Hlt | Hle].
    + injection Hs as <- <-.
      apply elem_of_cons in Hy as [-> | Hy]; [lra | by apply (IH x0 t0)].
    + injection Hs as <- <-.
      apply elem_of_cons in Hy as [-> | Hy]; [lra |].
      pose proof (IH x0 t0 eq_refl y Hy). lra.
Qed.

Lemma bufferRowsOf_elem db org sku (b : buffers_key * buffers_val) :
  b ∈ bufferRowsOf db org sku
  ↔ buffers db !! b.1 = Some b.2 ∧ b.1.1.1 = org ∧ b.1.1.2 = sku.
Proof.
  unfold bufferRowsOf. rewrite list_elem_of_filter.
  destruct b as [k v]. rewrite elem_of_map_to_list. cbn. tauto.
Qed.

Lemma bufferRowsOf_NoDup db org sku :
  NoDup ((λ row : buffers_key * buffers_val, row.1.2) <$> bufferRowsOf db org sku).
Proof.
  apply NoDup_fmap_2_strong.
  - intros [[[o1 s1] w1] v1] [[[o2 s2] w2] v2] H1 H2 Hw.
    apply bufferRowsOf_elem in H1 as (L1 & <- & <-).
    apply bufferRowsOf_elem in H2 as (L2 & E1 & E2).
    cbn in *. subst. congruence.
  - unfold bufferRowsOf. apply NoDup_filter, NoDup_map_to_list.
Qed.

Lemma analyse_exclusive sm nm b :
  (0 < surplus (analyse sm nm b))%Q → (0 < deficit (analyse sm nm b))%Q → False.
Proof.
  cbn. unfold mathMax.
  destruct (Qlt_le_dec 0 (default 0%Q (sm !! b.1.2) - buffer_qty b.2));
    destruct (Qlt_le_dec 0 (buffer_qty b.2 - default 0%Q (sm !! b.1.2))); lra.
Qed.

Lemma disjoint_filters_length {A : Type} (P R : A → Prop)
    `{!∀ x, Decision (P x)} `{!∀ x, Decision (R x)} (l : list A) :
  (∀ x, x ∈ l → P x → R x → False) →
  (length (filter P l) + length (filter R l) ≤ length l)%nat.
Proof.
  induction l as [|a l IH]; intros Hex; [done |].
  rewrite !filter_cons.
  assert (IH' := IH (λ x Hx, Hex x (list_elem_of_further _ _ _ Hx))).
  pose proof (Hex a ltac:(left)) as Ha.
  destruct (decide (P a)); destruct (decide (R a)); cbn; try lia. by destruct Ha.
Qed.

Lemma suggestRebalance_Plan pd wt db org args plan :
  suggestRebalance pd wt db org args = Plan plan →
  let bufferRows := bufferRowsOf db org (arg_sku args) in
  let ids := (λ row : buffers_key * buffers_val, row.1.2) <$> bufferRows in
  ∃ dist,
    loadStockDistribution (stock_snapshots db) org (arg_sku args)
      (safeParseDate pd (arg_date args)) ids = Some dist
    ∧ bufferRows ≠ []
    ∧ let analysis := analyse (stockMapOf dist.2) (nameMapOf wt ids) <$> bufferRows in
      warehouses plan = lineOf <$> analysis
      ∧ effective_date plan = DateFns.isoDate dist.1
      ∧ matchMoves (length (surplusListOf analysis) + length (deficitListOf analysis))
          (clampNumber (default 5%Q (arg_max_moves args)) 1 20) []
          (surplusListOf analysis) (deficitListOf analysis)
        = Some (suggestions plan).
Proof.
  unfold suggestRebalance. cbv zeta.
  destruct (bufferRowsOf db org (arg_sku args)) as [|b0 bs] eqn:Eb; [done |].
  destruct (loadStockDistribution _ _ _ _ _) as [dist |] eqn:El; [| done].
  intros [= <-]. exists dist. split; [done |]. split; [done |]. cbn [warehouses effective_date suggestions].
  split; [done |]. split; [done |].
  set (S := surplusListOf _). set (D := deficitListOf _).
  destruct (matchMoves_spec (length S + length D)
              (clampNumber (default 5%Q (arg_max_moves args)) 1 20) [] S D (le_n _))
    as (ms & Hms & _).
  by rewrite Hms.
Qed.

Lemma surplusListOf_elem analysis a :
  a ∈ surplusListOf analysis ↔ (0 < surplus a)%Q ∧ a ∈ analysis.
Proof. unfold surplusListOf. by rewrite sortDesc_perm, list_elem_of_filter. Qed.

Lemma deficitListOf_elem analysis a :
  a ∈ deficitListOf analysis ↔ (0 < deficit a)%Q ∧ a ∈ analysis.
Proof. unfold deficitListOf. by rewrite sortDesc_perm, list_elem_of_filter. Qed.

Lemma lists_length sm nm (bufferRows : list (buffers_key * buffers_val)) :
  let analysis := analyse sm nm <$> bufferRows in
  (length (surplusListOf analysis) + length (deficitListOf analysis)
   ≤ length bufferRows)%nat.
Proof.
  cbv zeta. unfold surplusListOf, deficitListOf. rewrite !sortDesc_perm.
  etrans; [apply disjoint_filters_length |]; [| by rewrite length_fmap].
  intros a Ha Hs Hd. apply list_elem_of_fmap in Ha as (b & -> & _).
  by apply (analyse_exclusive sm nm b).
Qed.

Lemma roundNumber_zero (p : nat) : (Num.roundNumber 0 p == 0)%Q.
Proof.
  apply Qle_antisym; [| by apply roundNumber_nonneg].
  pose proof (pow10_pos p) as Hf. unfold Num.roundNumber. cbv zeta.
  assert (Hr : Num.round (0 * inject_Z (Num.pow10 p)) = 0%Z).
  { etrans; [| apply (round_inject_Z 0)]. unfold Num.round. apply Qfloor_comp.
    change (inject_Z 0) with 0%Q. lra. }
  rewrite Hr. change (inject_Z 0) with 0%Q. unfold Qdiv. lra.
Qed.

Lemma startOfDay_dateStart (t : Z) :
  DateFns.dateStart (DateFns.isoDate (DateFns.startOfDay t)) = DateFns.startOfDay t.
Proof.
  unfold DateFns.dateStart, DateFns.isoDate, DateFns.startOfDay, DateFns.MS_PER_DAY.
  pose proof (Z.div_mod t 86400000 ltac:(lia)) as Hdm.
  replace (t - t mod 86400000)%Z with (t / 86400000 * 86400000)%Z by lia.
  rewrite Z.div_mul; lia.
Qed.

Lemma distribution_stock snaps org sku req ids dist (w : string) :
  loadStockDistribution snaps org sku req ids = Some dist → w ∈ ids →
  DateFns.dateStart (DateFns.isoDate dist.1) = dist.1
  ∧ stockAt dist.2 w = Num.sum (batchQuantities snaps org w sku dist.1).
Proof.
  destruct dist as [eff rows]. intros Hload Hw.
  destruct (loadStockDistribution_Some _ _ _ _ _ _ _ Hload) as (-> & _ & Heff).
  split.
  - destruct Heff as [(r0 & _ & ->) | (_ & r & _ & _ & -> & _)];
      apply startOfDay_dateStart.
  - apply stockAt_queryRange. by right.
Qed.

Lemma plan_onHand pd wt db org args plan (b : buffers_key * buffers_val) :
  suggestRebalance pd wt db org args = Plan plan →
  b ∈ bufferRowsOf db org (arg_sku args) →
  ∃ sm nm,
    warehouses plan = lineOf <$> (analyse sm nm <$> bufferRowsOf db org (arg_sku args))
    ∧ matchMoves (length (surplusListOf (analyse sm nm <$> bufferRowsOf db org (arg_sku args)))
                  + length (deficitListOf (analyse sm nm <$> bufferRowsOf db org (arg_sku args))))
        (clampNumber (default 5%Q (arg_max_moves args)) 1 20) []
        (surplusListOf (analyse sm nm <$> bufferRowsOf db org (arg_sku args)))
        (deficitListOf (analyse sm nm <$> bufferRowsOf db org (arg_sku args)))
      = Some (suggestions plan)
    ∧ ∀ b', b' ∈ bufferRowsOf db org (arg_sku args) →
        onHand (analyse sm nm b')
        = Num.sum (batchQuantities (stock_snapshots db) org b'.1.2 (arg_sku args)
                     (DateFns.dateStart (effective_date plan))).
Proof.
  intros Hplan _. destruct (suggestRebalance_Plan _ _ _ _ _ _ Hplan)
    as (dist & Hload & Hne & Hw & Heff & Hmoves).
  eexists _, _. split; [exact Hw |]. split; [exact Hmoves |].
  intros b' Hb'.
  destruct (distribution_stock _ _ _ _ _ _ b'.1.2 Hload) as [Hday Hstock].
  { apply list_elem_of_fmap. by exists b'. }
  rewrite Heff, Hday. exact Hstock.
Qed.

Lemma analyse_excess sm nm db org sku eff (b : buffers_key * buffers_val) :
  onHand (analyse sm nm b) = Num.sum (batchQuantities (stock_snapshots db) org b.1.2 sku eff) →
  ((0 < surplus (analyse sm nm b))%Q ↔ (0 < excess db org sku eff b)%Q)
  ∧ ((0 < deficit (analyse sm nm b))%Q ↔ (excess db org sku eff b < 0)%Q)
  ∧ ((0 < excess db org sku eff b)%Q →
       (surplus (analyse sm nm b) == excess db org sku eff b)%Q)
  ∧ ((excess db org sku eff b < 0)%Q →
       (deficit (analyse sm nm b) == - excess db org sku eff b)%Q)
  ∧ (surplus (analyse sm nm b) - deficit (analyse sm nm b) == excess db org sku eff b)%Q.
Proof.
  unfold excess. intros <-. cbn. unfold mathMax.
  set (o := default 0%Q (sm !! b.1.2)). set (t := buffer_qty b.2).
  destruct (Qlt_le_dec 0 (o - t)); destruct (Qlt_le_dec 0 (t - o));
    repeat split; intros; lra.
Qed.

Lemma roundNumber_comp (x y : Q) (p : nat) :
  (x == y)%Q → (Num.roundNumber x p == Num.roundNumber y p)%Q.
Proof. intros H. apply Qle_antisym; apply roundNumber_mono; lra. Qed.

Lemma mathMin_comp (a b a' b' : Q) :
  (a == a')%Q → (b == b')%Q → (mathMin a b == mathMin a' b')%Q.
Proof.
  intros Ha Hb. unfold mathMin.
  destruct (Qlt_le_dec b a); destruct (Qlt_le_dec b' a'); lra.
Qed.

Lemma roundNumber_of_zero (x : Q) (p : nat) : (x == 0)%Q → (Num.roundNumber x p == 0)%Q.
Proof.
  intros Hx. apply Qle_antisym; [| apply roundNumber_nonneg; lra].
  apply (Qle_trans _ (Num.roundNumber 0 p)); [apply roundNumber_mono; lra |].
  pose proof (roundNumber_zero p). lra.
Qed.

(** X17: the number of suggested moves is below the number of warehouses
    with a buffer for the SKU, at most 20, below max_moves + 1 after
    clamping to 1..20, and at most 5 when max_moves is not given. *)
Theorem suggestRebalance_count pd wt db org args plan :
  suggestRebalance pd wt db org args = Plan plan →
  (length (suggestions plan) < length (warehouses plan))%nat
  ∧ length (warehouses plan) = length (bufferRowsOf db org (arg_sku args))
  ∧ (length (suggestions plan) ≤ 20)%nat
  ∧ (inject_Z (Z.of_nat (length (suggestions plan)))
     < clampNumber (default 5%Q (arg_max_moves args)) 1 20 + 1)%Q
  ∧ (arg_max_moves args = None → (length (suggestions plan) ≤ 5)%nat).
Proof.
  intros Hplan. destruct (suggestRebalance_Plan _ _ _ _ _ _ Hplan)
    as (dist & Hload & Hne & Hw & _ & Hmoves).
  set (bufferRows := bufferRowsOf db org (arg_sku args)) in *.
  set (sm := stockMapOf dist.2) in *.
  set (nm := nameMapOf wt _) in *.
  set (S := surplusListOf _) in *. set (D := deficitListOf _) in *.
  destruct (clampNumber_bounds (default 5%Q (arg_max_moves args)) 1 20 ltac:(lra))
    as [Hlo Hhi].
  destruct (matchMoves_spec (length S + length D)
              (clampNumber (default 5%Q (arg_max_moves args)) 1 20) [] S D (le_n _))
    as (ms & Hms & Hcount & Hmax & _).
  rewrite Hmoves in Hms. injection Hms as Hms. cbn in Hms. subst ms.
  pose proof (lists_length sm nm bufferRows) as Hlen. cbv zeta in Hlen.
  fold S D in Hlen.
  assert (Hwl : length (warehouses plan) = length bufferRows).
  { by rewrite Hw, !length_fmap. }
  assert (Hpos : (0 < length bufferRows)%nat).
  { destruct bufferRows; [done | cbn; lia]. }
  assert (Hq : (inject_Z (Z.of_nat (length (suggestions plan)))
                < clampNumber (default 5%Q (arg_max_moves args)) 1 20 + 1)%Q).
  { destruct (suggestions plan) as [|m0 ms0] eqn:Es.
    - change (inject_Z (Z.of_nat (length (@nil Move)))) with 0%Q. lra.
    - by apply Hmax. }
  split; [| split; [done |]; split; [| split; [done |]]].
  - rewrite Hwl. destruct Hcount as [-> | Hcount]; [done | lia].
  - assert (Hz : (Z.of_nat (length (suggestions plan)) < 21)%Z).
    { rewrite Zlt_Qlt. change (inject_Z 21) with (20 + 1)%Q. lra. }
    lia.
  - intros Hnone. rewrite Hnone in Hq.
    assert (Hz : (Z.of_nat (length (suggestions plan)) < 6)%Z).
    { rewrite Zlt_Qlt. eapply Qlt_le_trans; [exact Hq |]. by vm_compute. }
    lia.
Qed.

Lemma suggestRebalance_count_witness :
  ∃ plan, MoreExamples.transferResult = Plan plan
    ∧ length (suggestions plan) = 2%nat
    ∧ (length (suggestions plan) < length (warehouses plan))%nat.
Proof.
  eexists. split; [vm_compute; reflexivity |]. split; [reflexivity |].
  apply (suggestRebalance_count MoreExamples.parseDate MoreExamples.warehouseTable
           MoreExamples.dbTransfer Examples.org (MoreExamples.rebalanceArgs None)).
  vm_compute; reflexivity.
Defined.

(** X18: every suggested move goes from a warehouse of the result whose
    stock is above its target (deficit 0) to a different warehouse of the
    result whose stock is below its target (surplus 0); its quantity is
    not negative and exceeds neither the reported surplus of the donor nor
    the reported deficit of the receiver. *)
Theorem suggestRebalance_moves pd wt db org args plan m :
  suggestRebalance pd wt db org args = Plan plan →
  m ∈ suggestions plan →
  ∃ d r, d ∈ warehouses plan ∧ r ∈ warehouses plan
    ∧ move_from m = (wl_warehouse_id d, wl_warehouse_name d)
    ∧ move_to m = (wl_warehouse_id r, wl_warehouse_name r)
    ∧ wl_warehouse_id d ≠ wl_warehouse_id r
    ∧ (0 <= qty m)%Q ∧ (qty m <= wl_surplus d)%Q ∧ (qty m <= wl_deficit r)%Q
    ∧ (wl_deficit d == 0)%Q ∧ (wl_surplus r == 0)%Q.
Proof.
  intros Hplan Hm. destruct (suggestRebalance_Plan _ _ _ _ _ _ Hplan)
    as (dist & Hload & Hne & Hw & _ & Hmoves).
  set (bufferRows := bufferRowsOf db org (arg_sku args)) in *.
  set (sm := stockMapOf dist.2) in *.
  set (nm := nameMapOf wt _) in *.
  set (S := surplusListOf _) in *. set (D := deficitListOf _) in *.
  destruct (matchMoves_spec (length S + length D)
              (clampNumber (default 5%Q (arg_max_moves args)) 1 20) [] S D (le_n _))
    as (ms & Hms & _ & _ & Hall).
  rewrite Hmoves in Hms. injection Hms as Hms. cbn in Hms. subst ms.
  rewrite Forall_forall in Hall.
  destruct (Hall m Hm) as (da & ra & Hda & Hra & Hf & Ht & H0 & Hqs & Hqd).
  apply surplusListOf_elem in Hda as [Hds Hda].
  apply deficitListOf_elem in Hra as [Hrd Hra].
  pose proof Hda as Hda'. pose proof Hra as Hra'.
  apply list_elem_of_fmap in Hda' as (bd & Hbd & Hbdin).
  apply list_elem_of_fmap in Hra' as (br & Hbr & Hbrin).
  exists (lineOf da), (lineOf ra).
  split; [rewrite Hw; by apply list_elem_of_fmap_2 |].
  split; [rewrite Hw; by apply list_elem_of_fmap_2 |].
  split; [done |]. split; [done |]. split; [| split; [done |]; split; [done |]; split; [done |]].
  - cbn. intros Heq.
    assert (Hsame : bd = br).
    { apply (NoDup_fmap_elem_inj (λ row : buffers_key * buffers_val, row.1.2)
               (bufferRowsOf db org (arg_sku args))); try done.
      - apply bufferRowsOf_NoDup.
      - subst da ra. exact Heq. }
    subst br. subst da ra. by apply (analyse_exclusive sm nm bd).
  - split; cbn.
    + assert (Hz : (deficit da == 0)%Q).
      { subst da. pose proof (analyse_exclusive sm nm bd Hds) as Hex.
        revert Hex. cbn. unfold mathMax.
        destruct (Qlt_le_dec 0 _) as [Hlt | Hle]; [intros Hex; by destruct Hex | done]. }
      by apply roundNumber_of_zero.
    + assert (Hz : (surplus ra == 0)%Q).
      { subst ra. pose proof (λ H, analyse_exclusive sm nm br H Hrd) as Hex.
        revert Hex. cbn. unfold mathMax.
        destruct (Qlt_le_dec 0 _) as [Hlt | Hle]; [intros Hex; by destruct Hex | done]. }
      by apply roundNumber_of_zero.
Qed.

Lemma suggestRebalance_moves_witness :
  ∃ plan m, MoreExamples.transferResult = Plan plan
    ∧ suggestions plan !! 1%nat = Some m
    ∧ ∃ d r, d ∈ warehouses plan ∧ r ∈ warehouses plan
        ∧ move_from m = (wl_warehouse_id d, wl_warehouse_name d)
        ∧ move_to m = (wl_warehouse_id r, wl_warehouse_name r)
        ∧ wl_warehouse_id d ≠ wl_warehouse_id r
        ∧ (0 <= qty m)%Q ∧ (qty m <= wl_surplus d)%Q ∧ (qty m <= wl_deficit r)%Q
        ∧ (wl_deficit d == 0)%Q ∧ (wl_surplus r == 0)%Q.
Proof.
  eexists _, _. split; [vm_compute; reflexivity |]. split; [reflexivity |].
  apply (suggestRebalance_moves MoreExamples.parseDate MoreExamples.warehouseTable
           MoreExamples.dbTransfer Examples.org (MoreExamples.rebalanceArgs None)).
  - vm_compute; reflexivity.
  - right. left.
Defined.

(** X19: each warehouse line of a plan belongs to a stored buffer of the
    SKU; its on-hand figure is the rounded sum of the batch quantities of
    the SKU in that warehouse on the effective date (0 when the warehouse
    has no snapshot that day), and target, zone, surplus and deficit
    follow from that sum and the stored buffer. *)
Theorem suggestRebalance_lines pd wt db org args plan l :
  suggestRebalance pd wt db org args = Plan plan →
  l ∈ warehouses plan →
  let stock :=
    Num.sum (batchQuantities (stock_snapshots db) org (wl_warehouse_id l) (arg_sku args)
               (DateFns.dateStart (effective_date plan))) in
  ∃ v, buffers db !! (org, arg_sku args, wl_warehouse_id l) = Some v
    ∧ wl_on_hand l = Num.roundNumber stock 1
    ∧ wl_target l = Num.roundNumber (buffer_qty v) 1
    ∧ wl_zone l = resolveZoneValue stock (red_th v) (yellow_th v)
    ∧ wl_surplus l = Num.roundNumber (mathMax 0 (stock - buffer_qty v)) 1
    ∧ wl_deficit l = Num.roundNumber (mathMax 0 (buffer_qty v - stock)) 1
    ∧ wl_penetration l
      = if Qlt_le_dec 0 (buffer_qty v)
        then Some (Num.roundNumber (stock / buffer_qty v) 2) else None.
Proof.
  intros Hplan Hl. cbv zeta.
  destruct (suggestRebalance_Plan _ _ _ _ _ _ Hplan) as (dist & _ & Hne & _).
  destruct (bufferRowsOf db org (arg_sku args)) as [|b0 bs] eqn:Eb; [done |].
  destruct (plan_onHand pd wt db org args plan b0 Hplan) as (sm & nm & Hw & _ & Hon).
  { rewrite Eb. left. }
  rewrite <- Eb in *. clear Eb Hne b0 bs.
  rewrite Hw in Hl. apply list_elem_of_fmap in Hl as (a & -> & Ha).
  apply list_elem_of_fmap in Ha as (b & -> & Hb).
  specialize (Hon b Hb).
  apply bufferRowsOf_elem in Hb as (Hlk & Ho & Hs).
  destruct b as [[[o s] w] v]. cbn in Hlk, Ho, Hs, Hon. subst o s.
  exists v. split; [exact Hlk |].
  cbn [lineOf wl_warehouse_id wl_on_hand wl_target wl_zone wl_surplus wl_deficit
       wl_penetration analyse warehouse_id onHand target zone surplus deficit penetration
       fst snd] in *.
  by rewrite Hon.
Qed.

Lemma suggestRebalance_lines_witness :
  ∃ plan l, MoreExamples.transferResult = Plan plan
    ∧ warehouses plan !! 1%nat = Some l
    ∧ wl_warehouse_id l = "WH-KYIV" ∧ (wl_on_hand l == 25)%Q
    ∧ let stock :=
        Num.sum (batchQuantities (stock_snapshots MoreExamples.dbTransfer) Examples.org
                   (wl_warehouse_id l) "SKU-001"
                   (DateFns.dateStart (effective_date plan))) in
      ∃ v, buffers MoreExamples.dbTransfer !! (Examples.org, "SKU-001", wl_warehouse_id l)
           = Some v
        ∧ wl_on_hand l = Num.roundNumber stock 1
        ∧ wl_target l = Num.roundNumber (buffer_qty v) 1
        ∧ wl_zone l = resolveZoneValue stock (red_th v) (yellow_th v)
        ∧ wl_surplus l = Num.roundNumber (mathMax 0 (stock - buffer_qty v)) 1
        ∧ wl_deficit l = Num.roundNumber (mathMax 0 (buffer_qty v - stock)) 1
        ∧ wl_penetration l
          = if Qlt_le_dec 0 (buffer_qty v)
            then Some (Num.roundNumber (stock / buffer_qty v) 2) else None.
Proof.
  eexists _, _. split; [vm_compute; reflexivity |]. split; [reflexivity |].
  split; [reflexivity |]. split; [reflexivity |].
  apply (suggestRebalance_lines MoreExamples.parseDate MoreExamples.warehouseTable
           MoreExamples.dbTransfer Examples.org (MoreExamples.rebalanceArgs None)).
  - vm_compute; reflexivity.
  - right. left.
Defined.

(** X20: a plan has no suggested move exactly when no warehouse with a
    buffer holds more than its target on the effective date, or none
    holds less. *)
Theorem suggestRebalance_nothing_to_move pd wt db org args plan :
  suggestRebalance pd wt db org args = Plan plan →
  let excessOf :=
    excess db org (arg_sku args) (DateFns.dateStart (effective_date plan)) in
  suggestions plan = []
  ↔ (∀ b, b ∈ bufferRowsOf db org (arg_sku args) → (excessOf b <= 0)%Q)
    ∨ (∀ b, b ∈ bufferRowsOf db org (arg_sku args) → (0 <= excessOf b)%Q).
Proof.
  intros Hplan. cbv zeta.
  destruct (suggestRebalance_Plan _ _ _ _ _ _ Hplan) as (dist & _ & Hne & _).
  destruct (bufferRowsOf db org (arg_sku args)) as [|b0 bs] eqn:Eb; [done |].
  destruct (plan_onHand pd wt db org args plan b0 Hplan) as (sm & nm & _ & Hmoves & Hon).
  { rewrite Eb. left. }
  rewrite <- Eb in *. clear Eb Hne b0 bs.
  set (bufferRows := bufferRowsOf db org (arg_sku args)) in *.
  set (S := surplusListOf _) in *. set (D := deficitListOf _) in *.
  assert (HS : S = [] ↔ ∀ b, b ∈ bufferRows →
            (excess db org (arg_sku args) (DateFns.dateStart (effective_date plan)) b <= 0)%Q).
  { split.
    - intros HnS b Hb. apply Qnot_lt_le. intros Hpos.
      assert (Hin : analyse sm nm b ∈ S).
      { apply surplusListOf_elem. split; [| by apply list_elem_of_fmap_2].
        by apply (analyse_excess sm nm db org (arg_sku args) _ b (Hon b Hb)). }
      rewrite HnS in Hin. by apply elem_of_nil in Hin.
    - intros Hall. destruct S as [|a S0] eqn:ES; [done |]. exfalso.
      assert (Hin : a ∈ S) by (rewrite ES; left).
      apply surplusListOf_elem in Hin as [Hpos Hin].
      apply list_elem_of_fmap in Hin as (b & -> & Hb).
      apply (analyse_excess sm nm db org (arg_sku args) _ b (Hon b Hb)) in Hpos.
      specialize (Hall b Hb). lra. }
  assert (HD : D = [] ↔ ∀ b, b ∈ bufferRows →
            (0 <= excess db org (arg_sku args) (DateFns.dateStart (effective_date plan)) b)%Q).
  { split.
    - intros HnD b Hb. apply Qnot_lt_le. intros Hneg.
      assert (Hin : analyse sm nm b ∈ D).
      { apply deficitListOf_elem. split; [| by apply list_elem_of_fmap_2].
        by apply (analyse_excess sm nm db org (arg_sku args) _ b (Hon b Hb)). }
      rewrite HnD in Hin. by apply elem_of_nil in Hin.
    - intros Hall. destruct D as [|a D0] eqn:ED; [done |]. exfalso.
      assert (Hin : a ∈ D) by (rewrite ED; left).
      apply deficitListOf_elem in Hin as [Hpos Hin].
      apply list_elem_of_fmap in Hin as (b & -> & Hb).
      apply (analyse_excess sm nm db org (arg_sku args) _ b (Hon b Hb)) in Hpos.
      specialize (Hall b Hb). lra. }
  rewrite <- HS, <- HD. clear HS HD.
  destruct S as [|d S0] eqn:ES.
  { rewrite matchMoves_nil_l in Hmoves. split; [by left | intros _; congruence]. }
  destruct D as [|r D0] eqn:ED.
  { rewrite matchMoves_nil_r in Hmoves. split; [by right | intros _; congruence]. }
  split; [| by intros [? | ?]]. intros Hnil. exfalso.
  assert (Hd : (0 < surplus d)%Q).
  { assert (Hin : d ∈ S) by (rewrite ES; left). by apply surplusListOf_elem in Hin as [? _]. }
  assert (Hr : (0 < deficit r)%Q).
  { assert (Hin : r ∈ D) by (rewrite ED; left). by apply deficitListOf_elem in Hin as [? _]. }
  destruct (clampNumber_bounds (default 5%Q (arg_max_moves args)) 1 20 ltac:(lra))
    as [Hlo _].
  destruct (matchMoves_first (length (d :: S0) + length (r :: D0))
              (clampNumber (default 5%Q (arg_max_moves args)) 1 20) d r S0 D0
              (le_n _) ltac:(lra) Hd Hr) as (ms & Hms).
  rewrite Hms in Hmoves. congruence.
Qed.

Lemma suggestRebalance_nothing_to_move_witness :
  ∃ plan, MoreExamples.transferResult = Plan plan
    ∧ length (suggestions plan) = 2%nat
    ∧ let excessOf :=
        excess MoreExamples.dbTransfer Examples.org "SKU-001"
          (DateFns.dateStart (effective_date plan)) in
      suggestions plan = []
      ↔ (∀ b, b ∈ bufferRowsOf MoreExamples.dbTransfer Examples.org "SKU-001" →
           (excessOf b <= 0)%Q)
        ∨ (∀ b, b ∈ bufferRowsOf MoreExamples.dbTransfer Examples.org "SKU-001" →
             (0 <= excessOf b)%Q).
Proof.
  eexists. split; [vm_compute; reflexivity |]. split; [reflexivity |].
  apply (suggestRebalance_nothing_to_move MoreExamples.parseDate
           MoreExamples.warehouseTable MoreExamples.dbTransfer Examples.org
           (MoreExamples.rebalanceArgs None)).
  vm_compute; reflexivity.
Defined.

(** X21: the first suggested move goes from the warehouse with the largest
    excess of stock over target to the warehouse with the largest
    shortfall, and its quantity is the smaller of the two, rounded to one
    decimal. *)
Theorem suggestRebalance_first_move pd wt db org args plan m :
  suggestRebalance pd wt db org args = Plan plan →
  head (suggestions plan) = Some m →
  let excessOf :=
    excess db org (arg_sku args) (DateFns.dateStart (effective_date plan)) in
  ∃ bd br, bd ∈ bufferRowsOf db org (arg_sku args)
    ∧ br ∈ bufferRowsOf db org (arg_sku args)
    ∧ (move_from m).1 = bd.1.2 ∧ (move_to m).1 = br.1.2
    ∧ (0 < excessOf bd)%Q ∧ (excessOf br < 0)%Q
    ∧ (∀ b, b ∈ bufferRowsOf db org (arg_sku args) →
         (excessOf b <= excessOf bd)%Q ∧ (excessOf br <= excessOf b)%Q)
    ∧ (qty m == Num.roundNumber (mathMin (excessOf bd) (- excessOf br)) 1)%Q.
Proof.
  intros Hplan Hhead. cbv zeta.
  destruct (suggestRebalance_Plan _ _ _ _ _ _ Hplan) as (dist & _ & Hne & _).
  destruct (bufferRowsOf db org (arg_sku args)) as [|b0 bs] eqn:Eb; [done |].
  destruct (plan_onHand pd wt db org args plan b0 Hplan) as (sm & nm & _ & Hmoves & Hon).
  { rewrite Eb. left. }
  rewrite <- Eb in *. clear Eb Hne b0 bs.
  set (bufferRows := bufferRowsOf db org (arg_sku args)) in *.
  set (eff := DateFns.dateStart (effective_date plan)) in *.
  pose proof (λ b Hb, analyse_excess sm nm db org (arg_sku args) eff b (Hon b Hb)) as Hex.
  destruct (surplusListOf (analyse sm nm <$> bufferRows)) as [|d S0] eqn:ES.
  { rewrite matchMoves_nil_l in Hmoves. injection Hmoves as Hm.
    by rewrite <- Hm in Hhead. }
  destruct (deficitListOf (analyse sm nm <$> bufferRows)) as [|r D0] eqn:ED.
  { rewrite matchMoves_nil_r in Hmoves. injection Hmoves as Hm.
    by rewrite <- Hm in Hhead. }
  assert (HdS : d ∈ surplusListOf (analyse sm nm <$> bufferRows)) by (rewrite ES; left).
  assert (HrD : r ∈ deficitListOf (analyse sm nm <$> bufferRows)) by (rewrite ED; left).
  apply surplusListOf_elem in HdS as [Hd Hdin].
  apply deficitListOf_elem in HrD as [Hr Hrin].
  destruct (clampNumber_bounds (default 5%Q (arg_max_moves args)) 1 20 ltac:(lra))
    as [Hlo _].
  destruct (matchMoves_first (length (d :: S0) + length (r :: D0))
              (clampNumber (default 5%Q (arg_max_moves args)) 1 20) d r S0 D0
              (le_n _) ltac:(lra) Hd Hr) as (ms & Hms).
  rewrite Hms in Hmoves. injection Hmoves as Hmoves. rewrite <- Hmoves in Hhead.
  injection Hhead as <-.
  apply list_elem_of_fmap in Hdin as (bd & Hbd & Hbdin).
  apply list_elem_of_fmap in Hrin as (br & Hbr & Hbrin).
  destruct (Hex bd Hbdin) as (Hd1 & _ & Hd3 & _ & _).
  destruct (Hex br Hbrin) as (_ & Hr2 & _ & Hr4 & _).
  rewrite <- Hbd in Hd1, Hd3. rewrite <- Hbr in Hr2, Hr4.
  exists bd, br. split; [done |]. split; [done |].
  split; [by rewrite Hbd |]. split; [by rewrite Hbr |].
  split; [by apply Hd1 |]. split; [by apply Hr2 |]. split.
  - intros b Hb. destruct (Hex b Hb) as (Hb1 & Hb2 & Hb3 & Hb4 & _).
    pose proof (sortDesc_head surplus _ d S0 ES) as Hmaxd.
    pose proof (sortDesc_head deficit _ r D0 ED) as Hmaxr.
    split.
    + destruct (Qlt_le_dec 0 (excess db org (arg_sku args) eff b)) as [Hpos | Hnp].
      * specialize (Hmaxd (analyse sm nm b)). rewrite list_elem_of_filter in Hmaxd.
        specialize (Hmaxd (conj (proj2 Hb1 Hpos) (list_elem_of_fmap_2 _ _ _ Hb))).
        specialize (Hb3 Hpos). specialize (Hd3 (proj1 Hd1 Hd)). lra.
      * pose proof (proj1 Hd1 Hd). lra.
    + destruct (Qlt_le_dec (excess db org (arg_sku args) eff b) 0) as [Hneg | Hnn].
      * specialize (Hmaxr (analyse sm nm b)). rewrite list_elem_of_filter in Hmaxr.
        specialize (Hmaxr (conj (proj2 Hb2 Hneg) (list_elem_of_fmap_2 _ _ _ Hb))).
        specialize (Hb4 Hneg). specialize (Hr4 (proj1 Hr2 Hr)). lra.
      * pose proof (proj1 Hr2 Hr). lra.
  - cbn [moveOf qty]. apply roundNumber_comp, mathMin_comp.
    + by apply Hd3, Hd1.
    + by apply Hr4, Hr2.
Qed.

Lemma suggestRebalance_first_move_witness :
  ∃ plan m, MoreExamples.transferResult = Plan plan
    ∧ head (suggestions plan) = Some m
    ∧ (move_from m).1 = "WH-KYIV" ∧ (move_to m).1 = "WH-ODESA" ∧ (qty m == 8)%Q
    ∧ let excessOf :=
        excess MoreExamples.dbTransfer Examples.org "SKU-001"
          (DateFns.dateStart (effective_date plan)) in
      ∃ bd br, bd ∈ bufferRowsOf MoreExamples.dbTransfer Examples.org "SKU-001"
        ∧ br ∈ bufferRowsOf MoreExamples.dbTransfer Examples.org "SKU-001"
        ∧ (move_from m).1 = bd.1.2 ∧ (move_to m).1 = br.1.2
        ∧ (0 < excessOf bd)%Q ∧ (excessOf br < 0)%Q
        ∧ (∀ b, b ∈ bufferRowsOf MoreExamples.dbTransfer Examples.org "SKU-001" →
             (excessOf b <= excessOf bd)%Q ∧ (excessOf br <= excessOf b)%Q)
        ∧ (qty m == Num.roundNumber (mathMin (excessOf bd) (- excessOf br)) 1)%Q.
Proof.
  eexists _, _. split; [vm_compute; reflexivity |]. split; [reflexivity |].
  split; [reflexivity |]. split; [reflexivity |]. split; [reflexivity |].
  apply (suggestRebalance_first_move MoreExamples.parseDate MoreExamples.warehouseTable
           MoreExamples.dbTransfer Examples.org (MoreExamples.rebalanceArgs None)).
  - vm_compute; reflexivity.
  - reflexivity.
Defined.

(** X22: the tool answers with a plan exactly when some stock snapshot of
    the SKU, of whatever date, lies in a warehouse that has a stored
    buffer for the SKU; otherwise it answers with a message only. *)
Theorem suggestRebalance_plan_iff pd wt db org args :
  (∃ plan, suggestRebalance pd wt db org args = Plan plan)
  ↔ ∃ r v, r ∈ stock_snapshots db ∧ ss_org_id r = org ∧ ss_sku r = arg_sku args
      ∧ buffers db !! (org, arg_sku args, ss_warehouse_id r) = Some v.
Proof.
  split.
  - intros [plan Hplan].
    destruct (suggestRebalance_Plan _ _ _ _ _ _ Hplan) as (dist & Hload & Hne & _).
    assert (Hsome : ¬ ∀ r, r ∈ stock_snapshots db →
              ¬ baseWhere org (arg_sku args)
                  ((λ row : buffers_key * buffers_val, row.1.2)
                     <$> bufferRowsOf db org (arg_sku args)) r).
    { intros Hno.
      pose proof (proj2 (loadStockDistribution_None _ _ _
                           (safeParseDate pd (arg_date args)) _) Hno) as Hnone.
      congruence. }
    destruct (filter (baseWhere org (arg_sku args)
                ((λ row : buffers_key * buffers_val, row.1.2)
                   <$> bufferRowsOf db org (arg_sku args))) (stock_snapshots db))
      as [|r rs] eqn:Ef.
    { exfalso. apply Hsome. intros r Hr Hw.
      assert (Hin : r ∈ filter (baseWhere org (arg_sku args)
                ((λ row : buffers_key * buffers_val, row.1.2)
                   <$> bufferRowsOf db org (arg_sku args))) (stock_snapshots db))
        by by apply list_elem_of_filter.
      rewrite Ef in Hin. by apply elem_of_nil in Hin. }
    assert (Hin : r ∈ filter (baseWhere org (arg_sku args)
                ((λ row : buffers_key * buffers_val, row.1.2)
                   <$> bufferRowsOf db org (arg_sku args))) (stock_snapshots db))
      by (rewrite Ef; left).
    apply list_elem_of_filter in Hin as [(Ho & Hs & Hw) Hr].
    destruct Hw as [Hnil | Hw].
    { apply fmap_nil_inv in Hnil. by destruct Hne. }
    apply list_elem_of_fmap in Hw as (b & Hwb & Hb).
    apply bufferRowsOf_elem in Hb as (Hlk & Hbo & Hbs).
    destruct b as [[[o s] w] v]. cbn in *. subst. by exists r, v.
  - intros (r & v & Hr & Ho & Hs & Hlk).
    assert (Hb : ((org, arg_sku args, ss_warehouse_id r), v)
                 ∈ bufferRowsOf db org (arg_sku args)).
    { by apply bufferRowsOf_elem. }
    unfold suggestRebalance. cbv zeta.
    destruct (bufferRowsOf db org (arg_sku args)) as [|b0 bs] eqn:Eb.
    { by apply elem_of_nil in Hb. }
    rewrite <- Eb in *.
    destruct (loadStockDistribution _ _ _ _ _) as [dist |] eqn:El; [by eexists |].
    exfalso. apply (proj1 (loadStockDistribution_None _ _ _ _ _) El r Hr).
    split; [done |]. split; [done |]. right.
    apply list_elem_of_fmap. exists ((org, arg_sku args, ss_warehouse_id r), v).
    split; [done | exact Hb].
Qed.

(** X23: a stock distribution is missing exactly when the SKU has no
    snapshot at all in the warehouses asked for.  Otherwise its rows are
    the per-warehouse sums of one day, one row per warehouse: the requested
    day when that day has a snapshot, else the day of the latest snapshot
    of any date, also one after the requested day. *)
Theorem loadStockDistribution_cases snaps org sku req whs :
  match loadStockDistribution snaps org sku req whs with
  | None => ∀ r, r ∈ snaps → ¬ baseWhere org sku whs r
  | Some (eff, rows) =>
      rows = queryRange snaps org sku whs eff ∧ rows ≠ []
      ∧ NoDup (sgr_warehouse_id <$> rows)
      ∧ (∀ w, whs = [] ∨ w ∈ whs →
           stockAt rows w = Num.sum (batchQuantities snaps org w sku eff))
      ∧ ((∃ r0, req = Some r0 ∧ eff = DateFns.startOfDay r0)
         ∨ ((∀ r0 r, req = Some r0 → r ∈ snaps →
               ¬ rangeWhere org sku whs (DateFns.startOfDay r0) r)
            ∧ ∃ r, r ∈ snaps ∧ baseWhere org sku whs r
                ∧ eff = DateFns.startOfDay (ss_date r)
                ∧ ∀ r', r' ∈ snaps → baseWhere org sku whs r' →
                    (ss_date r' ≤ ss_date r)%Z))
  end.
Proof.
  destruct (loadStockDistribution snaps org sku req whs) as [[eff rows] |] eqn:E.
  - destruct (loadStockDistribution_Some _ _ _ _ _ _ _ E) as (Hrows & Hne & Hcases).
    split; [done |]. split; [done |].
    split; [rewrite Hrows; apply queryRange_NoDup |].
    split; [intros w Hw; rewrite Hrows; by apply stockAt_queryRange |].
    destruct Hcases as [Hreq | [Hnone Hlatest]]; [by left | right].
    split; [| done]. intros r0 r Hr0 Hr.
    exact (proj1 (queryRange_nil_iff snaps org sku whs _) (Hnone r0 Hr0) r Hr).
  - exact (proj1 (loadStockDistribution_None _ _ _ _ _) E).
Qed.

End RebalanceExtras.

(** ** The explain payload *)

Section ExplainExtras.
Import Schema Explain Views.







Global Instance dateAsc_total : Total dateAsc.
Proof. intros a b. unfold dateAsc. lia. Qed.


Lemma inner_join (orders : list purchase_orders_row) (params : ExplainParams)
    (pol : purchase_order_lines_row) :
  NoDup ((λ po, (po_org_id po, po_po_id po)) <$> orders) →
  (po ← orders;
   if decide (po_org_id po = pol_org_id pol ∧ po_po_id po = pol_po_id pol
              ∧ pol_org_id pol = orgId params ∧ pol_sku pol = sku params
              ∧ po_received_at po = None)
   then [pol] else [])
  = if decide (openOrder orders params pol) then [pol] else [].
Proof.
  induction orders as [|po orders IH]; intros Hnd.
  - cbn. destruct (decide _) as [(_ & _ & Hex) | _]; [by apply Exists_nil in Hex | done].
  - rewrite fmap_cons in Hnd. apply NoDup_cons in Hnd as [Hnin Hnd].
    cbn [mbind list_bind]. rewrite (IH Hnd). clear IH.
    destruct (decide (po_org_id po = pol_org_id pol ∧ _)) as [(H1 & H2 & H3 & H4 & H5) | Hno].
    + rewrite (decide_True (P := openOrder (po :: orders) params pol)).
      2:{ split; [done |]. split; [done |]. by left. }
      rewrite decide_False; [done |].
      intros (_ & _ & Hex). apply Exists_exists in Hex as (po' & Hpo' & E1 & E2 & _).
      apply Hnin. apply list_elem_of_fmap. exists po'. split; [| done]. congruence.
    + cbn [app]. destruct (decide (openOrder orders params pol)) as [Ho | Ho].
      * rewrite decide_True; [done |]. destruct Ho as (? & ? & Hex).
        split; [done |]. split; [done |]. by right.
      * rewrite decide_False; [done |]. intros (H3 & H4 & Hex).
        apply Exists_cons in Hex as [(H1 & H2 & H5) | Hex]; [by destruct Hno |].
        by destruct Ho.
Qed.

(** X30: with the primary key of purchase_orders respected, the inbound
    quantity is the sum of the quantities of the order lines of the SKU in
    the organisation whose order exists and is not yet received; the
    warehouse of the request plays no part, and a line without an order row
    counts for nothing. *)
Theorem computeInboundQty_open_lines orders lines params :
  NoDup ((λ po, (po_org_id po, po_po_id po)) <$> orders) →
  computeInboundQty orders lines params
  = Num.sum (pol_qty <$> filter (openOrder orders params) lines).
Proof.
  intros Hnd. unfold computeInboundQty, inboundLines. f_equal. f_equal.
  induction lines as [|pol lines IH]; [done |].
  cbn [mbind list_bind]. rewrite filter_cons, IH.
  change (list_bind _ _ ?f orders) with (orders ≫= f).
  rewrite (inner_join orders params pol Hnd).
  by destruct (decide (openOrder orders params pol)).
Qed.

Lemma computeInboundQty_open_lines_witness :
  computeInboundQty MoreExamples.orders MoreExamples.orderLines MoreExamples.explainParams
  = Num.sum (pol_qty <$> filter (openOrder MoreExamples.orders MoreExamples.explainParams)
                           MoreExamples.orderLines).
Proof.
  apply (computeInboundQty_open_lines MoreExamples.orders MoreExamples.orderLines
           MoreExamples.explainParams).
  apply (bool_decide_unpack _). vm_compute. reflexivity.
Defined.

End ExplainExtras.
